(** * FlashCard back end: the record gateway of [backEnd/app.py]

    A shallow embedding of the Flask routes of [app.py] and the proofs of
    the properties its specification states about them.

    - [Py]       the Python values the routes handle (parsed JSON), the
                 dict/str/int built-ins they call and the exceptions those
                 raise;
    - [Http]     the requests the routes send through [requests] and the
                 replies they read;
    - [Gateway]  the routes themselves, over any remote store, any
                 [config.py], any fixture files and any standard output;
    - [Store]    a table store that follows the contract the gateway
                 expects from its remote collaborator;
    - [Demo]     one deployment, to run the routes on.

    The facts come after the definitions: first those that hold over any
    remote store, then those about the routes run against [Store]. *)

From Stdlib Require Import ZArith List String Ascii Bool Lia Permutation.
From Stdlib Require Import DecimalString DecimalPos.
#[global] Set Warnings "-notation-for-abbreviation".
Import ListNotations.
Local Open Scope string_scope.
Local Open Scope Z_scope.

(* ===================================================================== *)
(** ** Python values *)
(* ===================================================================== *)

Module Py.

(** What [json.load], [request.json] and [response.json()] hand to the
    routes.  A dict is an association list in insertion order; Python keeps
    its keys distinct.  Numbers are integers: the routes never compute with
    a payload number, they only test its truth value. *)
#[local] Set Warnings "-register-all".
Inductive json : Type :=
| JNull
| JBool (b : bool)
| JNum (n : Z)
| JStr (s : string)
| JList (l : list json)
| JDict (d : list (string * json)).

Definition dict := list (string * json).

(** Exception classes the routes can meet.  [JSONDecodeError] is the one of
    [json] and [requests]; [HTTPError] is raised by [raise_for_status];
    [RequestException] stands for a transport failure inside [requests];
    [Exception_] is a plain [Exception(msg)]. *)
Inductive exn_class : Type :=
| ValueError | AttributeError | TypeError | KeyError | IndexError
| FileNotFoundError | JSONDecodeError | HTTPError | RequestException
| Exception_.

Record exn : Type := mk_exn { exn_cls : exn_class; exn_msg : string }.

(** [str(e)] *)
Definition str_exn (e : exn) : string := exn_msg e.

Inductive result (A : Type) : Type :=
| Ok (a : A)
| Raise (e : exn).
Arguments Ok {A} a.
Arguments Raise {A} e.

Definition rbind {A B} (r : result A) (k : A -> result B) : result B :=
  match r with
  | Ok a => k a
  | Raise e => Raise e
  end.

(** [type(v).__name__] *)
Definition type_name (v : json) : string :=
  match v with
  | JNull => "NoneType"
  | JBool _ => "bool"
  | JNum _ => "int"
  | JStr _ => "str"
  | JList _ => "list"
  | JDict _ => "dict"
  end.

(** Truth value of a value, as [if v] / [not v] read it. *)
Definition truthy (v : json) : bool :=
  match v with
  | JNull => false
  | JBool b => b
  | JNum n => negb (n =? 0)
  | JStr s => negb (String.eqb s "")
  | JList l => match l with [] => false | _ => true end
  | JDict d => match d with [] => false | _ => true end
  end.

(** *** dict operations *)

(** [d.get(k)] on a dict: the value, or nothing. *)
Fixpoint dict_get (k : string) (d : dict) : option json :=
  match d with
  | [] => None
  | (k', v) :: d' => if String.eqb k k' then Some v else dict_get k d'
  end.

(** [k in d] *)
Definition dict_mem (k : string) (d : dict) : bool :=
  match dict_get k d with Some _ => true | None => false end.

(** [d[k] = v]: the value of an existing key is replaced where it stands, a
    new key goes to the end.  [{**d, k: v}] builds the same dict. *)
Fixpoint dict_set (k : string) (v : json) (d : dict) : dict :=
  match d with
  | [] => [(k, v)]
  | (k', v') :: d' =>
      if String.eqb k k' then (k, v) :: d' else (k', v') :: dict_set k v d'
  end.

(** [d.pop(k, None)], the dict that is left. *)
Fixpoint dict_pop (k : string) (d : dict) : dict :=
  match d with
  | [] => []
  | (k', v') :: d' =>
      if String.eqb k k' then dict_pop k d' else (k', v') :: dict_pop k d'
  end.

Definition attribute_error (v : json) (attr : string) : exn :=
  mk_exn AttributeError
         ("'" ++ type_name v ++ "' object has no attribute '" ++ attr ++ "'").

(** [v.get(k)] on any value: only a dict has the method. *)
Definition py_get (v : json) (k : string) : result json :=
  match v with
  | JDict d => Ok (match dict_get k d with Some x => x | None => JNull end)
  | _ => Raise (attribute_error v "get")
  end.

(** [v.get(k, '')] *)
Definition py_get_default (v : json) (k : string) (dflt : json) : result json :=
  match v with
  | JDict d => Ok (match dict_get k d with Some x => x | None => dflt end)
  | _ => Raise (attribute_error v "get")
  end.

(** [v.pop(k, None)], returning the object that is left ([v] is mutated in
    place).  A list has a [pop] of one argument only. *)
Definition py_pop (v : json) (k : string) : result json :=
  match v with
  | JDict d => Ok (JDict (dict_pop k d))
  | JList _ => Raise (mk_exn TypeError "pop expected at most 1 argument, got 2")
  | _ => Raise (attribute_error v "pop")
  end.

(** [for x in v]: the elements met.  A dict yields its keys and a str its
    characters. *)
Definition chars (s : string) : list json :=
  map (fun c => JStr (String c EmptyString)) (list_ascii_of_string s).

Definition py_iter (v : json) : result (list json) :=
  match v with
  | JList l => Ok l
  | JDict d => Ok (map (fun kv => JStr (fst kv)) d)
  | JStr s => Ok (chars s)
  | _ => Raise (mk_exn TypeError ("'" ++ type_name v ++ "' object is not iterable"))
  end.

(** [len(v)] *)
Definition py_len (v : json) : result Z :=
  match v with
  | JList l => Ok (Z.of_nat (List.length l))
  | JDict d => Ok (Z.of_nat (List.length d))
  | JStr s => Ok (Z.of_nat (String.length s))
  | _ => Raise (mk_exn TypeError ("object of type '" ++ type_name v ++ "' has no len()"))
  end.

(** [v[0]] *)
Definition py_index0 (v : json) : result json :=
  match v with
  | JList [] => Raise (mk_exn IndexError "list index out of range")
  | JList (x :: _) => Ok x
  | JStr s =>
      match s with
      | EmptyString => Raise (mk_exn IndexError "string index out of range")
      | String c _ => Ok (JStr (String c EmptyString))
      end
  | JDict _ => Raise (mk_exn KeyError "0")
  | _ => Raise (mk_exn TypeError ("'" ++ type_name v ++ "' object is not subscriptable"))
  end.

(** [v[k]] for a string key [k] *)
Definition py_getitem (v : json) (k : string) : result json :=
  match v with
  | JDict d =>
      match dict_get k d with
      | Some x => Ok x
      | None => Raise (mk_exn KeyError ("'" ++ k ++ "'"))
      end
  | JList _ => Raise (mk_exn TypeError "list indices must be integers or slices, not str")
  | JStr _ => Raise (mk_exn TypeError "string indices must be integers, not 'str'")
  | _ => Raise (mk_exn TypeError ("'" ++ type_name v ++ "' object is not subscriptable"))
  end.

(** [v[k] = x], returning the object as it is after the assignment. *)
Definition py_setitem (v : json) (k : string) (x : json) : result json :=
  match v with
  | JDict d => Ok (JDict (dict_set k x d))
  | JList _ => Raise (mk_exn TypeError "list indices must be integers or slices, not str")
  | _ => Raise (mk_exn TypeError
                  ("'" ++ type_name v ++ "' object does not support item assignment"))
  end.

(** The operand of [**] in a dict display must be a mapping. *)
Definition as_mapping (v : json) : result dict :=
  match v with
  | JDict d => Ok d
  | _ => Raise (mk_exn TypeError ("'" ++ type_name v ++ "' object is not a mapping"))
  end.

(** *** str and int built-ins

    A [string] holds the text of a Python [str] in UTF-8: an ASCII
    character is one [ascii], any other character the bytes of its UTF-8
    form. *)

(** [s.startswith(p)]; on UTF-8 a prefix in bytes is a prefix in
    characters. *)
Definition startswith (s p : string) : bool := String.prefix p s.

(** [s.split('_')[-1]]: what follows the last underscore, the whole of [s]
    when it has none. *)
Fixpoint last_segment_from (acc : list ascii) (l : list ascii) : list ascii :=
  match l with
  | [] => acc
  | c :: r =>
      if Ascii.eqb c "_"%char then last_segment_from [] r
      else last_segment_from (acc ++ [c]) r
  end.

Definition split_last (s : string) : string :=
  string_of_list_ascii (last_segment_from [] (list_ascii_of_string s)).

(** **** The characters of a text *)

Definition byte (c : ascii) : Z := Z.of_nat (nat_of_ascii c).

(** The payload of a continuation byte [10xxxxxx]. *)
Definition continuation (c : ascii) : option Z :=
  let b := byte c in
  if (128 <=? b) && (b <? 192) then Some (b - 128) else None.

(** The code points of a text; [None] for bytes that are not the UTF-8
    form of any.  A surrogate is read like every other code point: a [str]
    can hold one. *)
Fixpoint code_points (l : list ascii) : option (list Z) :=
  match l with
  | [] => Some []
  | c :: r =>
      let b := byte c in
      if b <? 128 then option_map (cons b) (code_points r)
      else if b <? 194 then None
      else if b <? 224 then
        match r with
        | c1 :: r' =>
            match continuation c1 with
            | Some x1 => option_map (cons ((b - 192) * 64 + x1)) (code_points r')
            | None => None
            end
        | _ => None
        end
      else if b <? 240 then
        match r with
        | c1 :: c2 :: r' =>
            match continuation c1, continuation c2 with
            | Some x1, Some x2 =>
                let cp := ((b - 224) * 64 + x1) * 64 + x2 in
                if cp <? 2048 then None
                else option_map (cons cp) (code_points r')
            | _, _ => None
            end
        | _ => None
        end
      else if b <? 245 then
        match r with
        | c1 :: c2 :: c3 :: r' =>
            match continuation c1, continuation c2, continuation c3 with
            | Some x1, Some x2, Some x3 =>
                let cp := (((b - 240) * 64 + x1) * 64 + x2) * 64 + x3 in
                if (cp <? 65536) || (1114111 <? cp) then None
                else option_map (cons cp) (code_points r')
            | _, _, _ => None
            end
        | _ => None
        end
      else None
  end.

(** The character database of the interpreter (Unicode 14.0.0, that of
    CPython 3.11).  The decimal digits come in runs of ten, 0 to 9 in
    order: [decimal_zeros] lists the zero of each run. *)
Definition decimal_zeros : list Z :=
  [48; 1632; 1776; 1984; 2406; 2534; 2662; 2790; 2918; 3046; 3174; 3302;
   3430; 3558; 3664; 3792; 3872; 4160; 4240; 6112; 6160; 6470; 6608; 6784;
   6800; 6992; 7088; 7232; 7248; 42528; 43216; 43264; 43472; 43504; 43600;
   44016; 65296; 66720; 68912; 69734; 69872; 69942; 70096; 70384; 70736;
   70864; 71248; 71360; 71472; 71904; 72016; 72784; 73040; 73120; 92768;
   92864; 93008; 120782; 120792; 120802; 120812; 120822; 123200; 123632;
   125264; 130032].

(** [unicodedata.decimal(chr(cp))], [None] when [cp] is no decimal digit. *)
Definition unicode_decimal (cp : Z) : option Z :=
  match find (fun z => (z <=? cp) && (cp <=? z + 9)) decimal_zeros with
  | Some z => Some (cp - z)
  | None => None
  end.

(** The white space characters ([str.isspace]) that are not ASCII. *)
Definition unicode_spaces : list Z :=
  [133; 160; 5760; 8192; 8193; 8194; 8195; 8196; 8197; 8198; 8199; 8200;
   8201; 8202; 8232; 8233; 8239; 8287; 12288].

Definition unicode_space (cp : Z) : bool :=
  existsb (Z.eqb cp) unicode_spaces.

(** **** int()

    [int(s)] reads a [str] in two steps.  The first leaves the characters
    below 127 as they are, turns every other white space character into a
    blank and every other decimal digit into its ASCII digit, and stops at
    a character that is neither, which makes the text no literal
    ([_PyUnicode_TransformDecimalAndSpaceToASCII]).  The second reads the
    ASCII literal ([PyLong_FromString]). *)

Definition int_char (cp : Z) : option ascii :=
  if cp <? 127 then Some (ascii_of_nat (Z.to_nat cp))
  else if unicode_space cp then Some " "%char
  else match unicode_decimal cp with
       | Some d => Some (ascii_of_nat (Z.to_nat (48 + d)))
       | None => None
       end.

Fixpoint int_chars (cps : list Z) : option (list ascii) :=
  match cps with
  | [] => Some []
  | cp :: r =>
      match int_char cp, int_chars r with
      | Some c, Some l => Some (c :: l)
      | _, _ => None
      end
  end.

(** White space of an ASCII literal ([Py_ISSPACE]): tab, LF, VT, FF, CR
    and the blank. *)
Definition is_space (c : ascii) : bool :=
  let n := nat_of_ascii c in
  ((9 <=? n) && (n <=? 13) || (n =? 32))%nat.

(** The value of a digit of an ASCII literal; the first step has turned
    every other decimal digit into one of these. *)
Definition digit_of (c : ascii) : option Z :=
  let n := nat_of_ascii c in
  if ((48 <=? n) && (n <=? 57))%nat then Some (Z.of_nat n - 48) else None.

Fixpoint lstrip (l : list ascii) : list ascii :=
  match l with
  | c :: r => if is_space c then lstrip r else l
  | [] => []
  end.

(** The digits of a literal: a digit, then digits each preceded by at most
    one underscore; then white space to the end.  [acc] is the value read
    so far and [us] says that the last character was an underscore. *)
Fixpoint int_digits (acc : Z) (us : bool) (l : list ascii) : option Z :=
  match l with
  | [] => if us then None else Some acc
  | c :: r =>
      match digit_of c with
      | Some d => int_digits (10 * acc + d) false r
      | None =>
          if Ascii.eqb c "_"%char then
            if us then None else int_digits acc true r
          else if us then None
          else match lstrip l with [] => Some acc | _ => None end
      end
  end.

(** After the sign the literal starts with a digit. *)
Definition int_unsigned (l : list ascii) : option Z :=
  match l with
  | c :: r =>
      match digit_of c with
      | Some d => int_digits d false r
      | None => None
      end
  | [] => None
  end.

(** White space, a sign or none, the digits. *)
Definition int_literal (l : list ascii) : option Z :=
  match lstrip l with
  | c :: r =>
      if Ascii.eqb c "-"%char then option_map Z.opp (int_unsigned r)
      else if Ascii.eqb c "+"%char then int_unsigned r
      else int_unsigned (c :: r)
  | [] => None
  end.

(** [sys.int_info.default_max_str_digits]: the interpreter converts no
    text of more digits into an int and no int of more digits into text
    (the application leaves the limit as it is). *)
Definition int_max_str_digits : Z := 4300.

(** The digits of a literal, leading zeros included. *)
Definition count_digits (l : list ascii) : Z :=
  Z.of_nat (List.length
              (filter (fun c => match digit_of c with Some _ => true | None => false end)
                      l)).

(** [PyLong_FromString], base 10 *)
Definition long_from_string (l : list ascii) : option Z :=
  match int_literal l with
  | Some n => if int_max_str_digits <? count_digits l then None else Some n
  | None => None
  end.

(** [int(s)] for a str [s]; [None] is [ValueError]. *)
Definition py_int (s : string) : option Z :=
  match code_points (list_ascii_of_string s) with
  | Some cps =>
      match int_chars cps with
      | Some l => long_from_string l
      | None => None
      end
  | None => None
  end.

(** The decimal numeral of an int: what [str(n)] and [f"{n}"] give when
    they give a text. *)
Definition str_int (n : Z) : string := NilZero.string_of_int (Z.to_int n).

(** An int of at most [int_max_str_digits] digits. *)
Definition within_digit_limit (n : Z) : bool :=
  Z.of_nat (String.length (str_int (Z.abs n))) <=? int_max_str_digits.

Definition int_limit_exceeded : exn :=
  mk_exn ValueError
         ("Exceeds the limit (4300 digits) for integer string conversion; "
          ++ "use sys.set_int_max_str_digits() to increase the limit").

(** [str(n)], [f"{n}"] *)
Definition format_int (n : Z) : result string :=
  if within_digit_limit n then Ok (str_int n) else Raise int_limit_exceeded.

End Py.

Import Py.

(* ===================================================================== *)
(** ** HTTP exchanges with the remote store *)
(* ===================================================================== *)

Module Http.

(** The arguments of [requests.request(method, url, headers, params, json)];
    [params=None] is the empty list and a numeric parameter is written in
    decimal. *)
Record request : Type := mk_request {
  req_method : string;
  req_url : string;
  req_headers : list (string * string);
  req_params : list (string * string);
  req_json : option json
}.

(** What the routes read of a [requests.Response]: [body_json] is the value
    of [response.json()], [None] when the body is not JSON. *)
Record response : Type := mk_response {
  status_code : Z;
  reason : string;
  text : string;
  body_json : option json
}.

(** A call of [requests] either raises or returns a response. *)
Inductive reply : Type :=
| Failed (e : exn)
| Replied (r : response).

(** [response.raise_for_status()] raises for a status from 400 to 599 and
    [response.ok] is true when it does not.  [url] is the URL of the
    response, query string included; a status from 400 to 599 has three
    digits, which [str] always writes. *)
Definition is_error_status (st : Z) : bool := (400 <=? st) && (st <? 600).

Definition ok (r : response) : bool := negb (is_error_status (status_code r)).

Definition raise_for_status (url : string) (r : response) : result unit :=
  if is_error_status (status_code r) then
    Raise (mk_exn HTTPError
             (str_int (status_code r)
              ++ (if status_code r <? 500 then " Client Error: " else " Server Error: ")
              ++ reason r ++ " for url: " ++ url))
  else Ok tt.

(** [response.json()] *)
Definition response_json (r : response) : result json :=
  match body_json r with
  | Some j => Ok j
  | None => Raise (mk_exn JSONDecodeError "Expecting value: line 1 column 1 (char 0)")
  end.

End Http.

Import Http.

(* ===================================================================== *)
(** ** The routes of app.py *)
(* ===================================================================== *)

(** What a route returns: [jsonify(body), status]. *)
Definition flask_response : Type := json * Z.

(** The process and its surroundings: the state of the remote store, the
    exchanges had with it so far (oldest first) and the flag
    [app.initial_data_checked]. *)
Record world (remote : Type) : Type := mk_world {
  remote_state : remote;
  exchanges : list (request * reply);
  initial_data_checked : bool
}.
Arguments mk_world {remote}.
Arguments remote_state {remote}.
Arguments exchanges {remote}.
Arguments initial_data_checked {remote}.

Section Gateway.

(** [config.py] is not part of the sources: its constants are parameters. *)
Variable SUPABASE_URL : string.
Variable HEADERS : list (string * string).
Variable MODULE_TO_TABLE : list (string * string).

(** The remote store: how it answers a request and what it becomes. *)
Variable remote : Type.
Variable send : request -> remote -> reply * remote.

(** [json.load(open(filename))] for the fixture files. *)
Variable load_file : string -> result json.

(** [print(text)]: writing to the standard output can fail, as it does
    with [UnicodeEncodeError] for a text that the encoding of the stream
    cannot express. *)
Variable print : string -> result unit.

(** Code that reads and changes the world and may raise; an exception
    keeps the effects had before it. *)
Definition M (A : Type) : Type := world remote -> result A * world remote.

Definition ret {A} (a : A) : M A := fun w => (Ok a, w).

Definition raise {A} (e : exn) : M A := fun w => (Raise e, w).

Definition bind {A B} (m : M A) (k : A -> M B) : M B :=
  fun w =>
    match m w with
    | (Ok a, w') => k a w'
    | (Raise e, w') => (Raise e, w')
    end.

Definition lift {A} (r : result A) : M A := fun w => (r, w).

(** [try: m  except Exception as e: h e] *)
Definition try_except {A} (m : M A) (h : exn -> M A) : M A :=
  fun w =>
    match m w with
    | (Ok a, w') => (Ok a, w')
    | (Raise e, w') => h e w'
    end.

(** A route body whose every exception is turned into a response. *)
Definition route (m : M flask_response) (h : exn -> flask_response)
  : world remote -> flask_response * world remote :=
  fun w =>
    match m w with
    | (Ok r, w') => (r, w')
    | (Raise e, w') => (h e, w')
    end.

Notation "x <- m ;; k" := (bind m (fun x => k))
  (at level 61, m at next level, right associativity).
Notation "m ;;; k" := (bind m (fun _ => k))
  (at level 61, right associativity).

(** [requests.request(...)]: the store answers and the exchange is
    recorded. *)
Definition requests_request (rq : request) : M response :=
  fun w =>
    let '(rp, st) := send rq (remote_state w) in
    let w' := mk_world st (exchanges w ++ [(rq, rp)]) (initial_data_checked w) in
    match rp with
    | Failed e => (Raise e, w')
    | Replied r => (Ok r, w')
    end.

Definition table_url (table_name : string) : string :=
  SUPABASE_URL ++ "/rest/v1/" ++ table_name.

(** [MODULE_TO_TABLE.get(module_id)] *)
Fixpoint table_get (module_id : string) (l : list (string * string)) : option string :=
  match l with
  | [] => None
  | (k, v) :: l' => if String.eqb module_id k then Some v else table_get module_id l'
  end.

(** [MODULE_TO_TABLE[module_id]] *)
Definition table_index (module_id : string) : result string :=
  match table_get module_id MODULE_TO_TABLE with
  | Some t => Ok t
  | None => Raise (mk_exn KeyError ("'" ++ module_id ++ "'"))
  end.

(** [supabase_fetch]: an unknown module and a reply with an error status
    raise; a body that is not JSON is read as the empty list (the
    [except JSONDecodeError] clause).  The status written into the message
    is one from 400 to 599, of three digits. *)
Definition supabase_fetch (method module_id : string)
           (params : list (string * string)) (json_data : option json) : M json :=
  match table_get module_id MODULE_TO_TABLE with
  | None | Some EmptyString =>
      raise (mk_exn ValueError ("未知模块: " ++ module_id))
  | Some table_name =>
      response <- requests_request
                    (mk_request method (table_url table_name) HEADERS params json_data) ;;
      if negb (ok response) then
        let error_msg :=
          if String.eqb (text response) "" then reason response else text response in
        raise (mk_exn Exception_
                 ("Supabase API Error " ++ str_int (status_code response)
                  ++ ": " ++ error_msg))
      else
        match body_json response with
        | Some j => ret j
        | None => ret (JList [])
        end
  end.

(** [{**record['data'], 'cardid': record['cardid']}] *)
Definition reshape (record : json) : result json :=
  rbind (py_getitem record "data") (fun data =>
  rbind (as_mapping data) (fun d =>
  rbind (py_getitem record "cardid") (fun cardid =>
  Ok (JDict (dict_set "cardid" cardid d))))).

(** The loop of [transform_from_supabase]; [cards] is the list built so
    far. *)
Fixpoint transform_loop (records : list json) (cards : list json)
  : result (list json) :=
  match records with
  | [] => Ok cards
  | record :: rest =>
      match record with
      | JDict r =>
          if dict_mem "cardid" r && dict_mem "data" r then
            match reshape record with
            | Ok card => transform_loop rest (cards ++ [card])
            | Raise e => Raise e
            end
          else transform_loop rest cards
      | _ => transform_loop rest cards
      end
  end.

Definition transform_from_supabase (records : json) : result (list json) :=
  rbind (py_iter records) (fun rs => transform_loop rs []).

(** [{'cardid': card.get('cardid'), 'data': card}] for each card of a
    fixture or of an import. *)
Fixpoint rows_to_insert (cards : list json) : result (list json) :=
  match cards with
  | [] => Ok []
  | card :: rest =>
      match py_get card "cardid" with
      | Ok cardid =>
          match rows_to_insert rest with
          | Ok rows => Ok (JDict [("cardid", cardid); ("data", card)] :: rows)
          | Raise e => Raise e
          end
      | Raise e => Raise e
      end
  end.

(** [requests.post(url, headers=HEADERS, json=rows,
    params={'on_conflict': 'cardid'}).raise_for_status()] *)
Definition post_rows (table_name : string) (rows : list json) : M unit :=
  response <- requests_request
                (mk_request "POST" (table_url table_name) HEADERS
                            [("on_conflict", "cardid")] (Some (JList rows))) ;;
  lift (raise_for_status (table_url table_name ++ "?on_conflict=cardid") response).

(** [if data_to_insert: requests.post(<url of MODULE_TO_TABLE[module_id]>,
    ...).raise_for_status()], the statement [reset_cards] and [import_cards]
    share. *)
Definition insert_rows (module_id : string) (data_to_insert : list json) : M unit :=
  match data_to_insert with
  | [] => ret tt
  | _ => table_name <- lift (table_index module_id) ;;
         post_rows table_name data_to_insert
  end.

(** Second half of [initialize_data]: load the fixture of an empty table.
    What the [try] block raises, its own [print] included, goes to the
    [except] clauses; what their [print] raises leaves the function. *)
Definition initialize_load (module_id table_name : string) : M unit :=
  let filename := module_id ++ "_cards.json" in
  try_except
    (initial_data <- lift (load_file filename) ;;
     cards <- lift (py_iter initial_data) ;;
     data_to_insert <- lift (rows_to_insert cards) ;;
     match data_to_insert with
     | [] => ret tt
     | _ => post_rows table_name data_to_insert ;;;
            n <- lift (py_len initial_data) ;;
            count <- lift (format_int n) ;;
            lift (print ("📥 成功将 " ++ module_id ++ " 的 " ++ count
                         ++ " 条初始数据导入 Supabase"))
     end)
    (fun e =>
       match exn_cls e with
       | FileNotFoundError =>
           lift (print ("⚠️ 警告: 找不到初始数据文件 " ++ filename ++ "，跳过导入。"))
       | _ =>
           lift (print ("❌ 初始数据导入失败（" ++ module_id ++ "）: " ++ str_exn e))
       end).

(** First half of [initialize_data]: the table to load when the second
    half is to run, nothing where the function returns early. *)
Definition initialize_check (module_id : string) : M (option string) :=
  try_except
    (table_name <- lift (table_index module_id) ;;
     check_response <- requests_request
                         (mk_request "GET" (table_url table_name) HEADERS
                                     [("select", "cardid"); ("limit", "1")] None) ;;
     lift (raise_for_status (table_url table_name ++ "?select=cardid&limit=1")
                            check_response) ;;;
     found <- lift (response_json check_response) ;;
     n <- lift (py_len found) ;;
     if 0 <? n then ret None else ret (Some table_name))
    (fun e =>
       lift (print ("❌ 初始数据检查失败（" ++ module_id ++ "）: " ++ str_exn e)) ;;;
       ret None).

Definition initialize_data (module_id : string) : M unit :=
  checked <- initialize_check module_id ;;
  match checked with
  | None => ret tt
  | Some table_name => initialize_load module_id table_name
  end.

(** The [before_request] hook. *)
Definition check_initial_data : M unit :=
  fun w =>
    if initial_data_checked w then (Ok tt, w)
    else
      (lift (print "--- 尝试连接 Supabase 并检查初始数据 ---") ;;;
       initialize_data "mod1" ;;;
       initialize_data "mod2" ;;;
       (fun w' => (Ok tt, mk_world (remote_state w') (exchanges w') true))) w.

(** GET /api/<module_id>/cards *)
Definition get_all_cards (module_id : string)
  : world remote -> flask_response * world remote :=
  route
    (supabase_records <- supabase_fetch "GET" module_id [("select", "cardid,data")] None ;;
     cards <- lift (transform_from_supabase supabase_records) ;;
     ret (JList cards, 200))
    (fun e => (JDict [("error", JStr (str_exn e))], 500)).

(** The loop of [add_card] over the existing cards. *)
Fixpoint max_card_number (module_id : string) (existing_cards : list json)
         (max_number : Z) : result Z :=
  match existing_cards with
  | [] => Ok max_number
  | card :: rest =>
      match py_get_default card "cardid" (JStr "") with
      | Ok (JStr card_id_str) =>
          if startswith card_id_str (module_id ++ "_card_") then
            match py_int (split_last card_id_str) with
            | Some number =>
                max_card_number module_id rest (Z.max max_number number)
            | None => max_card_number module_id rest max_number
            end
          else max_card_number module_id rest max_number
      | Ok v => Raise (attribute_error v "startswith")
      | Raise e => Raise e
      end
  end.

Definition insert_failed : exn :=
  mk_exn Exception_
         "Supabase 插入卡片失败。请检查 RLS 策略或数据库唯一约束。".

(** The [except] clause of the create, update and delete routes. *)
Definition failure (e : exn) : flask_response :=
  (JDict [("success", JBool false); ("error", JStr (str_exn e))], 500).

(** The block under [if not card_id:] of [add_card]: the id made up for
    the card and the card with that id written into it.  The f-string that
    makes the id raises [ValueError] for a number beyond the digit limit;
    it stands outside the [try] of the loop. *)
Definition assign_card_id (module_id : string) (new_card_data : json) : M (json * json) :=
  existing_cards <- supabase_fetch "GET" module_id [("select", "cardid")] None ;;
  cards <- lift (py_iter existing_cards) ;;
  max_number <- lift (max_card_number module_id cards 0) ;;
  let next_number := max_number + 1 in
  next_text <- lift (format_int next_number) ;;
  let card_id := JStr (module_id ++ "_card_" ++ next_text) in
  new_card_data <- lift (py_setitem new_card_data "cardid" card_id) ;;
  ret (card_id, new_card_data).

(** The end of [add_card], from the result of the insertion on. *)
Definition created (result : json) : Py.result flask_response :=
  if negb (truthy result) then Raise insert_failed
  else
    rbind (py_len result) (fun n =>
    if n =? 0 then Raise insert_failed
    else
      rbind (py_index0 result) (fun first =>
      rbind (reshape first) (fun new_card =>
      Ok (JDict [("success", JBool true); ("card", new_card)], 201)))).

(** POST /api/<module_id>/cards.  [new_card_data] is one object: the id
    written into it is part of the data inserted. *)
Definition add_card (module_id : string) (request_json : json)
  : world remote -> flask_response * world remote :=
  route
    (let new_card_data := request_json in
     card_id <- lift (py_get new_card_data "cardid") ;;
     named <-
       (if negb (truthy card_id) then assign_card_id module_id new_card_data
        else ret (card_id, new_card_data)) ;;
     let '(card_id, new_card_data) := named in
     let data_to_insert := JDict [("cardid", card_id); ("data", new_card_data)] in
     result <- supabase_fetch "POST" module_id [] (Some data_to_insert) ;;
     lift (created result))
    failure.

Definition not_found (card_id : string) : string :=
  "未找到卡片: " ++ card_id ++ " 或更新失败 (可能是 RLS 策略阻止)".

(** The end of [update_card], from the result of the PATCH on. *)
Definition updated (card_id : string) (result : json) : Py.result flask_response :=
  if negb (truthy result) then
    Ok (JDict [("error", JStr (not_found card_id))], 404)
  else
    rbind (transform_from_supabase result) (fun cards =>
    rbind (py_index0 (JList cards)) (fun updated_card =>
    Ok (JDict [("success", JBool true); ("card", updated_card)], 200))).

(** PUT /api/<module_id>/cards/<card_id> *)
Definition update_card (module_id card_id : string) (request_json : json)
  : world remote -> flask_response * world remote :=
  route
    (updates <- lift (py_pop request_json "cardid") ;;
     let data_to_update := JDict [("data", updates)] in
     result <- supabase_fetch "PATCH" module_id
                              [("cardid", "eq." ++ card_id)] (Some data_to_update) ;;
     lift (updated card_id result))
    failure.

(** DELETE /api/<module_id>/cards/<card_id> *)
Definition delete_card (module_id card_id : string)
  : world remote -> flask_response * world remote :=
  route
    (supabase_fetch "DELETE" module_id [("cardid", "eq." ++ card_id)] None ;;;
     ret (JDict [("success", JBool true)], 200))
    failure.

(** POST /api/<module_id>/reset *)
Definition reset_cards (module_id : string)
  : world remote -> flask_response * world remote :=
  route
    (supabase_fetch "DELETE" module_id [("cardid", "not.is.null")] None ;;;
     initial_data <- lift (load_file (module_id ++ "_cards.json")) ;;
     cards <- lift (py_iter initial_data) ;;
     data_to_insert <- lift (rows_to_insert cards) ;;
     insert_rows module_id data_to_insert ;;;
     count <- lift (py_len initial_data) ;;
     ret (JDict [("success", JBool true);
                 ("message", JStr ("模块 " ++ module_id ++ " 已重置"));
                 ("count", JNum count)], 200))
    (fun e => (JDict [("success", JBool false);
                      ("error", JStr ("重置失败: " ++ str_exn e))], 500)).

(** POST /api/<module_id>/import *)
Definition import_cards (module_id : string) (request_json : json)
  : world remote -> flask_response * world remote :=
  route
    (let data := request_json in
     cards_to_import <- lift (py_get data "cards") ;;
     match cards_to_import with
     | JList cards =>
         supabase_fetch "DELETE" module_id [("cardid", "not.is.null")] None ;;;
         data_to_insert <- lift (rows_to_insert cards) ;;
         insert_rows module_id data_to_insert ;;;
         let count := Z.of_nat (List.length cards) in
         ret (JDict [("success", JBool true); ("count", JNum count)], 200)
     | _ => ret (JDict [("error", JStr "导入数据必须是 JSON 数组")], 400)
     end)
    (fun e => (JDict [("success", JBool false);
                      ("error", JStr ("导入失败: " ++ str_exn e))], 500)).

End Gateway.

(* ===================================================================== *)
(** ** The remote store *)
(* ===================================================================== *)

(** The collaborator behind [send], after the contract the specification
    gives for it (section 6): a REST table store in the manner of
    PostgREST, as far as the gateway relies on it.  A table holds rows
    [{cardid, data}] with [cardid] a string and the key of the table; it is
    addressed by the URL of the request.  Rows are filtered by
    [cardid=eq.<id>] or [cardid=not.is.null], columns chosen by [select];
    a write answers with the rows it wrote.  The order in which a GET
    lists the rows is the store's own: it is the parameter [order]. *)

Module Store.

Record row : Type := mk_row { row_id : string; row_data : json }.

Definition state : Type := string -> option (list row).

Definition set_table (url : string) (rows : list row) (st : state) : state :=
  fun u => if String.eqb u url then Some rows else st u.

Definition row_json (r : row) : json :=
  JDict [("cardid", JStr (row_id r)); ("data", row_data r)].

Fixpoint param (k : string) (ps : list (string * string)) : option string :=
  match ps with
  | [] => None
  | (k', v) :: ps' => if String.eqb k k' then Some v else param k ps'
  end.

Inductive row_filter : Type :=
| AnyRow
| IdIs (id : string).

Definition parse_filter (ps : list (string * string)) : option row_filter :=
  match param "cardid" ps with
  | None => Some AnyRow
  | Some f =>
      if String.eqb f "not.is.null" then Some AnyRow
      else match f with
           | String a (String b (String c id)) =>
               if (Ascii.eqb a "e" && Ascii.eqb b "q" && Ascii.eqb c ".")%bool
               then Some (IdIs id) else None
           | _ => None
           end
  end.

Definition selects (f : row_filter) (r : row) : bool :=
  match f with
  | AnyRow => true
  | IdIs id => String.eqb (row_id r) id
  end.

(** The columns [select] names: both when it is absent. *)
Definition project (ps : list (string * string)) : option (row -> json) :=
  match param "select" ps with
  | None => Some row_json
  | Some cols =>
      if String.eqb cols "cardid,data" || String.eqb cols "*" then Some row_json
      else if String.eqb cols "cardid"
           then Some (fun r => JDict [("cardid", JStr (row_id r))])
           else None
  end.

Definition limit (ps : list (string * string)) (rows : list row) : list row :=
  match param "limit" ps with
  | None => rows
  | Some n =>
      match py_int n with
      | Some k => firstn (Z.to_nat k) rows
      | None => rows
      end
  end.

(** A row to insert: an object with a string [cardid]; [data] is null when
    absent. *)
Definition parse_row (j : json) : option row :=
  match j with
  | JDict d =>
      match dict_get "cardid" d with
      | Some (JStr id) =>
          Some (mk_row id (match dict_get "data" d with Some x => x | None => JNull end))
      | _ => None
      end
  | _ => None
  end.

Fixpoint parse_rows (js : list json) : option (list row) :=
  match js with
  | [] => Some []
  | j :: js' =>
      match parse_row j, parse_rows js' with
      | Some r, Some rs => Some (r :: rs)
      | _, _ => None
      end
  end.

Definition has_id (id : string) (rows : list row) : bool :=
  existsb (fun r => String.eqb (row_id r) id) rows.

Fixpoint distinct_ids (rows : list row) : bool :=
  match rows with
  | [] => true
  | r :: rs => negb (has_id (row_id r) rs) && distinct_ids rs
  end.

Definition answer (st : Z) (why : string) (body : option json) : reply :=
  Replied (mk_response st why "" body).

Definition refuse (st : Z) (why : string) : reply :=
  Replied (mk_response st why why None).

(** The columns a PATCH body sets. *)
Definition patch_row (cols : dict) (r : row) : option row :=
  match dict_get "cardid" cols with
  | None => Some (mk_row (row_id r)
                         (match dict_get "data" cols with Some x => x | None => row_data r end))
  | Some (JStr id) =>
      Some (mk_row id (match dict_get "data" cols with Some x => x | None => row_data r end))
  | Some _ => None
  end.

Fixpoint patch_rows (f : row_filter) (cols : dict) (rows : list row) : option (list row) :=
  match rows with
  | [] => Some []
  | r :: rs =>
      match (if selects f r then patch_row cols r else Some r), patch_rows f cols rs with
      | Some r', Some rs' => Some (r' :: rs')
      | _, _ => None
      end
  end.

Section Send.

Variable order : list row -> list row.

Definition get (ps : list (string * string)) (rows : list row) : reply :=
  match parse_filter ps, project ps with
  | Some f, Some cols =>
      answer 200 "OK" (Some (JList (map cols (limit ps (order (filter (selects f) rows))))))
  | _, _ => refuse 400 "Bad Request"
  end.

(** Insert; with [on_conflict=cardid] a row whose id is taken replaces
    the row that holds it. *)
Definition post (ps : list (string * string)) (body : option json)
           (rows : list row) : reply * list row :=
  let new :=
    match body with
    | Some (JList js) => parse_rows js
    | Some j => parse_rows [j]
    | None => None
    end in
  match new with
  | None => (refuse 400 "Bad Request", rows)
  | Some new =>
      if negb (distinct_ids new) then (refuse 409 "Conflict", rows)
      else
        match param "on_conflict" ps with
        | Some _ =>
            (answer 201 "Created" (Some (JList (map row_json new))),
             (filter (fun r => negb (has_id (row_id r) new)) rows ++ new)%list)
        | None =>
            if existsb (fun r => has_id (row_id r) rows) new
            then (refuse 409 "Conflict", rows)
            else (answer 201 "Created" (Some (JList (map row_json new))), (rows ++ new)%list)
        end
  end.

Definition patch (ps : list (string * string)) (body : option json)
           (rows : list row) : reply * list row :=
  match parse_filter ps, body with
  | Some f, Some (JDict cols) =>
      match patch_rows f cols rows, patch_rows f cols (filter (selects f) rows) with
      | Some rows', Some written =>
          if distinct_ids rows'
          then (answer 200 "OK" (Some (JList (map row_json written))), rows')
          else (refuse 409 "Conflict", rows)
      | _, _ => (refuse 400 "Bad Request", rows)
      end
  | _, _ => (refuse 400 "Bad Request", rows)
  end.

Definition delete (ps : list (string * string)) (rows : list row) : reply * list row :=
  match parse_filter ps with
  | Some f =>
      (answer 200 "OK" (Some (JList (map row_json (filter (selects f) rows)))),
       filter (fun r => negb (selects f r)) rows)
  | None => (refuse 400 "Bad Request", rows)
  end.

Definition send (rq : request) (st : state) : reply * state :=
  match st (req_url rq) with
  | None => (refuse 404 "Not Found", st)
  | Some rows =>
      let m := req_method rq in
      if String.eqb m "GET" then (get (req_params rq) rows, st)
      else
        let '(rp, rows') :=
          if String.eqb m "POST" then post (req_params rq) (req_json rq) rows
          else if String.eqb m "PATCH" then patch (req_params rq) (req_json rq) rows
          else if String.eqb m "DELETE" then delete (req_params rq) rows
          else (refuse 405 "Method Not Allowed", rows) in
        (rp, set_table (req_url rq) rows' st)
  end.

End Send.

End Store.

(** A deployment to run the routes on: two modules, their tables in a
    [Store] that lists rows in insertion order, and fixture files. *)
Module Demo.

Definition url := "https://db.example".
Definition headers := [("Prefer", "return=representation")].
Definition modules := [("mod1", "mod1_cards"); ("mod2", "mod2_cards")].

Definition mod1_fixture : json :=
  JList [JDict [("cardid", JStr "mod1_card_1"); ("front", JStr "bonjour"); ("back", JStr "hello")];
         JDict [("cardid", JStr "mod1_card_3"); ("front", JStr "merci"); ("back", JStr "thanks")]].

Definition files (name : string) : result json :=
  if String.eqb name "mod1_cards.json" then Ok mod1_fixture
  else Raise (mk_exn FileNotFoundError
                ("[Errno 2] No such file or directory: '" ++ name ++ "'")).

Definition tables (mod1 mod2 : list Store.row) : Store.state :=
  Store.set_table "https://db.example/rest/v1/mod1_cards" mod1
    (Store.set_table "https://db.example/rest/v1/mod2_cards" mod2 (fun _ => None)).

Definition start (mod1 : list Store.row) : world Store.state :=
  mk_world (tables mod1 []) [] true.

Definition send := Store.send (fun rows => rows).

Definition get_all_cards := get_all_cards url headers modules Store.state send.
Definition add_card := add_card url headers modules Store.state send.
Definition update_card := update_card url headers modules Store.state send.
Definition delete_card := delete_card url headers modules Store.state send.
Definition reset_cards := reset_cards url headers modules Store.state send files.
Definition import_cards := import_cards url headers modules Store.state send.

(** A standard output that takes every text, and one that is closed. *)
Definition print (text : string) : result unit := Ok tt.

Definition closed_output (text : string) : result unit :=
  Raise (mk_exn ValueError "I/O operation on closed file.").

(** A run of nines, for an id at the digit limit. *)
Fixpoint nines (n : nat) : string :=
  match n with
  | O => EmptyString
  | S k => String "9" (nines k)
  end.

(** A remote that performs nothing and answers every request with success
    and an empty body, as a store does that is not asked to return the
    rows it wrote. *)
Definition silent (rq : request) (st : unit) : reply * unit :=
  (Replied (mk_response 201 "Created" "" None), st).

(** The rows of module mod1 in a world. *)
Definition mod1_rows (w : world Store.state) : option (list Store.row) :=
  remote_state w "https://db.example/rest/v1/mod1_cards".

End Demo.

(* ===================================================================== *)
(** ** Notions the properties are stated with *)
(* ===================================================================== *)

(** The world after one more exchange. *)
Definition after {remote} (w : world remote) (rq : request) (rp : reply)
           (st : remote) : world remote :=
  mk_world st (exchanges w ++ [(rq, rp)]) (initial_data_checked w).

(** The exchanges had between [w] and a later world [w']. *)
Definition since {remote} (w w' : world remote) : list (request * reply) :=
  skipn (List.length (exchanges w)) (exchanges w').

(** What [supabase_fetch] makes of a reply. *)
Definition fetch_outcome (rp : reply) : result json :=
  match rp with
  | Failed e => Raise e
  | Replied r =>
      if ok r then Ok (match body_json r with Some j => j | None => JList [] end)
      else Raise (mk_exn Exception_
                    ("Supabase API Error " ++ str_int (status_code r) ++ ": "
                     ++ (if String.eqb (text r) "" then reason r else text r)))
  end.

(** A remote row as the data model has it: an object with a [cardid] and a
    mapping as [data]. *)
Definition is_card_row (record : json) : bool :=
  match record with
  | JDict r =>
      match dict_get "cardid" r, dict_get "data" r with
      | Some _, Some (JDict _) => true
      | _, _ => false
      end
  | _ => false
  end.

(** An element [transform_from_supabase] looks into: a dict with both
    keys. *)
Definition has_both_keys (record : json) : bool :=
  match record with
  | JDict r => dict_mem "cardid" r && dict_mem "data" r
  | _ => false
  end.

(** The flat card [{**data, cardid}] of a card row. *)
Definition flat_card (record : json) : option json :=
  match record with
  | JDict r =>
      match dict_get "cardid" r, dict_get "data" r with
      | Some cardid, Some (JDict d) => Some (JDict (dict_set "cardid" cardid d))
      | _, _ => None
      end
  | _ => None
  end.

Fixpoint flat_cards (records : list json) : list json :=
  match records with
  | [] => []
  | record :: rest =>
      match flat_card record with
      | Some c => c :: flat_cards rest
      | None => flat_cards rest
      end
  end.

(** The exception of [supabase_fetch] for a module it does not know. *)
Definition unknown_module (module_id : string) : exn :=
  mk_exn ValueError ("未知模块: " ++ module_id).

(** A module id the static lookup resolves to a table. *)
Definition resolves (MODULE_TO_TABLE : list (string * string))
           (module_id table_name : string) : Prop :=
  table_get module_id MODULE_TO_TABLE = Some table_name /\ table_name <> "".

(** The specification's reading of Create, to compare [add_card] with: an
    existing id counts when it is [<module>_card_<N>] to the letter, [N]
    being a run of decimal digits, and the new id has the number after the
    largest such [N], 1 when there is none. *)
Fixpoint strip_prefix (p s : string) : option string :=
  match p, s with
  | EmptyString, _ => Some s
  | String a p', String b s' => if Ascii.eqb a b then strip_prefix p' s' else None
  | String _ _, EmptyString => None
  end.

Definition all_digits (s : string) : bool :=
  negb (String.eqb s "")
  && forallb (fun c => match digit_of c with Some _ => true | None => false end)
             (list_ascii_of_string s).

(** The number a run of decimal digits writes. *)
Definition digits_value (s : string) : Z :=
  fold_left (fun acc c => 10 * acc + match digit_of c with Some d => d | None => 0 end)
            (list_ascii_of_string s) 0.

Definition spec_card_number (module_id id : string) : option Z :=
  match strip_prefix (module_id ++ "_card_") id with
  | Some n => if all_digits n then Some (digits_value n) else None
  | None => None
  end.

Definition spec_max_number (module_id : string) (ids : list string) : Z :=
  fold_right (fun id acc =>
                match spec_card_number module_id id with
                | Some n => Z.max n acc
                | None => acc
                end) 0 ids.

Definition spec_next_card_id (module_id : string) (ids : list string) : string :=
  module_id ++ "_card_" ++ str_int (spec_max_number module_id ids + 1).

(** The rows a request writes: those a POST inserts, and the columns a
    PATCH sets. *)
Definition written_rows (rq : request) : list json :=
  if String.eqb (req_method rq) "POST" || String.eqb (req_method rq) "PATCH" then
    match req_json rq with
    | Some (JList rows) => rows
    | Some row => [row]
    | None => []
    end
  else [].

(** [cardid] is a key of the row's [data]. *)
Definition id_in_data (row : json) : bool :=
  match row with
  | JDict r =>
      match dict_get "data" r with
      | Some (JDict d) => dict_mem "cardid" d
      | _ => false
      end
  | _ => false
  end.

(** A row made of a whole card object: the object is the row's [data] and
    its [cardid], null when it has none, is the row's [cardid]. *)
Definition whole_card (row : json) : Prop :=
  exists card,
    row = JDict [("cardid", match dict_get "cardid" card with
                            | Some x => x
                            | None => JNull
                            end);
                 ("data", JDict card)].

(** A request that inserts whole cards, if it writes at all. *)
Definition writes_whole_cards (rq : request) : Prop :=
  Forall whole_card (written_rows rq).

(** The row the store keeps for a card object [c] whose [cardid] is the
    string [id]. *)
Definition stored_card (c : dict) (id : string) : Store.row :=
  Store.mk_row id (JDict c).

Fixpoint stored_cards (cards : list dict) (ids : list string) : list Store.row :=
  match cards, ids with
  | c :: cards', id :: ids' => stored_card c id :: stored_cards cards' ids'
  | _, _ => []
  end.

(** A stored row whose data is a card object that carries the row's id. *)
Definition self_named (r : Store.row) : Prop :=
  exists c, Store.row_data r = JDict c /\
            dict_get "cardid" c = Some (JStr (Store.row_id r)).

(** The card object [c] has the string [id] as its [cardid]. *)
Definition has_cardid (c : dict) (id : string) : Prop :=
  dict_get "cardid" c = Some (JStr id).

(** The ids of the rows of each table of a store. *)
Definition table_ids (st : Store.state) (url : string) : option (list string) :=
  option_map (map Store.row_id) (st url).

(** The rows after a PATCH of [data] on the row [id]. *)
Definition with_data (id : string) (x : json) (rows : list Store.row)
  : list Store.row :=
  map (fun r => if String.eqb (Store.row_id r) id then Store.mk_row id x else r) rows.

(** Code that sends only requests of a kind. *)
Definition sends_only {remote X : Type} (P : request -> Prop)
           (f : world remote -> X * world remote) : Prop :=
  forall w, exists l,
      exchanges (snd (f w)) = (exchanges w ++ l)%list /\
      Forall (fun x => P (fst x)) l.

(** The row of a GET that selects [cardid] only. *)
Definition id_row (id : string) : json := JDict [("cardid", JStr id)].

(** The number [add_card] reads from an existing id: that of the text after
    its last underscore, when the id starts with [<module>_card_]. *)
Definition card_number (module_id id : string) : option Z :=
  if startswith id (module_id ++ "_card_") then py_int (split_last id) else None.

(* ===================================================================== *)
(** ** Facts about the Python built-ins *)
(* ===================================================================== *)

Lemma dict_get_pop (k : string) (d : dict) : dict_get k (dict_pop k d) = None.
Proof.
  induction d as [|[k' v] d IH]; simpl; [reflexivity|].
  destruct (String.eqb k k') eqn:E; [exact IH|].
  simpl. rewrite E. exact IH.
Qed.

Lemma dict_mem_pop (k : string) (d : dict) : dict_mem k (dict_pop k d) = false.
Proof. unfold dict_mem. now rewrite dict_get_pop. Qed.

Lemma dict_get_set (k : string) (v : json) (d : dict) :
  dict_get k (dict_set k v d) = Some v.
Proof.
  induction d as [|[k' v'] d IH]; simpl.
  - now rewrite String.eqb_refl.
  - destruct (String.eqb k k') eqn:E; simpl.
    + now rewrite String.eqb_refl.
    + now rewrite E.
Qed.

(** Writing the value a key already has changes nothing. *)
Lemma dict_set_same (k : string) (v : json) (d : dict) :
  dict_get k d = Some v -> dict_set k v d = d.
Proof.
  induction d as [|[k' v'] d IH]; simpl; [discriminate|].
  destruct (String.eqb k k') eqn:E.
  - intros [= ->]. apply String.eqb_eq in E. now subst.
  - intros H. now rewrite IH.
Qed.

Lemma dict_mem_get (k : string) (d : dict) :
  dict_mem k d = true <-> exists v, dict_get k d = Some v.
Proof.
  unfold dict_mem. destruct (dict_get k d); split; eauto; try discriminate.
  now intros [v [=]].
Qed.

(** *** Ids of the exact form [<module>_card_<N>] *)

Lemma strip_prefix_app (p s r : string) :
  strip_prefix p s = Some r -> s = p ++ r.
Proof.
  revert s. induction p as [|a p IH]; intros s; simpl.
  - now intros [= ->].
  - destruct s as [|b s]; [discriminate|].
    destruct (Ascii.eqb a b) eqn:E; [|discriminate].
    apply Ascii.eqb_eq in E. subst b. intros H. now rewrite (IH _ H).
Qed.

Lemma startswith_app (p r : string) : startswith (p ++ r) p = true.
Proof.
  unfold startswith. induction p as [|a p IH]; simpl; [now destruct r|].
  destruct (ascii_dec a a); [exact IH|congruence].
Qed.

Lemma list_ascii_of_string_app (s1 s2 : string) :
  list_ascii_of_string (s1 ++ s2)
  = (list_ascii_of_string s1 ++ list_ascii_of_string s2)%list.
Proof. induction s1 as [|a s1 IH]; simpl; [reflexivity|now rewrite IH]. Qed.

Lemma digit_is_no_underscore (c : ascii) (d : Z) :
  digit_of c = Some d -> Ascii.eqb c "_" = false.
Proof.
  destruct (Ascii.eqb c "_") eqn:E; [|reflexivity].
  apply Ascii.eqb_eq in E. subst c. discriminate.
Qed.

Lemma digit_code (c : ascii) (d : Z) :
  digit_of c = Some d -> 48 <= byte c <= 57 /\ d = byte c - 48.
Proof.
  unfold digit_of, byte.
  destruct ((48 <=? nat_of_ascii c) && (nat_of_ascii c <=? 57))%nat eqn:E;
    [|discriminate].
  intros [= <-]. apply andb_true_iff in E as [A B].
  apply Nat.leb_le in A, B. lia.
Qed.

Lemma digit_is_no_space (c : ascii) (d : Z) : digit_of c = Some d -> is_space c = false.
Proof.
  intros H. apply digit_code in H as [[A B] _]. unfold byte in A, B.
  unfold is_space. apply orb_false_iff. split.
  - apply andb_false_iff. right. apply Nat.leb_gt. lia.
  - apply Nat.eqb_neq. lia.
Qed.

Lemma digit_is_no_sign (c : ascii) (d : Z) :
  digit_of c = Some d -> Ascii.eqb c "-" = false /\ Ascii.eqb c "+" = false.
Proof.
  intros H. split.
  - destruct (Ascii.eqb c "-") eqn:E; [|reflexivity].
    apply Ascii.eqb_eq in E. subst c. discriminate.
  - destruct (Ascii.eqb c "+") eqn:E; [|reflexivity].
    apply Ascii.eqb_eq in E. subst c. discriminate.
Qed.

Lemma length_list_ascii_of_string (s : string) :
  List.length (list_ascii_of_string s) = String.length s.
Proof. induction s as [|a s IH]; simpl; [reflexivity|now rewrite IH]. Qed.

(** [int()] leaves a character below 127 as it is. *)
Lemma int_char_ascii (c : ascii) : byte c < 127 -> int_char (byte c) = Some c.
Proof.
  intros H. unfold int_char.
  destruct (byte c <? 127) eqn:E; [|apply Z.ltb_ge in E; lia].
  unfold byte. now rewrite Nat2Z.id, ascii_nat_embedding.
Qed.

Lemma code_points_ascii (l : list ascii) :
  Forall (fun c => byte c < 127) l ->
  code_points l = Some (map byte l) /\ int_chars (map byte l) = Some l.
Proof.
  induction 1 as [|c l Hc _ [IH1 IH2]]; [split; reflexivity|].
  split.
  - cbn [code_points map].
    destruct (byte c <? 128) eqn:E; [|apply Z.ltb_ge in E; lia].
    now rewrite IH1.
  - cbn [int_chars map]. now rewrite (int_char_ascii c Hc), IH2.
Qed.

(** A text of characters below 127 is read as it is. *)
Lemma py_int_ascii (s : string) :
  Forall (fun c => byte c < 127) (list_ascii_of_string s) ->
  py_int s = long_from_string (list_ascii_of_string s).
Proof.
  intros H. unfold py_int.
  destruct (code_points_ascii _ H) as [-> ->]. reflexivity.
Qed.

Local Notation digit_char :=
  (fun c : ascii => match digit_of c with Some _ => true | None => false end).

Lemma digit_run_ascii (l : list ascii) :
  forallb digit_char l = true -> Forall (fun c => byte c < 127) l.
Proof.
  intros H. apply Forall_forall. intros c Hc.
  pose proof (proj1 (forallb_forall _ _) H c Hc) as D. cbv beta in D.
  destruct (digit_of c) as [d|] eqn:E; [|discriminate].
  apply digit_code in E. lia.
Qed.

Lemma int_digits_run (l : list ascii) (acc : Z) :
  forallb digit_char l = true ->
  int_digits acc false l
  = Some (fold_left (fun a c => 10 * a + match digit_of c with
                                         | Some d => d
                                         | None => 0
                                         end) l acc).
Proof.
  revert acc. induction l as [|c l IH]; intros acc H; [reflexivity|].
  cbn [forallb] in H. apply andb_true_iff in H as [Hc Hl].
  cbn [int_digits fold_left].
  destruct (digit_of c) as [d|]; [|discriminate].
  now apply IH.
Qed.

Lemma count_digits_run (l : list ascii) :
  forallb digit_char l = true -> count_digits l = Z.of_nat (List.length l).
Proof.
  intros H. unfold count_digits. f_equal. f_equal.
  induction l as [|c l IH]; [reflexivity|].
  cbn [forallb] in H. apply andb_true_iff in H as [Hc Hl].
  cbn [filter]. rewrite Hc. cbn [List.length]. now rewrite IH.
Qed.

(** A run of ASCII digits is read as the number it writes, unless it has
    more digits than the limit. *)
Lemma py_int_digit_run (ds : string) :
  all_digits ds = true ->
  py_int ds = if int_max_str_digits <? Z.of_nat (String.length ds) then None
              else Some (digits_value ds).
Proof.
  unfold all_digits. intros H. apply andb_true_iff in H as [Hne H].
  rewrite (py_int_ascii _ (digit_run_ascii _ H)).
  unfold long_from_string, digits_value.
  rewrite (count_digits_run _ H), length_list_ascii_of_string.
  destruct ds as [|c ds]; [discriminate|].
  cbn [list_ascii_of_string forallb] in *.
  apply andb_true_iff in H as [Hc Hds].
  destruct (digit_of c) as [d|] eqn:D; [|discriminate].
  unfold int_literal. cbn [lstrip].
  rewrite (digit_is_no_space _ _ D).
  destruct (digit_is_no_sign _ _ D) as [-> ->].
  cbn [int_unsigned fold_left]. rewrite D.
  rewrite (int_digits_run _ _ Hds). replace (10 * 0 + d) with d by lia.
  reflexivity.
Qed.

(** *** How large the numbers read and written are *)

Lemma int_digits_bound (l : list ascii) (acc : Z) (us : bool) (n : Z) :
  0 <= acc ->
  int_digits acc us l = Some n ->
  0 <= n < (acc + 1) * 10 ^ Z.of_nat (List.length l).
Proof.
  revert acc us. induction l as [|c l IH]; intros acc us Hacc H.
  - cbn [int_digits] in H. destruct us; [discriminate|]. injection H as <-.
    cbn [List.length]. change (10 ^ Z.of_nat 0) with 1. lia.
  - assert (P : 0 < 10 ^ Z.of_nat (List.length l)) by (apply Z.pow_pos_nonneg; lia).
    assert (E : 10 ^ Z.of_nat (List.length (c :: l))
                = 10 * 10 ^ Z.of_nat (List.length l)).
    { cbn [List.length]. rewrite Nat2Z.inj_succ, Z.pow_succ_r by lia. reflexivity. }
    rewrite E. cbn [int_digits] in H.
    destruct (digit_of c) as [d|] eqn:D.
    + apply digit_code in D.
      apply IH in H; [|lia]. nia.
    + destruct (Ascii.eqb c "_").
      * destruct us; [discriminate|]. apply IH in H; [|lia]. nia.
      * destruct us; [discriminate|].
        destruct (lstrip (c :: l)); [|discriminate]. injection H as <-. nia.
Qed.

Lemma lstrip_length (l : list ascii) : (List.length (lstrip l) <= List.length l)%nat.
Proof.
  induction l as [|c l IH]; [apply Nat.le_refl|].
  cbn [lstrip]. destruct (is_space c); cbn [List.length]; lia.
Qed.

Lemma int_unsigned_bound (l : list ascii) (n : Z) :
  int_unsigned l = Some n -> 0 <= n < 10 ^ Z.of_nat (List.length l).
Proof.
  destruct l as [|c l]; [discriminate|]. cbn [int_unsigned].
  destruct (digit_of c) as [d|] eqn:D; [|discriminate].
  apply digit_code in D. intros H. apply int_digits_bound in H; [|lia].
  assert (P : 0 < 10 ^ Z.of_nat (List.length l)) by (apply Z.pow_pos_nonneg; lia).
  cbn [List.length]. rewrite Nat2Z.inj_succ, Z.pow_succ_r by lia. nia.
Qed.

Lemma int_literal_bound (l : list ascii) (n : Z) :
  int_literal l = Some n -> Z.abs n < 10 ^ Z.of_nat (List.length l).
Proof.
  unfold int_literal. pose proof (lstrip_length l) as Hl.
  destruct (lstrip l) as [|c r]; [discriminate|].
  assert (Hr : 10 ^ Z.of_nat (List.length r) <= 10 ^ Z.of_nat (List.length l)).
  { apply Z.pow_le_mono_r; cbn [List.length] in Hl; lia. }
  assert (Hcr : 10 ^ Z.of_nat (List.length (c :: r)) <= 10 ^ Z.of_nat (List.length l)).
  { apply Z.pow_le_mono_r; lia. }
  destruct (Ascii.eqb c "-").
  - destruct (int_unsigned r) as [k|] eqn:U; [|discriminate].
    intros [= <-]. apply int_unsigned_bound in U. lia.
  - destruct (Ascii.eqb c "+"); intros U; apply int_unsigned_bound in U; lia.
Qed.

Lemma code_points_length (l : list ascii) (cps : list Z) :
  code_points l = Some cps -> (List.length cps <= List.length l)%nat.
Proof.
  remember (List.length l) as k eqn:Hk.
  assert (Hle : (List.length l <= k)%nat) by lia. clear Hk.
  revert l cps Hle. induction k as [|k IH]; intros l cps Hle H.
  - destruct l; [|cbn [List.length] in Hle; lia]. injection H as <-. apply Nat.le_refl.
  - destruct l as [|c r]; [injection H as <-; apply Nat.le_0_l|].
    cbn [List.length] in Hle. cbn [code_points] in H. cbv zeta in H.
    repeat match type of H with
           | (if ?b then _ else _) = Some _ => destruct b
           | None = Some _ => discriminate
           | match ?x with [] => _ | _ :: _ => _ end = Some _ =>
               destruct x; cbn [List.length] in Hle
           | match continuation ?x with Some _ => _ | None => _ end = Some _ =>
               destruct (continuation x)
           end;
      match type of H with
      | option_map _ (code_points ?r') = Some _ =>
          destruct (code_points r') as [x|] eqn:E; [|discriminate];
          injection H as <-; apply IH in E; [|lia];
          cbn [List.length]; lia
      end.
Qed.

Lemma int_chars_length (cps : list Z) (l : list ascii) :
  int_chars cps = Some l -> List.length l = List.length cps.
Proof.
  revert l. induction cps as [|cp cps IH]; intros l H.
  - injection H as <-. reflexivity.
  - cbn [int_chars] in H. destruct (int_char cp); [|discriminate].
    destruct (int_chars cps) as [l'|]; [|discriminate]. injection H as <-.
    cbn [List.length]. now rewrite (IH l').
Qed.

(** A text read as a number has more characters than the number has
    digits. *)
Lemma py_int_bound (s : string) (n : Z) :
  py_int s = Some n -> Z.abs n < 10 ^ Z.of_nat (String.length s).
Proof.
  unfold py_int, long_from_string.
  destruct (code_points (list_ascii_of_string s)) as [cps|] eqn:C; [|discriminate].
  destruct (int_chars cps) as [l|] eqn:I; [|discriminate].
  destruct (int_literal l) as [k|] eqn:L; [|discriminate].
  destruct (int_max_str_digits <? count_digits l); [discriminate|].
  intros [= <-]. apply int_literal_bound in L.
  apply code_points_length in C. apply int_chars_length in I.
  rewrite length_list_ascii_of_string in C.
  assert (10 ^ Z.of_nat (List.length l) <= 10 ^ Z.of_nat (String.length s))
    by (apply Z.pow_le_mono_r; lia).
  lia.
Qed.

Lemma last_segment_length (l acc : list ascii) :
  (List.length (last_segment_from acc l) <= List.length acc + List.length l)%nat.
Proof.
  revert acc. induction l as [|c l IH]; intros acc; cbn [last_segment_from List.length].
  - lia.
  - destruct (Ascii.eqb c "_").
    + specialize (IH []). cbn [List.length] in IH. lia.
    + specialize (IH (acc ++ [c])%list). rewrite length_app in IH.
      cbn [List.length] in IH. lia.
Qed.

Lemma split_last_length (s : string) :
  (String.length (split_last s) <= String.length s)%nat.
Proof.
  unfold split_last.
  rewrite <- (length_list_ascii_of_string (string_of_list_ascii _)),
    list_ascii_of_string_of_list_ascii.
  pose proof (last_segment_length (list_ascii_of_string s) []) as H.
  rewrite length_list_ascii_of_string in H. exact H.
Qed.

Lemma string_of_uint_length (d : Decimal.uint) :
  String.length (NilEmpty.string_of_uint d) = Decimal.nb_digits d.
Proof. induction d; cbn [NilEmpty.string_of_uint String.length Decimal.nb_digits]; congruence. Qed.

Lemma of_uint_acc_lower (d : Decimal.uint) (acc : positive) :
  Z.pos acc * 10 ^ Z.of_nat (Decimal.nb_digits d) <= Z.pos (Pos.of_uint_acc d acc).
Proof.
  revert acc. induction d as [|d IH|d IH|d IH|d IH|d IH|d IH|d IH|d IH|d IH|d IH];
    intros acc;
    [cbn [Pos.of_uint_acc Decimal.nb_digits]; change (10 ^ Z.of_nat 0) with 1; lia|..];
    cbn [Pos.of_uint_acc Decimal.nb_digits];
    rewrite Nat2Z.inj_succ, Z.pow_succ_r by lia;
    match goal with
    | |- _ <= Z.pos (Pos.of_uint_acc d ?a) =>
        specialize (IH a);
        assert (10 * Z.pos acc <= Z.pos a) by lia
    end;
    assert (0 < 10 ^ Z.of_nat (Decimal.nb_digits d)) by (apply Z.pow_pos_nonneg; lia);
    nia.
Qed.

(** The numeral of a positive number starts with another digit than 0. *)
Lemma to_uint_lower (p : positive) :
  10 ^ (Z.of_nat (Decimal.nb_digits (Pos.to_uint p)) - 1) <= Z.pos p.
Proof.
  pose proof (Unsigned.of_to p) as OT.
  pose proof (Unsigned.to_of (Pos.to_uint p)) as TO.
  rewrite OT in TO. cbn [N.to_uint] in TO.
  pose proof (Unsigned.to_uint_nonzero p) as NZ.
  destruct (Pos.to_uint p) as [|d|d|d|d|d|d|d|d|d|d] eqn:E;
    cbn [Decimal.nb_digits];
    rewrite ?Nat2Z.inj_succ;
    [cbn in OT; discriminate| |..];
    try (cbn [Pos.of_uint] in OT; injection OT as <-;
         match goal with
         | |- _ <= Z.pos (Pos.of_uint_acc d ?a) =>
             pose proof (of_uint_acc_lower d a)
         end;
         replace (Z.succ (Z.of_nat (Decimal.nb_digits d)) - 1)
           with (Z.of_nat (Decimal.nb_digits d)) by lia;
         assert (0 < 10 ^ Z.of_nat (Decimal.nb_digits d)) by (apply Z.pow_pos_nonneg; lia);
         nia).
  (* a leading 0 *)
  exfalso. unfold Decimal.unorm in TO. cbn [Decimal.nzhead] in TO.
  destruct (Decimal.nzhead d) eqn:N.
  - injection TO as TO'. apply NZ. now rewrite <- TO'.
  - pose proof (DecimalFacts.nzhead_nonzero d d) as Hnz. congruence.
  - discriminate. - discriminate. - discriminate. - discriminate. - discriminate.
  - discriminate. - discriminate. - discriminate. - discriminate.
Qed.

(** A number below [10 ^ k] is written with at most [k] digits. *)
Lemma str_int_length (n : Z) (k : nat) :
  0 <= n < 10 ^ Z.of_nat k -> (0 < k)%nat -> (String.length (str_int n) <= k)%nat.
Proof.
  intros [H0 Hn] Hk. destruct n as [|p|p]; [cbn; lia| |lia].
  unfold str_int. cbn [Z.to_int NilZero.string_of_int].
  pose proof (Unsigned.to_uint_nonnil p) as Hnil.
  assert (E : NilZero.string_of_uint (Pos.to_uint p)
              = NilEmpty.string_of_uint (Pos.to_uint p))
    by (destruct (Pos.to_uint p); [contradiction|reflexivity..]).
  rewrite E, string_of_uint_length.
  pose proof (to_uint_lower p) as L.
  destruct (Nat.le_gt_cases (Decimal.nb_digits (Pos.to_uint p)) k) as [|G]; [assumption|].
  exfalso.
  assert (10 ^ Z.of_nat k <= 10 ^ (Z.of_nat (Decimal.nb_digits (Pos.to_uint p)) - 1))
    by (apply Z.pow_le_mono_r; lia).
  lia.
Qed.

(** The successor of a number read from a text shorter than the limit is
    written within the limit. *)
Lemma within_digit_limit_next (n : Z) (k : nat) :
  0 <= n < 10 ^ Z.of_nat k -> (Z.of_nat k < int_max_str_digits) ->
  within_digit_limit (n + 1) = true.
Proof.
  intros [H0 Hn] Hk. unfold within_digit_limit. apply Z.leb_le.
  rewrite Z.abs_eq by lia.
  assert (L : (String.length (str_int (n + 1)) <= S k)%nat).
  { apply str_int_length; [|lia]. split; [lia|].
    rewrite Nat2Z.inj_succ, Z.pow_succ_r by lia.
    assert (0 < 10 ^ Z.of_nat k) by (apply Z.pow_pos_nonneg; lia). lia. }
  lia.
Qed.

(** Behind an underscore, a run of digits is the last segment. *)
Lemma last_segment_digits (l ds acc : list ascii) :
  forallb (fun c => match digit_of c with Some _ => true | None => false end) ds = true ->
  last_segment_from acc (l ++ "_"%char :: ds) = ds.
Proof.
  intros Hds.
  assert (Run : forall acc', last_segment_from acc' ds = (acc' ++ ds)%list).
  { clear l acc. induction ds as [|c ds IH]; intros acc'; simpl.
    - now rewrite app_nil_r.
    - simpl in Hds. apply andb_true_iff in Hds as [Hc Hds].
      destruct (digit_of c) as [d|] eqn:D; [|discriminate].
      rewrite (digit_is_no_underscore _ _ D), (IH Hds).
      now rewrite <- app_assoc. }
  revert acc. induction l as [|a l IH]; intros acc; simpl.
  - apply Run.
  - destruct (Ascii.eqb a "_"); apply IH.
Qed.

(** An id of the exact form is read by [add_card] as the number it ends
    with when that has no more digits than the limit, and as no number
    when it has more. *)
Lemma split_last_exact_id (m ds : string) :
  all_digits ds = true -> split_last ((m ++ "_card_") ++ ds) = ds.
Proof.
  intros D. unfold all_digits in D. apply andb_true_iff in D as [_ D].
  unfold split_last.
  replace (list_ascii_of_string ((m ++ "_card_") ++ ds))
    with ((list_ascii_of_string (m ++ "_card")) ++ "_"%char :: list_ascii_of_string ds)%list.
  - now rewrite (last_segment_digits _ _ _ D), string_of_list_ascii_of_string.
  - rewrite !list_ascii_of_string_app. simpl. rewrite <- !app_assoc. reflexivity.
Qed.

Lemma card_number_exact_id (m id : string) (n : Z) :
  spec_card_number m id = Some n ->
  card_number m id
  = if int_max_str_digits <? Z.of_nat (String.length (split_last id)) then None
    else Some n.
Proof.
  unfold spec_card_number, card_number.
  destruct (strip_prefix (m ++ "_card_") id) as [ds|] eqn:P; [|discriminate].
  apply strip_prefix_app in P. subst id.
  destruct (all_digits ds) eqn:D; [|discriminate].
  intros [= <-]. rewrite startswith_app.
  rewrite (split_last_exact_id _ _ D). now apply py_int_digit_run.
Qed.

(** The specification's maximum is an upper bound that is 0 or attained. *)
Lemma spec_max_number_is_max (m : string) (ids : list string) :
  0 <= spec_max_number m ids /\
  (forall id n, In id ids -> spec_card_number m id = Some n ->
                n <= spec_max_number m ids) /\
  (spec_max_number m ids = 0 \/
   exists id, In id ids /\ spec_card_number m id = Some (spec_max_number m ids)).
Proof.
  induction ids as [|id ids (H0 & Hub & Hatt)].
  - simpl. split; [lia|]. split; [intros ? ? []|now left].
  - change (spec_max_number m (id :: ids))
      with (match spec_card_number m id with
            | Some n => Z.max n (spec_max_number m ids)
            | None => spec_max_number m ids
            end).
    destruct (spec_card_number m id) as [n|] eqn:N.
    + split; [lia|]. split.
      * intros id' n' [<-|Hin] Hn'.
        -- rewrite N in Hn'. injection Hn' as <-. lia.
        -- specialize (Hub _ _ Hin Hn'). lia.
      * destruct (Z.max_spec n (spec_max_number m ids)) as [[Hlt ->]|[Hle ->]].
        -- destruct Hatt as [E|(id' & Hin & Hid')]; [now left|].
           right. exists id'. split; [now right|assumption].
        -- right. exists id. split; [now left|assumption].
    + split; [assumption|]. split.
      * intros id' n' [<-|Hin] Hn'; [congruence|]. now apply (Hub id').
      * destruct Hatt as [E|(id' & Hin & Hid')]; [now left|].
        right. exists id'. split; [now right|assumption].
Qed.

Lemma since_app {remote} (w w' : world remote) (l : list (request * reply)) :
  exchanges w' = (exchanges w ++ l)%list -> since w w' = l.
Proof.
  intros H. unfold since. rewrite H.
  rewrite skipn_app, skipn_all, Nat.sub_diag. reflexivity.
Qed.

Lemma since_refl {remote} (w : world remote) : since w w = [].
Proof. apply since_app. now rewrite app_nil_r. Qed.

Lemma since_after {remote} (w : world remote) rq rp st :
  since w (after w rq rp st) = [(rq, rp)].
Proof. now apply since_app. Qed.

Lemma since_after2 {remote} (w : world remote) rq rp st rq' rp' st' :
  since w (after (after w rq rp st) rq' rp' st') = [(rq, rp); (rq', rp')].
Proof. apply since_app. simpl. now rewrite <- app_assoc. Qed.

(* ===================================================================== *)
(** ** The reshaping of remote rows *)
(* ===================================================================== *)

Lemma has_both_keys_card_row (record : json) :
  is_card_row record = true -> has_both_keys record = true.
Proof.
  destruct record as [| | | | |r]; simpl; try discriminate.
  unfold dict_mem.
  destruct (dict_get "cardid" r); [|discriminate].
  destruct (dict_get "data" r); [reflexivity|discriminate].
Qed.

Lemma reshape_card_row (record : json) :
  is_card_row record = true ->
  exists c, flat_card record = Some c /\ reshape record = Ok c.
Proof.
  destruct record as [| | | | |r]; simpl; try discriminate.
  unfold reshape. simpl.
  destruct (dict_get "cardid" r) as [cardid|]; [|discriminate].
  destruct (dict_get "data" r) as [[| | | | |d]|]; try discriminate.
  intros _. exists (JDict (dict_set "cardid" cardid d)). split; reflexivity.
Qed.

(** An element with both keys whose [data] is no mapping stops the loop
    with a [TypeError]. *)
Lemma reshape_not_card_row (record : json) :
  has_both_keys record = true -> is_card_row record = false ->
  flat_card record = None /\
  exists msg, reshape record = Raise (mk_exn TypeError msg).
Proof.
  destruct record as [| | | | |r]; simpl; try discriminate.
  unfold dict_mem, reshape. simpl.
  destruct (dict_get "cardid" r) as [cardid|]; [|discriminate].
  destruct (dict_get "data" r) as [[| | | | |d]|]; try discriminate;
    intros _ _; (split; [reflexivity|]); eexists; reflexivity.
Qed.

Lemma flat_card_without_keys (record : json) :
  has_both_keys record = false -> flat_card record = None.
Proof.
  destruct record as [| | | | |r]; simpl; try reflexivity.
  unfold dict_mem.
  destruct (dict_get "cardid" r); [|reflexivity].
  destruct (dict_get "data" r); [discriminate|reflexivity].
Qed.

(** The loop skips what has not both keys. *)
Lemma transform_loop_skip (record : json) (rest cards : list json) :
  has_both_keys record = false ->
  transform_loop (record :: rest) cards = transform_loop rest cards.
Proof.
  destruct record as [| | | | |r]; simpl; try reflexivity.
  now intros ->.
Qed.

Lemma transform_loop_take (record c : json) (rest cards : list json) :
  has_both_keys record = true -> reshape record = Ok c ->
  transform_loop (record :: rest) cards = transform_loop rest (cards ++ [c]).
Proof.
  destruct record as [| | | | |r]; simpl; try discriminate.
  now intros -> ->.
Qed.

Lemma transform_loop_stop (record : json) e (rest cards : list json) :
  has_both_keys record = true -> reshape record = Raise e ->
  transform_loop (record :: rest) cards = Raise e.
Proof.
  destruct record as [| | | | |r]; simpl; try discriminate.
  now intros -> ->.
Qed.

(** Rows that are all well formed where they have both keys come out
    flat, in order, behind the cards already built. *)
Lemma transform_loop_ok (records cards : list json) :
  forallb (fun r => implb (has_both_keys r) (is_card_row r)) records = true ->
  transform_loop records cards = Ok (cards ++ flat_cards records)%list.
Proof.
  revert cards. induction records as [|record rest IH]; intros cards H.
  - simpl. now rewrite app_nil_r.
  - simpl in H. apply andb_true_iff in H as [Hr Hrest].
    destruct (has_both_keys record) eqn:K; simpl in Hr.
    + destruct (reshape_card_row _ Hr) as [c [Hf Hc]].
      rewrite (transform_loop_take _ c) by assumption.
      rewrite IH by assumption. simpl flat_cards. rewrite Hf.
      now rewrite <- app_assoc.
    + rewrite transform_loop_skip by assumption.
      rewrite IH by assumption. simpl flat_cards.
      now rewrite flat_card_without_keys.
Qed.

Lemma transform_loop_raises (records cards : list json) :
  forallb (fun r => implb (has_both_keys r) (is_card_row r)) records = false ->
  exists msg, transform_loop records cards = Raise (mk_exn TypeError msg).
Proof.
  revert cards. induction records as [|record rest IH]; intros cards H.
  - discriminate.
  - simpl in H. apply andb_false_iff in H.
    destruct (has_both_keys record) eqn:K.
    + destruct (is_card_row record) eqn:C.
      * destruct H as [H|H]; [discriminate|].
        destruct (reshape_card_row _ C) as [c [_ Hc]].
        rewrite (transform_loop_take _ c) by assumption. now apply IH.
      * destruct (reshape_not_card_row _ K C) as [_ [msg Hm]].
        exists msg. now apply transform_loop_stop.
    + destruct H as [H|H]; [discriminate|].
      rewrite transform_loop_skip by assumption. now apply IH.
Qed.

(** C10 (amended).  For every list of remote rows in which each dict that
    has both a [cardid] and a [data] key has a mapping as [data],
    [transform_from_supabase] returns, in order, exactly the flat cards
    [{**data, cardid}] of those dicts and drops every other element.  When
    some dict with both keys has a [data] that is no mapping, the call
    raises [TypeError] instead of dropping it. *)
Theorem transform_from_supabase_rows (records : list json) :
  if forallb (fun r => implb (has_both_keys r) (is_card_row r)) records
  then transform_from_supabase (JList records) = Ok (flat_cards records)
       /\ List.length (flat_cards records)
          = List.length (filter has_both_keys records)
  else exists msg,
      transform_from_supabase (JList records) = Raise (mk_exn TypeError msg).
Proof.
  destruct (forallb _ records) eqn:H.
  - split.
    + unfold transform_from_supabase. simpl.
      now rewrite transform_loop_ok.
    + induction records as [|record rest IH]; [reflexivity|].
      simpl in H. apply andb_true_iff in H as [Hr Hrest].
      simpl. destruct (has_both_keys record) eqn:K; simpl in Hr.
      * destruct (reshape_card_row _ Hr) as [c [-> _]]. simpl.
        now rewrite IH.
      * rewrite flat_card_without_keys by assumption. now apply IH.
  - unfold transform_from_supabase. simpl.
    now apply transform_loop_raises.
Qed.

(* ===================================================================== *)
(** ** The routes over any remote store *)
(* ===================================================================== *)

Section GatewayFacts.

Variable SUPABASE_URL : string.
Variable HEADERS : list (string * string).
Variable MODULE_TO_TABLE : list (string * string).
Variable remote : Type.
Variable send : request -> remote -> reply * remote.
Variable load_file : string -> result json.
Variable print : string -> result unit.

(** Inside this section the routes are those of one deployment. *)
Local Notation table_url := (table_url SUPABASE_URL).
Local Notation resolves := (resolves MODULE_TO_TABLE).
Local Notation supabase_fetch :=
  (supabase_fetch SUPABASE_URL HEADERS MODULE_TO_TABLE remote send).
Local Notation get_all_cards :=
  (get_all_cards SUPABASE_URL HEADERS MODULE_TO_TABLE remote send).
Local Notation add_card :=
  (add_card SUPABASE_URL HEADERS MODULE_TO_TABLE remote send).
Local Notation update_card :=
  (update_card SUPABASE_URL HEADERS MODULE_TO_TABLE remote send).
Local Notation delete_card :=
  (delete_card SUPABASE_URL HEADERS MODULE_TO_TABLE remote send).
Local Notation reset_cards :=
  (reset_cards SUPABASE_URL HEADERS MODULE_TO_TABLE remote send load_file).
Local Notation import_cards :=
  (import_cards SUPABASE_URL HEADERS MODULE_TO_TABLE remote send).
Local Notation initialize_data :=
  (initialize_data SUPABASE_URL HEADERS MODULE_TO_TABLE remote send load_file print).
Local Notation assign_card_id :=
  (assign_card_id SUPABASE_URL HEADERS MODULE_TO_TABLE remote send).
Local Notation request_to method t params body :=
  (mk_request method (table_url t) HEADERS params body).

Lemma known_or_not (m : string) :
  (exists t, resolves m t) \/
  (forall meth ps jd w, supabase_fetch meth m ps jd w = (Raise (unknown_module m), w)).
Proof.
  unfold resolves, supabase_fetch.
  destruct (table_get m MODULE_TO_TABLE) as [[|c t]|].
  - now right.
  - left. exists (String c t). split; [reflexivity|discriminate].
  - now right.
Qed.

(** One call of [supabase_fetch] for a known module is one exchange. *)
Lemma supabase_fetch_known meth m t ps jd (w : world remote) rp st :
  resolves m t ->
  send (request_to meth t ps jd) (remote_state w) = (rp, st) ->
  supabase_fetch meth m ps jd w
  = (fetch_outcome rp, after w (request_to meth t ps jd) rp st).
Proof.
  intros [Ht Hne] Hs. unfold supabase_fetch. rewrite Ht.
  destruct t as [|c t]; [congruence|].
  unfold bind, requests_request, raise, ret, after. rewrite Hs.
  destruct rp as [e|r]; simpl; [reflexivity|].
  destruct (ok r); simpl; [|reflexivity].
  destruct (body_json r); reflexivity.
Qed.

Lemma supabase_fetch_cases meth m ps jd (w : world remote) :
  supabase_fetch meth m ps jd w = (Raise (unknown_module m), w) \/
  exists t rp st,
    resolves m t /\
    send (request_to meth t ps jd) (remote_state w) = (rp, st) /\
    supabase_fetch meth m ps jd w
    = (fetch_outcome rp, after w (request_to meth t ps jd) rp st).
Proof.
  destruct (known_or_not m) as [[t K]|U]; [right|left; apply U].
  destruct (send (request_to meth t ps jd) (remote_state w)) as [rp st] eqn:S.
  exists t, rp, st. repeat split; try apply K; try assumption.
  now apply supabase_fetch_known.
Qed.

(** The routes, one remote call at a time. *)
Lemma get_all_cards_run m (w : world remote) :
  get_all_cards m w =
  match supabase_fetch "GET" m [("select", "cardid,data")] None w with
  | (Ok records, w') =>
      (match transform_from_supabase records with
       | Ok cards => (JList cards, 200)
       | Raise e => (JDict [("error", JStr (str_exn e))], 500)
       end, w')
  | (Raise e, w') => ((JDict [("error", JStr (str_exn e))], 500), w')
  end.
Proof.
  unfold get_all_cards, route, bind, lift, ret.
  destruct (supabase_fetch _ _ _ _ w) as [[records|e] w']; [|reflexivity].
  destruct (transform_from_supabase records); reflexivity.
Qed.

Lemma update_card_run m id body (w : world remote) :
  update_card m id body w =
  match py_pop body "cardid" with
  | Raise e => (failure e, w)
  | Ok updates =>
      match supabase_fetch "PATCH" m [("cardid", "eq." ++ id)]
                           (Some (JDict [("data", updates)])) w with
      | (Ok result, w') =>
          (match updated id result with Ok r => r | Raise e => failure e end, w')
      | (Raise e, w') => (failure e, w')
      end
  end.
Proof.
  unfold update_card, route, bind, lift.
  destruct (py_pop body "cardid") as [updates|e]; [|reflexivity].
  destruct (supabase_fetch _ _ _ _ w) as [[result|e] w']; [|reflexivity].
  destruct (updated id result); reflexivity.
Qed.

Lemma delete_card_run m id (w : world remote) :
  delete_card m id w =
  match supabase_fetch "DELETE" m [("cardid", "eq." ++ id)] None w with
  | (Ok _, w') => ((JDict [("success", JBool true)], 200), w')
  | (Raise e, w') => (failure e, w')
  end.
Proof.
  unfold delete_card, route, bind, ret.
  destruct (supabase_fetch _ _ _ _ w) as [[result|e] w']; reflexivity.
Qed.

(** C8.  List on a resolvable module, when the remote store answers with
    success and an empty row set, responds 200 with an empty array. *)
Theorem get_all_cards_empty_table m t (w : world remote) r st :
  resolves m t ->
  send (request_to "GET" t [("select", "cardid,data")] None) (remote_state w)
  = (Replied r, st) ->
  ok r = true ->
  body_json r = Some (JList []) ->
  fst (get_all_cards m w) = (JList [], 200).
Proof.
  intros K S Hok Hbody.
  rewrite get_all_cards_run, (supabase_fetch_known _ _ _ _ _ _ _ _ K S).
  simpl. rewrite Hok, Hbody. reflexivity.
Qed.

(** C7.  Delete on a resolvable module whose remote call succeeds responds
    with success:true and status 200, whatever rows the store held: the
    reply is not looked at beyond its status. *)
Theorem delete_card_reports_success m t id (w : world remote) r st :
  resolves m t ->
  send (request_to "DELETE" t [("cardid", "eq." ++ id)] None) (remote_state w)
  = (Replied r, st) ->
  ok r = true ->
  delete_card m id w
  = ((JDict [("success", JBool true)], 200),
     after w (request_to "DELETE" t [("cardid", "eq." ++ id)] None) (Replied r) st).
Proof.
  intros K S Hok.
  rewrite delete_card_run, (supabase_fetch_known _ _ _ _ _ _ _ _ K S).
  simpl. rewrite Hok. reflexivity.
Qed.

Lemma updated_card_rows (id : string) (rows : list json) :
  forallb is_card_row rows = true ->
  updated id (JList rows) =
  match rows with
  | [] => Ok (JDict [("error", JStr (not_found id))], 404)
  | first :: _ =>
      match flat_card first with
      | Some card => Ok (JDict [("success", JBool true); ("card", card)], 200)
      | None => Raise (mk_exn IndexError "list index out of range")
      end
  end.
Proof.
  intros H. destruct rows as [|first rest]; [reflexivity|].
  assert (T : transform_loop (first :: rest) []
              = Ok ([] ++ flat_cards (first :: rest))%list).
  { apply transform_loop_ok. rewrite forallb_forall in *.
    intros x Hx. rewrite (H x Hx). now destruct (has_both_keys x). }
  unfold updated, transform_from_supabase.
  cbn [py_iter rbind truthy negb]. rewrite T.
  simpl in H. apply andb_true_iff in H as [Hf _].
  destruct (reshape_card_row _ Hf) as [c [Hc _]].
  simpl. rewrite Hc. reflexivity.
Qed.

(** C6.  Update on a resolvable module: when the PATCH returns an empty
    result the response is the 404 not-found error; when it returns rows
    (each a card row: a [cardid] and a mapping as [data]) the response is
    200 with success and the first returned row, reshaped, as card. *)
Theorem update_card_not_found_or_card m t id d (w : world remote) rp st rows :
  resolves m t ->
  send (request_to "PATCH" t [("cardid", "eq." ++ id)]
                   (Some (JDict [("data", JDict (dict_pop "cardid" d))])))
       (remote_state w) = (rp, st) ->
  fetch_outcome rp = Ok (JList rows) ->
  forallb is_card_row rows = true ->
  match rows with
  | [] =>
      fst (update_card m id (JDict d) w)
      = (JDict [("error", JStr (not_found id))], 404)
  | first :: _ =>
      exists card,
        flat_card first = Some card /\
        fst (update_card m id (JDict d) w)
        = (JDict [("success", JBool true); ("card", card)], 200)
  end.
Proof.
  intros K S Hout Hrows.
  assert (E : fst (update_card m id (JDict d) w)
              = match updated id (JList rows) with
                | Ok r => r
                | Raise e => failure e
                end).
  { rewrite update_card_run. cbn [py_pop].
    rewrite (supabase_fetch_known _ _ _ _ _ _ _ _ K S), Hout. reflexivity. }
  rewrite (updated_card_rows _ _ Hrows) in E.
  destruct rows as [|first rest]; [exact E|].
  simpl in Hrows. apply andb_true_iff in Hrows as [Hf _].
  destruct (reshape_card_row _ Hf) as [c [Hc _]].
  exists c. rewrite Hc in E. split; [exact Hc|exact E].
Qed.

(** *** Create *)

(** Over rows that hold string ids the loop of [add_card] ends with the
    largest number read, or with the number it started from. *)
Lemma max_card_number_ids (m : string) (ids : list string) (start : Z) :
  exists M,
    max_card_number m (map id_row ids) start = Ok M /\
    start <= M /\
    (forall id n, In id ids -> card_number m id = Some n -> n <= M) /\
    (M = start \/ exists id, In id ids /\ card_number m id = Some M).
Proof.
  revert start. induction ids as [|id ids IH]; intros start.
  - exists start. simpl. split; [reflexivity|]. split; [lia|].
    split; [intros ? ? []|now left].
  - simpl. unfold card_number in *.
    destruct (startswith id (m ++ "_card_")) eqn:P.
    + destruct (py_int (split_last id)) as [number|] eqn:N.
      * destruct (IH (Z.max start number)) as (M & E & Hle & Hub & Hatt).
        exists M. split; [exact E|]. split; [lia|]. split.
        -- intros id' n [<-|Hin] Hn.
           ++ rewrite P, N in Hn. injection Hn as <-. lia.
           ++ eapply Hub; eassumption.
        -- destruct Hatt as [->|(id' & Hin & Hid')].
           ++ destruct (Z.max_spec start number) as [[_ ->]|[_ ->]].
              ** right. exists id. split; [now left|]. now rewrite P, N.
              ** now left.
           ++ right. exists id'. split; [now right|assumption].
      * destruct (IH start) as (M & E & Hle & Hub & Hatt).
        exists M. split; [exact E|]. split; [lia|]. split.
        -- intros id' n [<-|Hin] Hn.
           ++ rewrite P, N in Hn. discriminate.
           ++ eapply Hub; eassumption.
        -- destruct Hatt as [->|(id' & Hin & Hid')]; [now left|].
           right. exists id'. split; [now right|assumption].
    + destruct (IH start) as (M & E & Hle & Hub & Hatt).
      exists M. split; [exact E|]. split; [lia|]. split.
      * intros id' n [<-|Hin] Hn.
        -- rewrite P in Hn. discriminate.
        -- eapply Hub; eassumption.
      * destruct Hatt as [->|(id' & Hin & Hid')]; [now left|].
        right. exists id'. split; [now right|assumption].
Qed.

(** The number after the largest that [add_card] reads from ids of fewer
    bytes than the limit allows digits is written within the limit. *)
Lemma max_number_within_limit (m : string) (ids : list string) (M : Z) :
  0 <= M ->
  (M = 0 \/ exists id, In id ids /\ card_number m id = Some M) ->
  (forall id, In id ids -> Z.of_nat (String.length id) < int_max_str_digits) ->
  within_digit_limit (M + 1) = true.
Proof.
  intros Hle [->|(id & Hin & Hid)] Short; [reflexivity|].
  unfold card_number in Hid.
  destruct (startswith id (m ++ "_card_")); [|discriminate].
  apply py_int_bound in Hid. rewrite Z.abs_eq in Hid by assumption.
  apply (within_digit_limit_next M (String.length (split_last id))); [lia|].
  pose proof (split_last_length id). specialize (Short id Hin). lia.
Qed.

Lemma add_card_run m body (w : world remote) :
  add_card m body w =
  match py_get body "cardid" with
  | Raise e => (failure e, w)
  | Ok card_id =>
      match (if negb (truthy card_id) then assign_card_id m body
             else ret remote (card_id, body)) w with
      | (Raise e, w1) => (failure e, w1)
      | (Ok (cid, data), w1) =>
          match supabase_fetch "POST" m []
                               (Some (JDict [("cardid", cid); ("data", data)])) w1 with
          | (Raise e, w') => (failure e, w')
          | (Ok result, w') =>
              (match created result with Ok r => r | Raise e => failure e end, w')
          end
      end
  end.
Proof.
  unfold add_card, route, bind, lift.
  destruct (py_get body "cardid") as [card_id|e]; [|reflexivity].
  destruct ((if negb (truthy card_id) then assign_card_id m body
             else ret remote (card_id, body)) w) as [[[cid data]|e] w1];
    [|reflexivity].
  destruct (supabase_fetch _ _ _ _ w1) as [[result|e] w']; [|reflexivity].
  destruct (created result); reflexivity.
Qed.

(** What [assign_card_id] does for a known module, given the reply to its
    GET. *)
Lemma assign_card_id_known m t body (w : world remote) rp st :
  resolves m t ->
  send (request_to "GET" t [("select", "cardid")] None) (remote_state w) = (rp, st) ->
  assign_card_id m body w =
  (rbind (fetch_outcome rp) (fun existing_cards =>
   rbind (py_iter existing_cards) (fun cards =>
   rbind (max_card_number m cards 0) (fun max_number =>
   rbind (format_int (max_number + 1)) (fun next_text =>
   rbind (py_setitem body "cardid" (JStr (m ++ "_card_" ++ next_text)))
         (fun data => Ok (JStr (m ++ "_card_" ++ next_text), data)))))),
   after w (request_to "GET" t [("select", "cardid")] None) rp st).
Proof.
  intros K S. unfold assign_card_id, bind, lift, ret.
  rewrite (supabase_fetch_known _ _ _ _ _ _ _ _ K S).
  destruct (fetch_outcome rp) as [existing|e]; [|reflexivity]. simpl.
  destruct (py_iter existing) as [cards|e]; [|reflexivity]. simpl.
  destruct (max_card_number m cards 0) as [M|e]; [|reflexivity]. simpl.
  destruct (format_int (M + 1)) as [next_text|e]; [|reflexivity]. simpl.
  destruct (py_setitem _ _ _); reflexivity.
Qed.

(** C1 (amended).  For every Create on a resolvable module whose body is an
    object without [cardid], once the GET of the existing ids has answered,
    the gateway goes by the number [M]: the largest of 0 and the numbers
    [card_number] reads, which are, for each existing id that starts with
    [<module>_card_], the integer that int() accepts in the text after the
    id's last underscore.  When [M + 1] is written with no more digits than
    the interpreter's limit, the card is inserted under the id
    [<module>_card_<M+1>], which is also written into the data inserted;
    when it has more, nothing is inserted and the answer is the failure
    with status 500.  The limit is never met when every existing id takes
    fewer bytes than it allows digits.  An id of the exact form [<module>_card_<N>] is read
    as [N] unless [N] has more digits than the limit, and when every
    existing id is read as the specification reads it, [<module>_card_<M+1>]
    is the id the specification names. *)
Theorem add_card_assigns_next_number m t d (w : world remote) r st ids :
  resolves m t ->
  dict_get "cardid" d = None ->
  send (request_to "GET" t [("select", "cardid")] None) (remote_state w)
  = (Replied r, st) ->
  ok r = true ->
  body_json r = Some (JList (map id_row ids)) ->
  exists M,
    0 <= M /\
    (forall id n, In id ids -> card_number m id = Some n -> n <= M) /\
    (M = 0 \/ exists id, In id ids /\ card_number m id = Some M) /\
    (forall id n,
        spec_card_number m id = Some n ->
        card_number m id
        = if int_max_str_digits <? Z.of_nat (String.length (split_last id)) then None
          else Some n) /\
    ((forall id, In id ids -> card_number m id = spec_card_number m id) ->
     m ++ "_card_" ++ str_int (M + 1) = spec_next_card_id m ids) /\
    ((forall id, In id ids -> Z.of_nat (String.length id) < int_max_str_digits) ->
     within_digit_limit (M + 1) = true) /\
    if within_digit_limit (M + 1) then
      exists rp,
        since w (snd (add_card m (JDict d) w))
        = [(request_to "GET" t [("select", "cardid")] None, Replied r);
           (request_to "POST" t []
              (Some (JDict [("cardid", JStr (m ++ "_card_" ++ str_int (M + 1)));
                            ("data",
                             JDict (dict_set "cardid"
                                      (JStr (m ++ "_card_" ++ str_int (M + 1))) d))])),
            rp)]
    else
      fst (add_card m (JDict d) w) = failure int_limit_exceeded /\
      since w (snd (add_card m (JDict d) w))
      = [(request_to "GET" t [("select", "cardid")] None, Replied r)].
Proof.
  intros K Hd S Hok Hbody.
  destruct (max_card_number_ids m ids 0) as (M & E & Hle & Hub & Hatt).
  exists M. split; [assumption|]. split; [assumption|]. split; [assumption|].
  split; [intros id n; apply card_number_exact_id|].
  split.
  { intros Same. unfold spec_next_card_id.
    destruct (spec_max_number_is_max m ids) as (S0 & Sub & Satt).
    replace (spec_max_number m ids) with M; [reflexivity|].
    apply Z.le_antisymm.
    - destruct Hatt as [->|(id & Hin & Hid)]; [assumption|].
      apply (Sub id); [assumption|]. now rewrite <- Same.
    - destruct Satt as [->|(id & Hin & Hid)]; [assumption|].
      apply (Hub id); [assumption|]. now rewrite Same. }
  split.
  { intros Short. now apply (max_number_within_limit m ids). }
  rewrite add_card_run. cbn [py_get]. rewrite Hd. cbn [truthy negb].
  rewrite (assign_card_id_known _ _ _ _ _ _ K S).
  cbn [fetch_outcome]. rewrite Hok, Hbody. cbn [rbind py_iter].
  rewrite E. cbn [rbind]. unfold format_int.
  destruct (within_digit_limit (M + 1)).
  - cbn [rbind py_setitem].
    match goal with
    | |- context [supabase_fetch "POST" m [] ?jd ?w1] =>
        destruct (send (request_to "POST" t [] jd) (remote_state w1)) as [rp st2] eqn:S2;
        rewrite (supabase_fetch_known _ _ _ _ _ _ _ _ K S2)
    end.
    exists rp.
    destruct (fetch_outcome rp); apply since_after2.
  - cbn [rbind fst snd]. split; [reflexivity|apply since_after].
Qed.

(** The three ways [assign_card_id] can go on an object. *)
Lemma assign_card_id_cases m d (w : world remote) :
  (exists e, assign_card_id m (JDict d) w = (Raise e, w)) \/
  (exists t rp st e,
      assign_card_id m (JDict d) w
      = (Raise e, after w (request_to "GET" t [("select", "cardid")] None) rp st)) \/
  exists t rp st cid,
    resolves m t /\
    assign_card_id m (JDict d) w
    = (Ok (cid, JDict (dict_set "cardid" cid d)),
       after w (request_to "GET" t [("select", "cardid")] None) rp st).
Proof.
  destruct (known_or_not m) as [[t K]|U].
  2:{ left. eexists. unfold assign_card_id, bind. rewrite U. reflexivity. }
  destruct (send (request_to "GET" t [("select", "cardid")] None) (remote_state w))
    as [rp st] eqn:S.
  rewrite (assign_card_id_known _ _ _ _ _ _ K S).
  destruct (fetch_outcome rp) as [existing|e];
    [|right; left; exists t, rp, st, e; reflexivity].
  cbn [rbind].
  destruct (py_iter existing) as [cards|e];
    [|right; left; exists t, rp, st, e; reflexivity].
  cbn [rbind].
  destruct (max_card_number m cards 0) as [M|e];
    [|right; left; exists t, rp, st, e; reflexivity].
  cbn [rbind].
  destruct (format_int (M + 1)) as [next_text|e];
    [|right; left; exists t, rp, st, e; reflexivity].
  cbn [rbind py_setitem].
  right; right. exists t, rp, st. eexists. split; [exact K|reflexivity].
Qed.

(** Every run of [add_card]: nothing is sent, or the GET alone, or the
    POST of a row whose data holds the row's own id; the response is then
    made from the reply to the POST. *)
Lemma add_card_cases m body (w : world remote) :
  since w (snd (add_card m body w)) = [] \/
  (exists t rp,
      since w (snd (add_card m body w))
      = [(request_to "GET" t [("select", "cardid")] None, rp)]) \/
  exists t pre cid x rp,
    (pre = [] \/
     exists rp1, pre = [(request_to "GET" t [("select", "cardid")] None, rp1)]) /\
    dict_get "cardid" x = Some cid /\
    since w (snd (add_card m body w))
    = (pre ++ [(request_to "POST" t []
                  (Some (JDict [("cardid", cid); ("data", JDict x)])), rp)])%list /\
    fst (add_card m body w)
    = match rbind (fetch_outcome rp) created with
      | Ok r => r
      | Raise e => failure e
      end.
Proof.
  rewrite add_card_run.
  destruct body as [| | | | |d];
    try (left; cbn [py_get snd]; apply since_refl).
  cbn [py_get].
  destruct (dict_get "cardid" d) as [c|] eqn:G;
    [destruct (negb (truthy c)) eqn:T|].
  2:{ (* the id comes with the card *)
      unfold ret.
      destruct (supabase_fetch_cases "POST" m []
                  (Some (JDict [("cardid", c); ("data", JDict d)])) w)
        as [E|(t & rp & st & K & S & E)]; rewrite E.
      - left. apply since_refl.
      - right; right. exists t, [], c, d, rp.
        split; [now left|]. split; [exact G|].
        destruct (fetch_outcome rp) as [result|e]; cbn [rbind fst snd].
        + split; [apply since_after|]. now destruct (created result).
        + split; [apply since_after|reflexivity]. }
  all: (* the id is made up *)
    cbn [truthy negb]; cbv beta iota;
    destruct (assign_card_id_cases m d w)
      as [[e E]|[(t & rp1 & st1 & e & E)|(t & rp1 & st1 & cid & K & E)]];
    rewrite E;
    [ left; apply since_refl
    | right; left; exists t, rp1; apply since_after
    | ].
  all: match goal with
       | |- context [supabase_fetch "POST" _ [] ?jd ?w1] =>
           destruct (send (request_to "POST" t [] jd) (remote_state w1))
             as [rp st2] eqn:S2;
           rewrite (supabase_fetch_known _ _ _ _ _ _ _ _ K S2)
       end;
    right; right;
    exists t, [(request_to "GET" t [("select", "cardid")] None, rp1)],
           cid, (dict_set "cardid" cid d), rp;
    (split; [right; exists rp1; reflexivity|]);
    (split; [apply dict_get_set|]);
    destruct (fetch_outcome rp) as [result|e]; cbn [rbind fst snd];
    (split; [apply since_after2|]);
    [now destruct (created result)|reflexivity].
Qed.

(** *** Update *)

(** [update_card] sends nothing, or one PATCH whose body is the payload
    without [cardid] under the single column [data]. *)
Lemma update_card_cases m id body (w : world remote) :
  snd (update_card m id body w) = w \/
  exists d t rp st,
    body = JDict d /\
    resolves m t /\
    send (request_to "PATCH" t [("cardid", "eq." ++ id)]
                     (Some (JDict [("data", JDict (dict_pop "cardid" d))])))
         (remote_state w) = (rp, st) /\
    update_card m id body w
    = (match rbind (fetch_outcome rp) (updated id) with
       | Ok r => r
       | Raise e => failure e
       end,
       after w (request_to "PATCH" t [("cardid", "eq." ++ id)]
                           (Some (JDict [("data", JDict (dict_pop "cardid" d))])))
             rp st).
Proof.
  rewrite update_card_run.
  destruct body as [| | | | |d]; try (left; reflexivity).
  cbn [py_pop].
  destruct (supabase_fetch_cases "PATCH" m [("cardid", "eq." ++ id)]
              (Some (JDict [("data", JDict (dict_pop "cardid" d))])) w)
    as [E|(t & rp & st & K & S & E)]; rewrite E.
  - now left.
  - right. exists d, t, rp, st. repeat split; try apply K; try assumption.
    destruct (fetch_outcome rp) as [result|e]; [|reflexivity].
    cbn [rbind]. now destruct (updated id result).
Qed.

Lemma last_exchange {A} (a b : A) (pre pre' : list A) :
  (pre ++ [a] = pre' ++ [b])%list -> a = b.
Proof. intros H. now apply app_inj_tail in H. Qed.

(** C9.  When the remote answers with a success status and a body that is
    not JSON, [supabase_fetch] returns the empty list instead of raising;
    so a Create whose POST was answered that way reports the insertion
    error with status 500, and an Update whose PATCH was answered that way
    reports not-found with status 404. *)
Theorem non_json_success_reads_as_no_rows :
  (forall meth m t ps jd (w : world remote) r st,
      resolves m t ->
      send (request_to meth t ps jd) (remote_state w) = (Replied r, st) ->
      ok r = true -> body_json r = None ->
      fst (supabase_fetch meth m ps jd w) = Ok (JList [])) /\
  (forall m body (w : world remote) pre rq r,
      since w (snd (add_card m body w)) = (pre ++ [(rq, Replied r)])%list ->
      req_method rq = "POST" ->
      ok r = true -> body_json r = None ->
      fst (add_card m body w) = failure insert_failed) /\
  (forall m id body (w : world remote) pre rq r,
      since w (snd (update_card m id body w)) = (pre ++ [(rq, Replied r)])%list ->
      req_method rq = "PATCH" ->
      ok r = true -> body_json r = None ->
      fst (update_card m id body w)
      = (JDict [("error", JStr (not_found id))], 404)).
Proof.
  split; [|split].
  - intros meth m t ps jd w r st K S Hok Hbody.
    rewrite (supabase_fetch_known _ _ _ _ _ _ _ _ K S).
    simpl. now rewrite Hok, Hbody.
  - intros m body w pre rq r Hlast Hmeth Hok Hbody.
    destruct (add_card_cases m body w)
      as [E|[(t & rp & E)|(t & pre' & cid & x & rp & _ & _ & E & R)]];
      rewrite E in Hlast.
    + now destruct pre.
    + apply (last_exchange _ _ []) in Hlast. injection Hlast as <- _.
      discriminate.
    + apply last_exchange in Hlast. injection Hlast as _ ->.
      rewrite R. simpl. now rewrite Hok, Hbody.
  - intros m id body w pre rq r Hlast Hmeth Hok Hbody.
    destruct (update_card_cases m id body w)
      as [E|(d & t & rp & st & _ & _ & _ & E)].
    + rewrite E, since_refl in Hlast. now destruct pre.
    + rewrite E in Hlast |- *. cbn [snd] in Hlast. rewrite since_after in Hlast.
      apply (last_exchange _ _ []) in Hlast. injection Hlast as _ ->.
      simpl. now rewrite Hok, Hbody.
Qed.

(** *** What the routes send *)

Lemma sends_only_pure {X} P (f : world remote -> X * world remote) :
  (forall w, snd (f w) = w) -> sends_only P f.
Proof.
  intros H w. exists []. rewrite H, app_nil_r. now split.
Qed.

Lemma sends_only_bind {A B} P (c : M remote A) (k : A -> M remote B) :
  sends_only P c -> (forall a, sends_only P (k a)) ->
  sends_only P (bind remote c k).
Proof.
  intros Hc Hk w. unfold bind.
  destruct (Hc w) as (l & El & Fl).
  destruct (c w) as [[a|e] w1]; simpl in El.
  - destruct (Hk a w1) as (l' & El' & Fl').
    exists (l ++ l')%list. rewrite El', El, app_assoc.
    split; [reflexivity|]. now apply Forall_app.
  - exists l. now split.
Qed.

(** After a step without effect the rest may rely on the value it gave. *)
Lemma sends_only_bind_lift {A B} P (r : result A) (k : A -> M remote B) :
  (forall a, r = Ok a -> sends_only P (k a)) ->
  sends_only P (bind remote (lift remote r) k).
Proof.
  intros Hk w. unfold bind, lift.
  destruct r as [a|e].
  - now apply Hk.
  - exists []. simpl. rewrite app_nil_r. now split.
Qed.

Lemma sends_only_try_except {A} P (c : M remote A) (h : exn -> M remote A) :
  sends_only P c -> (forall e, sends_only P (h e)) ->
  sends_only P (try_except remote c h).
Proof.
  intros Hc Hh w. unfold try_except.
  destruct (Hc w) as (l & El & Fl).
  destruct (c w) as [[a|e] w1]; simpl in El.
  - exists l. now split.
  - destruct (Hh e w1) as (l' & El' & Fl').
    exists (l ++ l')%list. rewrite El', El, app_assoc.
    split; [reflexivity|]. now apply Forall_app.
Qed.

Lemma sends_only_route P (c : M remote flask_response) h :
  sends_only P c -> sends_only P (route remote c h).
Proof.
  intros Hc w. unfold route.
  destruct (Hc w) as (l & El & Fl).
  destruct (c w) as [[a|e] w1]; exists l; now split.
Qed.

Lemma sends_only_request (P : request -> Prop) rq :
  P rq -> sends_only P (requests_request remote send rq).
Proof.
  intros H w. unfold requests_request.
  exists [(rq, fst (send rq (remote_state w)))].
  destruct (send rq (remote_state w)) as [[e|r] st]; simpl;
    (split; [reflexivity|]); now repeat constructor.
Qed.

Lemma sends_only_fetch (P : request -> Prop) meth m ps jd :
  (forall t, P (request_to meth t ps jd)) ->
  sends_only P (supabase_fetch meth m ps jd).
Proof.
  intros H. unfold supabase_fetch.
  destruct (table_get m MODULE_TO_TABLE) as [[|c t]|];
    try (apply sends_only_pure; reflexivity).
  apply sends_only_bind; [apply sends_only_request, H|].
  intros r. destruct (negb (ok r)); [now apply sends_only_pure|].
  destruct (body_json r); now apply sends_only_pure.
Qed.

Lemma sends_only_post_rows (P : request -> Prop) t rows :
  P (request_to "POST" t [("on_conflict", "cardid")] (Some (JList rows))) ->
  sends_only P (post_rows SUPABASE_URL HEADERS remote send t rows).
Proof.
  intros H. unfold post_rows.
  apply sends_only_bind; [now apply sends_only_request|].
  intros r. now apply sends_only_pure.
Qed.

Lemma sends_only_since {X} P (f : world remote -> X * world remote) w rq rp :
  sends_only P f -> In (rq, rp) (since w (snd (f w))) -> P rq.
Proof.
  intros H Hin. destruct (H w) as (l & El & Fl).
  rewrite (since_app _ _ _ El) in Hin.
  rewrite Forall_forall in Fl. exact (Fl _ Hin).
Qed.

(** The rows built from card objects are whole cards. *)
Lemma rows_to_insert_whole (cards rows : list json) :
  rows_to_insert cards = Ok rows -> Forall whole_card rows.
Proof.
  revert rows. induction cards as [|card cards IH]; simpl; intros rows H.
  - injection H as <-. constructor.
  - destruct card as [| | | | |c]; try discriminate. simpl in H.
    destruct (rows_to_insert cards) as [rows'|e]; [|discriminate].
    injection H as <-. constructor; [now exists c|now apply IH].
Qed.

Lemma reads_write_nothing meth url hs ps :
  meth = "GET" \/ meth = "DELETE" ->
  written_rows (mk_request meth url hs ps None) = [].
Proof. now intros [->| ->]. Qed.

Lemma insert_rows_whole m (rows : list json) :
  Forall whole_card rows ->
  sends_only writes_whole_cards
             (insert_rows SUPABASE_URL HEADERS MODULE_TO_TABLE remote send m rows).
Proof.
  intros H. unfold insert_rows.
  destruct rows as [|row rows]; [now apply sends_only_pure|].
  apply sends_only_bind; [now apply sends_only_pure|].
  intros t. apply sends_only_post_rows. exact H.
Qed.

Lemma reset_cards_whole m : sends_only writes_whole_cards (reset_cards m).
Proof.
  unfold reset_cards. apply sends_only_route.
  apply sends_only_bind.
  { apply sends_only_fetch. intros t. unfold writes_whole_cards.
    rewrite reads_write_nothing; [constructor|now right]. }
  intros _. apply sends_only_bind; [now apply sends_only_pure|]. intros initial.
  apply sends_only_bind; [now apply sends_only_pure|]. intros cards.
  apply sends_only_bind_lift. intros rows Hrows.
  apply sends_only_bind.
  { apply insert_rows_whole. now apply rows_to_insert_whole with cards. }
  intros _. apply sends_only_bind; now (intros; apply sends_only_pure).
Qed.

Lemma import_cards_whole m body : sends_only writes_whole_cards (import_cards m body).
Proof.
  unfold import_cards. apply sends_only_route.
  apply sends_only_bind; [now apply sends_only_pure|]. intros to_import.
  destruct to_import as [| | | |cards|]; try now apply sends_only_pure.
  apply sends_only_bind.
  { apply sends_only_fetch. intros t. unfold writes_whole_cards.
    rewrite reads_write_nothing; [constructor|now right]. }
  intros _. apply sends_only_bind_lift. intros rows Hrows.
  apply sends_only_bind.
  { apply insert_rows_whole. now apply rows_to_insert_whole with cards. }
  intros _. now apply sends_only_pure.
Qed.

Lemma initialize_data_whole m : sends_only writes_whole_cards (initialize_data m).
Proof.
  unfold initialize_data. apply sends_only_bind.
  - unfold initialize_check. apply sends_only_try_except;
      [|intros; apply sends_only_bind; intros; now apply sends_only_pure].
    apply sends_only_bind; [now apply sends_only_pure|]. intros t.
    apply sends_only_bind.
    { apply sends_only_request. unfold writes_whole_cards.
      rewrite reads_write_nothing; [constructor|now left]. }
    intros r. apply sends_only_bind; [now apply sends_only_pure|]. intros _.
    apply sends_only_bind; [now apply sends_only_pure|]. intros found.
    apply sends_only_bind; [now apply sends_only_pure|]. intros n.
    destruct (0 <? n); now apply sends_only_pure.
  - intros [t|]; [|now apply sends_only_pure].
    unfold initialize_load. cbv zeta. apply sends_only_try_except;
      [|intros e; destruct (exn_cls e); now apply sends_only_pure].
    apply sends_only_bind; [now apply sends_only_pure|]. intros initial.
    apply sends_only_bind; [now apply sends_only_pure|]. intros cards.
    apply sends_only_bind_lift. intros rows Hrows.
    destruct rows as [|row rows]; [now apply sends_only_pure|].
    apply sends_only_bind.
    { apply sends_only_post_rows. now apply rows_to_insert_whole with cards. }
    intros _. apply sends_only_bind; [now apply sends_only_pure|]. intros n.
    apply sends_only_bind; now (intros; apply sends_only_pure).
Qed.

(** C2 (amended).  Only Update keeps [cardid] out of [data]: the data it
    writes never has that key.  Create, Reset, Bulk Import and Seeding
    write whole card objects: the row's [data] is the card as it came, its
    [cardid] included, and the row's [cardid] is a copy of it.  For Create
    the key is always there; for the other three it is there whenever the
    source card has one. *)
Theorem cardid_inside_written_data :
  (forall m id body (w : world remote) rq rp row,
      In (rq, rp) (since w (snd (update_card m id body w))) ->
      In row (written_rows rq) -> id_in_data row = false) /\
  (forall m body (w : world remote) rq rp row,
      In (rq, rp) (since w (snd (add_card m body w))) ->
      In row (written_rows rq) -> whole_card row /\ id_in_data row = true) /\
  (forall m (w : world remote) rq rp row,
      In (rq, rp) (since w (snd (reset_cards m w))) ->
      In row (written_rows rq) -> whole_card row) /\
  (forall m body (w : world remote) rq rp row,
      In (rq, rp) (since w (snd (import_cards m body w))) ->
      In row (written_rows rq) -> whole_card row) /\
  (forall m (w : world remote) rq rp row,
      In (rq, rp) (since w (snd (initialize_data m w))) ->
      In row (written_rows rq) -> whole_card row).
Proof.
  split; [|split; [|split; [|split]]].
  - intros m id body w rq rp row Hin Hrow.
    destruct (update_card_cases m id body w)
      as [E|(d & t & rp' & st & _ & _ & _ & E)]; rewrite E in Hin.
    + rewrite since_refl in Hin. destruct Hin.
    + cbn [snd] in Hin. rewrite since_after in Hin.
      destruct Hin as [[= <- _]|[]].
      destruct Hrow as [<-|[]]. simpl. apply dict_mem_pop.
  - intros m body w rq rp row Hin Hrow.
    destruct (add_card_cases m body w)
      as [E|[(t & rp' & E)|(t & pre & cid & x & rp' & Hpre & Hx & E & _)]];
      rewrite E in Hin.
    + destruct Hin.
    + destruct Hin as [[= <- _]|[]]. destruct Hrow.
    + apply in_app_or in Hin as [Hin|[[= <- _]|[]]].
      * destruct Hpre as [->|[rp1 ->]]; [destruct Hin|].
        destruct Hin as [[= <- _]|[]]. destruct Hrow.
      * destruct Hrow as [<-|[]]. split.
        -- exists x. now rewrite Hx.
        -- simpl. unfold dict_mem. now rewrite Hx.
  - intros m w rq rp row Hin Hrow.
    pose proof (sends_only_since _ _ _ _ _ (reset_cards_whole m) Hin) as F.
    unfold writes_whole_cards in F. rewrite Forall_forall in F. now apply F.
  - intros m body w rq rp row Hin Hrow.
    pose proof (sends_only_since _ _ _ _ _ (import_cards_whole m body) Hin) as F.
    unfold writes_whole_cards in F. rewrite Forall_forall in F. now apply F.
  - intros m w rq rp row Hin Hrow.
    pose proof (sends_only_since _ _ _ _ _ (initialize_data_whole m) Hin) as F.
    unfold writes_whole_cards in F. rewrite Forall_forall in F. now apply F.
Qed.

(** C4 (amended).  A Bulk Import request whose body is a JSON object
    without an array under [cards] (the member is missing or is something
    else) is answered with the 400 error and nothing is sent to the store,
    so the stored rows stay as they are.  A body that is not a JSON object
    sends nothing to the store either; it is answered with status 500. *)
Theorem import_cards_without_array m body (w : world remote) :
  match body with
  | JDict d =>
      match dict_get "cards" d with
      | Some (JList _) => True
      | _ =>
          import_cards m body w
          = ((JDict [("error", JStr "导入数据必须是 JSON 数组")], 400), w)
      end
  | _ =>
      snd (import_cards m body w) = w /\
      snd (fst (import_cards m body w)) = 500
  end.
Proof.
  destruct body as [| | | | |d]; try (split; reflexivity).
  unfold import_cards, route, bind, lift, ret. cbn [py_get].
  destruct (dict_get "cards" d) as [[| | | |cards|]|];
    first [exact I | reflexivity].
Qed.

End GatewayFacts.

(* ===================================================================== *)
(** ** The routes over the table store *)
(* ===================================================================== *)

Lemma filter_any_row (rows : list Store.row) :
  filter (Store.selects Store.AnyRow) rows = rows.
Proof. induction rows as [|r rows IH]; simpl; now rewrite ?IH. Qed.

Lemma filter_no_row (rows : list Store.row) :
  filter (fun r => negb (Store.selects Store.AnyRow r)) rows = [].
Proof. induction rows as [|r rows IH]; simpl; now rewrite ?IH. Qed.

Lemma parse_rows_of_rows (rows : list Store.row) :
  Store.parse_rows (map Store.row_json rows) = Some rows.
Proof.
  induction rows as [|[id data] rows IH]; [reflexivity|].
  simpl. simpl in IH. now rewrite IH.
Qed.

Lemma has_id_in (id : string) (rows : list Store.row) :
  Store.has_id id rows = true -> In id (map Store.row_id rows).
Proof.
  unfold Store.has_id. rewrite existsb_exists. intros (r & Hin & E).
  apply String.eqb_eq in E. subst. now apply in_map.
Qed.

Lemma distinct_ids_NoDup (rows : list Store.row) :
  NoDup (map Store.row_id rows) -> Store.distinct_ids rows = true.
Proof.
  induction rows as [|r rows IH]; [reflexivity|].
  simpl. intros H. inversion H as [|? ? Hnotin Hrest]; subst.
  rewrite IH by assumption.
  destruct (Store.has_id (Store.row_id r) rows) eqn:E; [|reflexivity].
  now apply has_id_in in E.
Qed.

Lemma set_table_same url rows (st : Store.state) :
  Store.set_table url rows st url = Some rows.
Proof. unfold Store.set_table. now rewrite String.eqb_refl. Qed.

(** A PATCH that sets [data] alone leaves every id where it is. *)
Lemma patch_data_keeps_ids f x (rows : list Store.row) :
  exists rows',
    Store.patch_rows f [("data", x)] rows = Some rows' /\
    map Store.row_id rows' = map Store.row_id rows.
Proof.
  induction rows as [|r rows (rows' & E & Hids)]; [now exists []|].
  simpl. rewrite E.
  destruct (Store.selects f r); eexists; (split; [reflexivity|]);
    simpl; now rewrite Hids.
Qed.

Lemma stored_cards_rows (cards : list dict) (ids : list string) :
  Forall2 has_cardid cards ids ->
  rows_to_insert (map JDict cards)
  = Ok (map Store.row_json (stored_cards cards ids)) /\
  map Store.row_id (stored_cards cards ids) = ids /\
  map Store.row_data (stored_cards cards ids) = map JDict cards /\
  Forall self_named (stored_cards cards ids).
Proof.
  induction 1 as [|c id cards ids Hc _ (IHrows & IHids & IHdata & IHnamed)].
  - repeat split; constructor.
  - simpl. rewrite Hc, IHrows, IHids, IHdata. repeat split.
    constructor; [now exists c|assumption].
Qed.

(** Rows that carry their own id come back from the reshaping as the card
    objects they hold. *)
Lemma transform_loop_self_named (rows : list Store.row) (cards : list json) :
  Forall self_named rows ->
  transform_loop (map Store.row_json rows) cards
  = Ok (cards ++ map Store.row_data rows)%list.
Proof.
  intros H. revert cards.
  induction H as [|[id data] rows (c & Hdata & Hid) _ IH]; intros cards.
  - simpl. now rewrite app_nil_r.
  - simpl in Hdata, Hid. subst data.
    cbn [map]. rewrite (transform_loop_take _ (JDict c)).
    + rewrite IH. cbn [map Store.row_data]. now rewrite <- app_assoc.
    + reflexivity.
    + unfold reshape, Store.row_json. simpl. now rewrite dict_set_same.
Qed.

Section StoreFacts.

Variable SUPABASE_URL : string.
Variable HEADERS : list (string * string).
Variable MODULE_TO_TABLE : list (string * string).
Variable load_file : string -> result json.
Variable order : list Store.row -> list Store.row.

Local Notation table_url := (table_url SUPABASE_URL).
Local Notation resolves := (resolves MODULE_TO_TABLE).
Local Notation send := (Store.send order).
Local Notation get_all_cards :=
  (get_all_cards SUPABASE_URL HEADERS MODULE_TO_TABLE Store.state send).
Local Notation update_card :=
  (update_card SUPABASE_URL HEADERS MODULE_TO_TABLE Store.state send).
Local Notation reset_cards :=
  (reset_cards SUPABASE_URL HEADERS MODULE_TO_TABLE Store.state send load_file).

Lemma send_patch_data_keeps_ids url hs ps x (st st' : Store.state) rp :
  send (mk_request "PATCH" url hs ps (Some (JDict [("data", x)]))) st = (rp, st') ->
  forall u, table_ids st' u = table_ids st u.
Proof.
  unfold Store.send. cbn [req_url req_method req_params req_json].
  destruct (st url) as [rows|] eqn:T; [|now intros [= _ <-]].
  cbn [String.eqb Ascii.eqb Bool.eqb].
  assert (Same : forall rows' rp',
             map Store.row_id rows' = map Store.row_id rows ->
             (rp', Store.set_table url rows' st) = (rp, st') ->
             forall u, table_ids st' u = table_ids st u).
  { intros rows' rp' Hids [= _ <-] u. unfold table_ids, Store.set_table.
    destruct (String.eqb u url) eqn:E; [|reflexivity].
    apply String.eqb_eq in E. subst u. rewrite T. simpl. now rewrite Hids. }
  unfold Store.patch.
  destruct (Store.parse_filter ps) as [f|]; [|now apply Same].
  destruct (patch_data_keeps_ids f x rows) as (rows' & -> & Hids).
  destruct (Store.patch_rows f [("data", x)] (filter (Store.selects f) rows));
    [|now apply Same].
  destruct (Store.distinct_ids rows'); now apply Same.
Qed.

(** C5.  Whatever the payload of an Update, a [cardid] in it included, the
    ids of the stored rows are after the operation what they were before:
    the only request sent is a PATCH that sets the single column [data],
    to the payload with its [cardid] key removed. *)
Theorem update_card_keeps_stored_ids m id body (w : world Store.state) :
  (forall u,
      table_ids (remote_state (snd (update_card m id body w))) u
      = table_ids (remote_state w) u) /\
  Forall (fun x =>
            exists d,
              body = JDict d /\
              req_method (fst x) = "PATCH" /\
              req_json (fst x) = Some (JDict [("data", JDict (dict_pop "cardid" d))]) /\
              dict_mem "cardid" (dict_pop "cardid" d) = false)
         (since w (snd (update_card m id body w))).
Proof.
  destruct (update_card_cases SUPABASE_URL HEADERS MODULE_TO_TABLE
              Store.state send m id body w)
    as [E|(d & t & rp & st & -> & K & S & E)]; rewrite E.
  - rewrite since_refl. split; [reflexivity|constructor].
  - cbn [snd]. rewrite since_after. split.
    + exact (send_patch_data_keeps_ids _ _ _ _ _ _ _ S).
    + constructor; [|constructor]. exists d.
      repeat split. apply dict_mem_pop.
Qed.

(** The store lists its rows in an order of its own. *)
Hypothesis order_perm : forall rows, Permutation (order rows) rows.

Lemma send_delete_all url hs (st : Store.state) rows :
  st url = Some rows ->
  send (mk_request "DELETE" url hs [("cardid", "not.is.null")] None) st
  = (Store.answer 200 "OK" (Some (JList (map Store.row_json rows))),
     Store.set_table url [] st).
Proof.
  intros T. unfold Store.send. cbn [req_url req_method req_params req_json].
  rewrite T. cbn [String.eqb Ascii.eqb Bool.eqb].
  unfold Store.delete.
  change (Store.parse_filter [("cardid", "not.is.null")]) with (Some Store.AnyRow).
  cbv beta iota. now rewrite filter_any_row, filter_no_row.
Qed.

Lemma send_upsert_empty url hs (st : Store.state) new :
  st url = Some [] ->
  Store.distinct_ids new = true ->
  send (mk_request "POST" url hs [("on_conflict", "cardid")]
                   (Some (JList (map Store.row_json new)))) st
  = (Store.answer 201 "Created" (Some (JList (map Store.row_json new))),
     Store.set_table url new st).
Proof.
  intros T D. unfold Store.send. cbn [req_url req_method req_params req_json].
  rewrite T. cbn [String.eqb Ascii.eqb Bool.eqb].
  unfold Store.post. rewrite parse_rows_of_rows, D. reflexivity.
Qed.

Lemma send_get_all url hs (st : Store.state) rows :
  st url = Some rows ->
  send (mk_request "GET" url hs [("select", "cardid,data")] None) st
  = (Store.answer 200 "OK" (Some (JList (map Store.row_json (order rows)))), st).
Proof.
  intros T. unfold Store.send. cbn [req_url req_method req_params req_json].
  rewrite T. cbn [String.eqb Ascii.eqb Bool.eqb].
  unfold Store.get.
  change (Store.parse_filter [("select", "cardid,data")]) with (Some Store.AnyRow).
  change (Store.project [("select", "cardid,data")]) with (Some Store.row_json).
  change (Store.limit [("select", "cardid,data")]) with (fun l : list Store.row => l).
  cbv beta iota. now rewrite filter_any_row.
Qed.

Lemma insert_rows_stores m t new (w : world Store.state) :
  resolves m t ->
  remote_state w (table_url t) = Some [] ->
  Store.distinct_ids new = true ->
  exists w',
    insert_rows SUPABASE_URL HEADERS MODULE_TO_TABLE Store.state send m
                (map Store.row_json new) w = (Ok tt, w') /\
    remote_state w' (table_url t) = Some new.
Proof.
  intros [Kt Kne] T D. destruct new as [|r new].
  - exists w. split; [reflexivity|exact T].
  - unfold insert_rows. cbn [map]. unfold bind, lift, table_index. rewrite Kt.
    unfold post_rows, bind, requests_request.
    change (JList (Store.row_json r :: map Store.row_json new))
      with (JList (map Store.row_json (r :: new))).
    rewrite (send_upsert_empty _ _ _ _ T D).
    eexists. split; [reflexivity|]. apply set_table_same.
Qed.

(** Reset on a table of the store: the table holds the fixture's cards
    afterwards, whatever it held before. *)
Lemma reset_cards_stores m t cards ids (w : world Store.state) rows :
  resolves m t ->
  remote_state w (table_url t) = Some rows ->
  load_file (m ++ "_cards.json") = Ok (JList (map JDict cards)) ->
  Forall2 has_cardid cards ids ->
  NoDup ids ->
  exists w',
    reset_cards m w
    = ((JDict [("success", JBool true);
               ("message", JStr ("模块 " ++ m ++ " 已重置"));
               ("count", JNum (Z.of_nat (List.length cards)))], 200), w') /\
    remote_state w' (table_url t) = Some (stored_cards cards ids).
Proof.
  intros K T Hfile Hcards Hnodup.
  destruct (stored_cards_rows _ _ Hcards) as (Hrows & Hids & _ & _).
  assert (D : Store.distinct_ids (stored_cards cards ids) = true)
    by (apply distinct_ids_NoDup; now rewrite Hids).
  unfold reset_cards, route, bind, lift, ret.
  rewrite (supabase_fetch_known SUPABASE_URL HEADERS MODULE_TO_TABLE Store.state
             send _ _ _ _ _ _ _ _ K (send_delete_all _ _ _ _ T)).
  change (fetch_outcome (Store.answer 200 "OK" ?b))
    with (Ok (JList (map Store.row_json rows))).
  cbv beta iota. rewrite Hfile. cbn [py_iter]. rewrite Hrows.
  match goal with
  | |- context [insert_rows _ _ _ _ _ _ _ ?w1] =>
      destruct (insert_rows_stores m t (stored_cards cards ids) w1 K
                  (set_table_same _ _ _) D) as (w2 & -> & T2)
  end.
  cbn [py_len]. rewrite length_map.
  exists w2. split; [reflexivity|exact T2].
Qed.

(** C3.  For a resolvable module whose table the store holds and whose
    fixture file is a JSON array of card objects, each with a string
    [cardid] and no two with the same, Reset followed by List answers 200
    with exactly the fixture's cards, ids and payload fields as in the
    file, one for each entry, in the order the store lists them. *)
Theorem reset_then_list_gives_fixture m t cards ids (w : world Store.state) rows :
  resolves m t ->
  remote_state w (table_url t) = Some rows ->
  load_file (m ++ "_cards.json") = Ok (JList (map JDict cards)) ->
  Forall2 has_cardid cards ids ->
  NoDup ids ->
  exists listed,
    fst (get_all_cards m (snd (reset_cards m w))) = (JList listed, 200) /\
    Permutation listed (map JDict cards) /\
    fst (reset_cards m w)
    = (JDict [("success", JBool true);
              ("message", JStr ("模块 " ++ m ++ " 已重置"));
              ("count", JNum (Z.of_nat (List.length cards)))], 200).
Proof.
  intros K T Hfile Hcards Hnodup.
  destruct (reset_cards_stores m t cards ids w rows K T Hfile Hcards Hnodup)
    as (w' & -> & T').
  destruct (stored_cards_rows _ _ Hcards) as (_ & _ & Hdata & Hnamed).
  exists (map Store.row_data (order (stored_cards cards ids))).
  split; [|split; [|reflexivity]].
  - cbn [snd].
    rewrite (get_all_cards_run SUPABASE_URL HEADERS MODULE_TO_TABLE Store.state send).
    rewrite (supabase_fetch_known SUPABASE_URL HEADERS MODULE_TO_TABLE Store.state
               send _ _ _ _ _ _ _ _ K (send_get_all _ _ _ _ T')).
    change (fetch_outcome (Store.answer 200 "OK" (Some ?b))) with (Ok b).
    unfold transform_from_supabase. cbn [py_iter rbind].
    rewrite transform_loop_self_named; [reflexivity|].
    eapply Permutation_Forall; [|exact Hnamed].
    apply Permutation_sym, order_perm.
  - rewrite <- Hdata. apply Permutation_map, order_perm.
Qed.

End StoreFacts.

(* ===================================================================== *)
(** ** The routes at work on a deployment *)
(* ===================================================================== *)

Lemma demo_mod1 : resolves Demo.modules "mod1" "mod1_cards".
Proof. split; [reflexivity|discriminate]. Qed.

(** The store would rename a row if a PATCH named the column [cardid]:
    that an Update keeps the ids is the gateway's doing. *)
Example store_patch_can_rename :
  option_map (map Store.row_id)
    (snd (Demo.send
            (mk_request "PATCH" "https://db.example/rest/v1/mod1_cards" []
                        [("cardid", "eq.a")] (Some (JDict [("cardid", JStr "b")])))
            (Demo.tables [Store.mk_row "a" JNull] []))
         "https://db.example/rest/v1/mod1_cards")
  = Some ["b"].
Proof. reflexivity. Qed.

(** The specification's example: with ids mod1_card_1 and mod1_card_3 in
    the table, a card created without id gets mod1_card_4. *)
Example add_card_spec_example :
  let w := Demo.start [Store.mk_row "mod1_card_1" JNull; Store.mk_row "mod1_card_3" JNull] in
  option_map (map Store.row_id)
             (Demo.mod1_rows (snd (Demo.add_card "mod1" (JDict [("front", JStr "salut")]) w)))
  = Some ["mod1_card_1"; "mod1_card_3"; "mod1_card_4"]
  /\ spec_next_card_id "mod1" ["mod1_card_1"; "mod1_card_3"] = "mod1_card_4".
Proof. split; reflexivity. Qed.

(** C1, counterexample.  The table holds the one id mod1_card_x_9, which is
    not of the form mod1_card_N: by the specification's reading the new
    card gets mod1_card_1, [add_card] reads 9 after the last underscore
    and inserts the card as mod1_card_10. *)
Lemma add_card_reads_last_segment :
  let w := Demo.start [Store.mk_row "mod1_card_x_9" (JDict [("front", JStr "neuf")])] in
  spec_next_card_id "mod1" ["mod1_card_x_9"] = "mod1_card_1" /\
  fst (Demo.add_card "mod1" (JDict [("front", JStr "salut")]) w)
  = (JDict [("success", JBool true);
            ("card", JDict [("front", JStr "salut"); ("cardid", JStr "mod1_card_10")])],
     201) /\
  option_map (map Store.row_id)
             (Demo.mod1_rows (snd (Demo.add_card "mod1" (JDict [("front", JStr "salut")]) w)))
  = Some ["mod1_card_x_9"; "mod1_card_10"] /\
  spec_next_card_id "mod1" ["mod1_card_x_9"] <> "mod1_card_10".
Proof. repeat split; try reflexivity. discriminate. Qed.

(** C2, counterexample.  The row a Create stores has [cardid] inside its
    [data], and so have the rows a Reset stores from the fixture. *)
Lemma create_stores_cardid_in_data :
  Demo.mod1_rows (snd (Demo.add_card "mod1" (JDict [("front", JStr "salut")]) (Demo.start [])))
  = Some [Store.mk_row "mod1_card_1"
            (JDict [("front", JStr "salut"); ("cardid", JStr "mod1_card_1")])] /\
  id_in_data (Store.row_json
                (Store.mk_row "mod1_card_1"
                   (JDict [("front", JStr "salut"); ("cardid", JStr "mod1_card_1")])))
  = true /\
  option_map (map (fun r => id_in_data (Store.row_json r)))
             (Demo.mod1_rows (snd (Demo.reset_cards "mod1" (Demo.start []))))
  = Some [true; true].
Proof. repeat split; reflexivity. Qed.

(** C4, counterexample.  A body that is a JSON string supplies no array of
    cards; the answer is the generic failure with status 500, not the 400
    error. *)
Lemma import_cards_non_object_body :
  fst (Demo.import_cards "mod1" (JStr "cards") (Demo.start []))
  = (JDict [("success", JBool false);
            ("error", JStr "导入失败: 'str' object has no attribute 'get'")], 500) /\
  snd (fst (Demo.import_cards "mod1" (JStr "cards") (Demo.start []))) <> 400.
Proof. split; [reflexivity|discriminate]. Qed.

(** C10, counterexample.  A row with both keys whose [data] is null is not
    dropped: the reshaping raises, and List answers 500. *)
Lemma transform_from_supabase_null_data :
  transform_from_supabase (JList [JDict [("cardid", JStr "a"); ("data", JNull)]])
  = Raise (mk_exn TypeError "'NoneType' object is not a mapping") /\
  fst (Demo.get_all_cards "mod1" (Demo.start [Store.mk_row "a" JNull]))
  = (JDict [("error", JStr "'NoneType' object is not a mapping")], 500).
Proof. split; reflexivity. Qed.

(** C8, witness: List on the empty table of mod1. *)
Lemma get_all_cards_empty_table_witness :
  resolves Demo.modules "mod1" "mod1_cards" /\
  Demo.mod1_rows (Demo.start []) = Some [] /\
  fst (Demo.get_all_cards "mod1" (Demo.start [])) = (JList [], 200).
Proof.
  split; [exact demo_mod1|]. split; [reflexivity|].
  apply (get_all_cards_empty_table Demo.url Demo.headers Demo.modules
           Store.state Demo.send "mod1" "mod1_cards" (Demo.start [])
           (mk_response 200 "OK" "" (Some (JList []))) (Demo.tables [] [])).
  - exact demo_mod1.
  - reflexivity.
  - reflexivity.
  - reflexivity.
Defined.

(** C7, witness: Delete of an id the table does not hold. *)
Lemma delete_card_reports_success_witness :
  Store.has_id "mod1_card_7" [Store.mk_row "mod1_card_1" JNull] = false /\
  fst (Demo.delete_card "mod1" "mod1_card_7"
         (Demo.start [Store.mk_row "mod1_card_1" JNull]))
  = (JDict [("success", JBool true)], 200).
Proof.
  split; [reflexivity|].
  unfold Demo.delete_card.
  erewrite (delete_card_reports_success Demo.url Demo.headers Demo.modules
              Store.state Demo.send "mod1" "mod1_cards" "mod1_card_7").
  - reflexivity.
  - exact demo_mod1.
  - reflexivity.
  - reflexivity.
Defined.

(** C6, witness: Update of a card the table holds, and of one it does
    not. *)
Lemma update_card_not_found_or_card_witness :
  let w := Demo.start [Store.mk_row "mod1_card_1" (JDict [("front", JStr "salut")])] in
  (exists card,
      card = JDict [("front", JStr "bonjour"); ("cardid", JStr "mod1_card_1")] /\
      fst (Demo.update_card "mod1" "mod1_card_1" (JDict [("front", JStr "bonjour")]) w)
      = (JDict [("success", JBool true); ("card", card)], 200)) /\
  fst (Demo.update_card "mod1" "mod1_card_7" (JDict [("front", JStr "bonjour")]) w)
  = (JDict [("error", JStr (not_found "mod1_card_7"))], 404).
Proof.
  split.
  - destruct (update_card_not_found_or_card Demo.url Demo.headers Demo.modules
                Store.state Demo.send "mod1" "mod1_cards" "mod1_card_1"
                [("front", JStr "bonjour")]
                (Demo.start [Store.mk_row "mod1_card_1" (JDict [("front", JStr "salut")])])
                _ _
                [JDict [("cardid", JStr "mod1_card_1");
                        ("data", JDict [("front", JStr "bonjour")])]]
                demo_mod1 eq_refl eq_refl eq_refl) as (card & Hcard & E).
    exists card. split; [|exact E].
    injection Hcard as <-. reflexivity.
  - exact (update_card_not_found_or_card Demo.url Demo.headers Demo.modules
             Store.state Demo.send "mod1" "mod1_cards" "mod1_card_7"
             [("front", JStr "bonjour")]
             (Demo.start [Store.mk_row "mod1_card_1" (JDict [("front", JStr "salut")])])
             _ _ [] demo_mod1 eq_refl eq_refl eq_refl).
Defined.

(** C1, witness: the specification's example.  The table holds mod1_card_1
    and mod1_card_3; the card is inserted as mod1_card_4. *)
Lemma add_card_assigns_next_number_witness :
  let w := Demo.start [Store.mk_row "mod1_card_1" JNull; Store.mk_row "mod1_card_3" JNull] in
  card_number "mod1" "mod1_card_1" = Some 1 /\
  card_number "mod1" "mod1_card_3" = Some 3 /\
  map (fun x => req_json (fst x))
      (since w (snd (Demo.add_card "mod1" (JDict [("front", JStr "salut")]) w)))
  = [None;
     Some (JDict [("cardid", JStr "mod1_card_4");
                  ("data", JDict [("front", JStr "salut");
                                  ("cardid", JStr "mod1_card_4")])])].
Proof.
  split; [reflexivity|]. split; [reflexivity|].
  destruct (add_card_assigns_next_number Demo.url Demo.headers Demo.modules
              Store.state Demo.send "mod1" "mod1_cards" [("front", JStr "salut")]
              (Demo.start [Store.mk_row "mod1_card_1" JNull; Store.mk_row "mod1_card_3" JNull])
              _ _ ["mod1_card_1"; "mod1_card_3"]
              demo_mod1 eq_refl eq_refl eq_refl eq_refl)
    as (M & H0 & Hub & Hatt & _ & _ & _ & E).
  assert (HM : M = 3).
  { pose proof (Hub "mod1_card_3" 3 (or_intror (or_introl eq_refl)) eq_refl) as H3.
    destruct Hatt as [->|(id & [<-|[<-|[]]] & Hid)].
    - lia.
    - injection Hid as <-. lia.
    - injection Hid as <-. reflexivity. }
  subst M. change (within_digit_limit (3 + 1)) with true in E.
  destruct E as [rp E]. unfold Demo.add_card. rewrite E. reflexivity.
Defined.

(** C3, witness: Reset then List on mod1, whose table held another card. *)
Lemma reset_then_list_gives_fixture_witness :
  let w := Demo.start [Store.mk_row "mod1_card_9" (JDict [("front", JStr "neuf")])] in
  Demo.files "mod1_cards.json" = Ok Demo.mod1_fixture /\
  exists listed,
    fst (Demo.get_all_cards "mod1" (snd (Demo.reset_cards "mod1" w))) = (JList listed, 200) /\
    Permutation listed
      [JDict [("cardid", JStr "mod1_card_1"); ("front", JStr "bonjour"); ("back", JStr "hello")];
       JDict [("cardid", JStr "mod1_card_3"); ("front", JStr "merci"); ("back", JStr "thanks")]].
Proof.
  split; [reflexivity|].
  destruct (reset_then_list_gives_fixture Demo.url Demo.headers Demo.modules
              Demo.files (fun rows => rows) (fun rows => Permutation_refl rows)
              "mod1" "mod1_cards"
              [[("cardid", JStr "mod1_card_1"); ("front", JStr "bonjour"); ("back", JStr "hello")];
               [("cardid", JStr "mod1_card_3"); ("front", JStr "merci"); ("back", JStr "thanks")]]
              ["mod1_card_1"; "mod1_card_3"]
              (Demo.start [Store.mk_row "mod1_card_9" (JDict [("front", JStr "neuf")])])
              [Store.mk_row "mod1_card_9" (JDict [("front", JStr "neuf")])]
              demo_mod1 eq_refl eq_refl)
    as (listed & E & P & _).
  - repeat constructor.
  - repeat constructor; simpl; intuition discriminate.
  - exists listed. split; [exact E|exact P].
Defined.

(** C5, witness: an Update whose payload names another id. *)
Lemma update_card_keeps_stored_ids_witness :
  let w := Demo.start [Store.mk_row "mod1_card_1" (JDict [("front", JStr "salut")])] in
  let body := JDict [("cardid", JStr "mod1_card_2"); ("front", JStr "bonjour")] in
  table_ids (remote_state (snd (Demo.update_card "mod1" "mod1_card_1" body w)))
            "https://db.example/rest/v1/mod1_cards"
  = Some ["mod1_card_1"] /\
  Demo.mod1_rows (snd (Demo.update_card "mod1" "mod1_card_1" body w))
  = Some [Store.mk_row "mod1_card_1" (JDict [("front", JStr "bonjour")])].
Proof.
  split; [|reflexivity].
  unfold Demo.update_card, Demo.send.
  rewrite (proj1 (update_card_keeps_stored_ids Demo.url Demo.headers Demo.modules
                    (fun rows => rows) "mod1" "mod1_card_1" _ _)).
  reflexivity.
Defined.

(** C9, witness: a store that answers 201 with an empty body. *)
Lemma non_json_success_reads_as_no_rows_witness :
  let w := mk_world tt [] true in
  fst (supabase_fetch Demo.url Demo.headers Demo.modules unit Demo.silent
         "DELETE" "mod1" [] None w) = Ok (JList []) /\
  fst (add_card Demo.url Demo.headers Demo.modules unit Demo.silent "mod1"
         (JDict [("cardid", JStr "mod1_card_1"); ("front", JStr "salut")]) w)
  = failure insert_failed /\
  fst (update_card Demo.url Demo.headers Demo.modules unit Demo.silent "mod1"
         "mod1_card_1" (JDict [("front", JStr "salut")]) w)
  = (JDict [("error", JStr (not_found "mod1_card_1"))], 404).
Proof.
  destruct (non_json_success_reads_as_no_rows Demo.url Demo.headers Demo.modules
              unit Demo.silent) as (F & C & U).
  split; [|split].
  - eapply F; [exact demo_mod1|reflexivity|reflexivity|reflexivity].
  - eapply (C _ _ _ []); reflexivity.
  - eapply (U _ _ _ _ []); reflexivity.
Defined.

(** C2, witness: the rows an Update and a Create write. *)
Lemma cardid_inside_written_data_witness :
  id_in_data (JDict [("data", JDict [("front", JStr "bonjour")])]) = false /\
  id_in_data (JDict [("cardid", JStr "mod1_card_1");
                     ("data", JDict [("front", JStr "salut");
                                     ("cardid", JStr "mod1_card_1")])]) = true.
Proof.
  destruct (cardid_inside_written_data Demo.url Demo.headers Demo.modules
              Store.state Demo.send Demo.files Demo.print) as (U & C & _).
  split.
  - eapply (U "mod1" "mod1_card_1"
              (JDict [("cardid", JStr "mod1_card_2"); ("front", JStr "bonjour")])
              (Demo.start [Store.mk_row "mod1_card_1" JNull])).
    + left. reflexivity.
    + left. reflexivity.
  - eapply (C "mod1" (JDict [("front", JStr "salut")]) (Demo.start [])).
    + right. left. reflexivity.
    + left. reflexivity.
Defined.

(* ===================================================================== *)
(** ** More about the built-ins: decimal text and dict updates *)
(* ===================================================================== *)

Lemma dict_get_set_other (k k' : string) (v : json) (d : dict) :
  k' <> k -> dict_get k' (dict_set k v d) = dict_get k' d.
Proof.
  intros Hne. induction d as [|[k0 v0] d IH]; simpl.
  - destruct (String.eqb k' k) eqn:E; [|reflexivity].
    apply String.eqb_eq in E. contradiction.
  - destruct (String.eqb k k0) eqn:E0; simpl.
    + apply String.eqb_eq in E0. subst k0.
      destruct (String.eqb k' k) eqn:E; [|reflexivity].
      apply String.eqb_eq in E. contradiction.
    + now rewrite IH.
Qed.

Lemma dict_set_twice (k : string) (v : json) (d : dict) :
  dict_set k v (dict_set k v d) = dict_set k v d.
Proof. apply dict_set_same, dict_get_set. Qed.

Lemma append_assoc (a b c : string) : (a ++ b) ++ c = a ++ (b ++ c).
Proof. induction a as [|x a IH]; simpl; [reflexivity|now rewrite IH]. Qed.

Lemma strip_prefix_of_app (p r : string) : strip_prefix p (p ++ r) = Some r.
Proof.
  induction p as [|a p IH]; simpl; [reflexivity|].
  now rewrite Ascii.eqb_refl.
Qed.

(** The digits [str] writes are read back by [int], after any number read
    before them. *)
Lemma int_digits_of_uint (d : Decimal.uint) (acc : positive) :
  int_digits (Z.pos acc) false
             (list_ascii_of_string (NilEmpty.string_of_uint d))
  = Some (Z.pos (Pos.of_uint_acc d acc)).
Proof.
  revert acc. induction d as [|d IH|d IH|d IH|d IH|d IH|d IH|d IH|d IH|d IH|d IH];
    intros acc; [reflexivity|..];
    cbn [NilEmpty.string_of_uint list_ascii_of_string int_digits Pos.of_uint_acc];
    match goal with
    | |- context [digit_of ?c] =>
        let v := eval vm_compute in (digit_of c) in
        change (digit_of c) with v
    end;
    cbv beta iota;
    match goal with
    | |- int_digits ?z false _ = Some (Z.pos (Pos.of_uint_acc _ ?acc')) =>
        replace z with (Z.pos acc') by lia
    end;
    apply IH.
Qed.

Lemma int_digits_from_zero (d : Decimal.uint) :
  int_digits 0 false (list_ascii_of_string (NilEmpty.string_of_uint d))
  = Some (Z.of_N (Pos.of_uint d)).
Proof.
  induction d as [|d IH|d IH|d IH|d IH|d IH|d IH|d IH|d IH|d IH|d IH];
    [reflexivity|exact IH|..];
    cbn [NilEmpty.string_of_uint list_ascii_of_string int_digits Pos.of_uint];
    match goal with
    | |- context [digit_of ?c] =>
        let v := eval vm_compute in (digit_of c) in
        change (digit_of c) with v
    end;
    cbv beta iota;
    match goal with
    | |- int_digits ?z false _ = Some (Z.of_N (N.pos (Pos.of_uint_acc _ ?acc'))) =>
        change z with (Z.pos acc')
    end;
    apply int_digits_of_uint.
Qed.

Lemma uint_digits_all (d : Decimal.uint) :
  forallb (fun c => match digit_of c with Some _ => true | None => false end)
          (list_ascii_of_string (NilEmpty.string_of_uint d)) = true.
Proof. induction d; simpl; [reflexivity|exact IHd..]. Qed.

(** A numeral writes its number. *)
Lemma digits_value_of_uint (d : Decimal.uint) :
  digits_value (NilEmpty.string_of_uint d) = Z.of_N (Pos.of_uint d).
Proof.
  pose proof (int_digits_from_zero d) as H.
  rewrite (int_digits_run _ _ (uint_digits_all d)) in H.
  now injection H.
Qed.

Lemma string_of_uint_nonnil (d : Decimal.uint) :
  d <> Decimal.Nil -> NilZero.string_of_uint d = NilEmpty.string_of_uint d.
Proof. destruct d; [contradiction|reflexivity..]. Qed.

Lemma str_int_all_digits (n : Z) : 0 <= n -> all_digits (str_int n) = true.
Proof.
  intros Hn. destruct n as [|p|p]; [reflexivity| |lia].
  unfold str_int. cbn [Z.to_int NilZero.string_of_int].
  pose proof (Unsigned.to_uint_nonnil p) as Hnil.
  rewrite string_of_uint_nonnil by assumption.
  unfold all_digits. rewrite uint_digits_all, andb_true_r.
  destruct (Pos.to_uint p); [contradiction|reflexivity..].
Qed.

Lemma digits_value_str_int (n : Z) : 0 <= n -> digits_value (str_int n) = n.
Proof.
  intros Hn. destruct n as [|p|p]; [reflexivity| |lia].
  unfold str_int. cbn [Z.to_int NilZero.string_of_int].
  rewrite string_of_uint_nonnil by apply Unsigned.to_uint_nonnil.
  now rewrite digits_value_of_uint, Unsigned.of_to.
Qed.

(** [int(str(n)) == n] for the numbers [add_card] writes. *)
Lemma py_int_str_int (n : Z) :
  0 <= n -> within_digit_limit n = true -> py_int (str_int n) = Some n.
Proof.
  intros Hn W. rewrite (py_int_digit_run _ (str_int_all_digits n Hn)).
  unfold within_digit_limit in W. rewrite Z.abs_eq in W by assumption.
  apply Z.leb_le in W.
  destruct (int_max_str_digits <? Z.of_nat (String.length (str_int n))) eqn:L.
  - apply Z.ltb_lt in L. lia.
  - now rewrite digits_value_str_int.
Qed.

(** The id [add_card] makes from a number is read back as that number. *)
Lemma card_number_of_made_id (m : string) (n : Z) :
  0 <= n -> within_digit_limit n = true ->
  card_number m (m ++ "_card_" ++ str_int n) = Some n.
Proof.
  intros Hn W. unfold card_number.
  rewrite <- append_assoc, startswith_app.
  rewrite (split_last_exact_id _ _ (str_int_all_digits n Hn)).
  now apply py_int_str_int.
Qed.

(* ===================================================================== *)
(** ** More about the routes over any remote store *)
(* ===================================================================== *)

(** X14.  The reshaping puts the row's own [cardid] into the card: a
    [cardid] inside [data] is overridden by it, and every other field of
    [data] is kept as it is. *)
Theorem reshape_row_id_wins (record card : json) :
  reshape record = Ok card ->
  exists d c x,
    py_getitem record "data" = Ok (JDict d) /\
    py_getitem record "cardid" = Ok c /\
    card = JDict x /\
    dict_get "cardid" x = Some c /\
    forall k, k <> "cardid" -> dict_get k x = dict_get k d.
Proof.
  unfold reshape.
  destruct (py_getitem record "data") as [[| | | | |d]|e]; try discriminate.
  cbn [rbind as_mapping].
  destruct (py_getitem record "cardid") as [c|e]; [|discriminate].
  cbn [rbind]. intros [= <-].
  exists d, c, (dict_set "cardid" c d). repeat split.
  - apply dict_get_set.
  - intros k Hk. now apply dict_get_set_other.
Qed.

Lemma reshape_row_id_wins_witness :
  let record :=
    JDict [("cardid", JStr "a");
           ("data", JDict [("cardid", JStr "b"); ("front", JStr "salut")])] in
  let card := JDict [("cardid", JStr "a"); ("front", JStr "salut")] in
  reshape record = Ok card /\
  exists d c x,
    py_getitem record "data" = Ok (JDict d) /\
    py_getitem record "cardid" = Ok c /\
    card = JDict x /\
    dict_get "cardid" x = Some c /\
    forall k, k <> "cardid" -> dict_get k x = dict_get k d.
Proof.
  cbv zeta. split; [reflexivity|].
  apply reshape_row_id_wins. reflexivity.
Defined.

Lemma rows_of_cards_with_id (cards : list dict) :
  Forall (fun c => dict_mem "cardid" c = true) cards ->
  exists rows,
    rows_to_insert (map JDict cards) = Ok rows /\
    forall acc, transform_loop rows acc = Ok (acc ++ map JDict cards)%list.
Proof.
  induction 1 as [|c cards Hc _ (rows & Hrows & Hloop)].
  - exists []. split; [reflexivity|]. intros acc. simpl. now rewrite app_nil_r.
  - apply dict_mem_get in Hc as [v Hv].
    exists (JDict [("cardid", v); ("data", JDict c)] :: rows). split.
    + simpl. rewrite Hv. simpl in Hrows. now rewrite Hrows.
    + intros acc.
      rewrite (transform_loop_take _ (JDict c)).
      * rewrite Hloop. cbn [map]. now rewrite <- app_assoc.
      * reflexivity.
      * unfold reshape. simpl. now rewrite (dict_set_same _ _ _ Hv).
Qed.

(** X13.  Round trip of the two row formats: the rows that Reset, Bulk
    Import and Seeding build from card objects which all have a [cardid]
    are reshaped by [transform_from_supabase] into those same objects, in
    order. *)
Theorem rows_to_insert_round_trip (cards : list dict) :
  Forall (fun c => dict_mem "cardid" c = true) cards ->
  exists rows,
    rows_to_insert (map JDict cards) = Ok rows /\
    transform_from_supabase (JList rows) = Ok (map JDict cards).
Proof.
  intros H. destruct (rows_of_cards_with_id cards H) as (rows & Hrows & Hloop).
  exists rows. split; [exact Hrows|].
  unfold transform_from_supabase. cbn [py_iter rbind]. apply Hloop.
Qed.

Lemma rows_to_insert_round_trip_witness :
  exists rows,
    rows_to_insert [JDict [("front", JStr "salut"); ("cardid", JNum 7)]] = Ok rows /\
    transform_from_supabase (JList rows)
    = Ok [JDict [("front", JStr "salut"); ("cardid", JNum 7)]].
Proof.
  apply (rows_to_insert_round_trip [[("front", JStr "salut"); ("cardid", JNum 7)]]).
  repeat constructor.
Defined.

Lemma py_len_nonneg (v : json) (n : Z) : py_len v = Ok n -> 0 <= n.
Proof. destruct v; simpl; try discriminate; intros [= <-]; lia. Qed.

Lemma created_status (result : json) (r : flask_response) :
  created result = Ok r -> snd r = 201.
Proof.
  unfold created. destruct (negb (truthy result)); [discriminate|].
  destruct (py_len result) as [n|]; [|discriminate]. cbn [rbind].
  destruct (n =? 0); [discriminate|].
  destruct (py_index0 result) as [first|]; [|discriminate]. cbn [rbind].
  destruct (reshape first); [|discriminate]. cbn [rbind]. now intros [= <-].
Qed.

Lemma updated_status (id : string) (result : json) (r : flask_response) :
  updated id result = Ok r -> snd r = 404 \/ snd r = 200.
Proof.
  unfold updated. destruct (negb (truthy result)); [intros [= <-]; now left|].
  destruct (transform_from_supabase result) as [cards|]; [|discriminate].
  cbn [rbind].
  destruct (py_index0 (JList cards)); [|discriminate]. cbn [rbind].
  intros [= <-]. now right.
Qed.

Section MoreGatewayFacts.

Variable SUPABASE_URL : string.
Variable HEADERS : list (string * string).
Variable MODULE_TO_TABLE : list (string * string).
Variable remote : Type.
Variable send : request -> remote -> reply * remote.
Variable load_file : string -> result json.
Variable print : string -> result unit.

Local Notation table_url := (table_url SUPABASE_URL).
Local Notation resolves := (resolves MODULE_TO_TABLE).
Local Notation supabase_fetch :=
  (supabase_fetch SUPABASE_URL HEADERS MODULE_TO_TABLE remote send).
Local Notation get_all_cards :=
  (get_all_cards SUPABASE_URL HEADERS MODULE_TO_TABLE remote send).
Local Notation add_card :=
  (add_card SUPABASE_URL HEADERS MODULE_TO_TABLE remote send).
Local Notation update_card :=
  (update_card SUPABASE_URL HEADERS MODULE_TO_TABLE remote send).
Local Notation delete_card :=
  (delete_card SUPABASE_URL HEADERS MODULE_TO_TABLE remote send).
Local Notation reset_cards :=
  (reset_cards SUPABASE_URL HEADERS MODULE_TO_TABLE remote send load_file).
Local Notation import_cards :=
  (import_cards SUPABASE_URL HEADERS MODULE_TO_TABLE remote send).
Local Notation initialize_data :=
  (initialize_data SUPABASE_URL HEADERS MODULE_TO_TABLE remote send load_file print).
Local Notation check_initial_data :=
  (check_initial_data SUPABASE_URL HEADERS MODULE_TO_TABLE remote send load_file
                      print).
Local Notation assign_card_id :=
  (assign_card_id SUPABASE_URL HEADERS MODULE_TO_TABLE remote send).
Local Notation request_to method t params body :=
  (mk_request method (table_url t) HEADERS params body).

Lemma unknown_fetch m :
  (forall t, ~ resolves m t) ->
  forall meth ps jd w, supabase_fetch meth m ps jd w = (Raise (unknown_module m), w).
Proof.
  intros U.
  destruct (known_or_not SUPABASE_URL HEADERS MODULE_TO_TABLE remote send m)
    as [[t K]|H]; [now destruct (U t)|exact H].
Qed.

(** X1.  A module id that [MODULE_TO_TABLE] does not resolve (no entry, or
    an empty table name) makes every route answer with status 500 and the
    unknown-module message, and nothing is sent to the store. *)
Theorem unknown_module_answers_500 m (w : world remote) :
  (forall t, ~ resolves m t) ->
  get_all_cards m w
  = ((JDict [("error", JStr (str_exn (unknown_module m)))], 500), w) /\
  (forall d, add_card m (JDict d) w = (failure (unknown_module m), w)) /\
  (forall id d, update_card m id (JDict d) w = (failure (unknown_module m), w)) /\
  (forall id, delete_card m id w = (failure (unknown_module m), w)) /\
  reset_cards m w
  = ((JDict [("success", JBool false);
             ("error", JStr ("重置失败: " ++ str_exn (unknown_module m)))], 500), w) /\
  (forall d cards,
      dict_get "cards" d = Some (JList cards) ->
      import_cards m (JDict d) w
      = ((JDict [("success", JBool false);
                 ("error", JStr ("导入失败: " ++ str_exn (unknown_module m)))], 500), w)).
Proof.
  intros U. pose proof (unknown_fetch m U) as F.
  split; [|split; [|split; [|split; [|split]]]].
  - now rewrite get_all_cards_run, F.
  - intros d. rewrite add_card_run. cbn [py_get].
    destruct (negb (truthy _)).
    + unfold assign_card_id, bind. now rewrite F.
    + unfold ret. now rewrite F.
  - intros id d. rewrite update_card_run. cbn [py_pop]. now rewrite F.
  - intros id. now rewrite delete_card_run, F.
  - unfold reset_cards, route, bind. now rewrite F.
  - intros d cards Hc. unfold import_cards, route, bind, lift. cbn [py_get].
    rewrite Hc. now rewrite F.
Qed.

(** X2.  On the routes that make one remote call (List, Update, Delete) an
    error status of the store is reported with status 500, and the error
    text names the store's status code and its body text, or the reason
    phrase when the body is empty. *)
Theorem remote_error_is_reported m t (w : world remote) r st :
  resolves m t ->
  ok r = false ->
  let msg := "Supabase API Error " ++ str_int (status_code r) ++ ": "
             ++ (if String.eqb (text r) "" then reason r else text r) in
  (send (request_to "GET" t [("select", "cardid,data")] None) (remote_state w)
   = (Replied r, st) ->
   fst (get_all_cards m w) = (JDict [("error", JStr msg)], 500)) /\
  (forall id d,
      send (request_to "PATCH" t [("cardid", "eq." ++ id)]
                       (Some (JDict [("data", JDict (dict_pop "cardid" d))])))
           (remote_state w) = (Replied r, st) ->
      fst (update_card m id (JDict d) w)
      = (JDict [("success", JBool false); ("error", JStr msg)], 500)) /\
  (forall id,
      send (request_to "DELETE" t [("cardid", "eq." ++ id)] None) (remote_state w)
      = (Replied r, st) ->
      fst (delete_card m id w)
      = (JDict [("success", JBool false); ("error", JStr msg)], 500)).
Proof.
  intros K Hok msg. split; [|split].
  - intros S.
    rewrite get_all_cards_run,
      (supabase_fetch_known _ _ _ _ _ _ _ _ _ _ _ _ _ K S).
    simpl. now rewrite Hok.
  - intros id d S.
    rewrite update_card_run. cbn [py_pop].
    rewrite (supabase_fetch_known _ _ _ _ _ _ _ _ _ _ _ _ _ K S).
    simpl. now rewrite Hok.
  - intros id S.
    rewrite delete_card_run,
      (supabase_fetch_known _ _ _ _ _ _ _ _ _ _ _ _ _ K S).
    simpl. now rewrite Hok.
Qed.

(** X3.  The status codes of the routes: List and Delete answer 200 or
    500, Create 201 or 500, Update 200, 404 or 500, Reset 200 or 500 and
    Bulk Import 200, 400 or 500; no route answers anything else. *)
Theorem route_status_codes m id body (w : world remote) :
  In (snd (fst (get_all_cards m w))) [200; 500] /\
  In (snd (fst (add_card m body w))) [201; 500] /\
  In (snd (fst (update_card m id body w))) [200; 404; 500] /\
  In (snd (fst (delete_card m id w))) [200; 500] /\
  In (snd (fst (reset_cards m w))) [200; 500] /\
  In (snd (fst (import_cards m body w))) [200; 400; 500].
Proof.
  split; [|split; [|split; [|split; [|split]]]].
  - rewrite get_all_cards_run.
    destruct (supabase_fetch _ _ _ _ w) as [[records|e] w']; [|simpl; auto].
    destruct (transform_from_supabase records); simpl; auto.
  - rewrite add_card_run.
    destruct (py_get body "cardid") as [c|e]; [|simpl; auto].
    destruct ((if negb (truthy c) then assign_card_id m body
               else ret remote (c, body)) w) as [[[cid data]|e] w1]; [|simpl; auto].
    destruct (supabase_fetch _ _ _ _ w1) as [[result|e] w']; [|simpl; auto].
    destruct (created result) as [r|e] eqn:C; [|simpl; auto].
    apply created_status in C. cbn [fst]. rewrite C. simpl. auto.
  - rewrite update_card_run.
    destruct (py_pop body "cardid") as [updates|e]; [|simpl; auto].
    destruct (supabase_fetch _ _ _ _ w) as [[result|e] w']; [|simpl; auto].
    destruct (updated id result) as [r|e] eqn:C; [|simpl; auto].
    apply updated_status in C. cbn [fst]. destruct C as [-> | ->]; simpl; auto.
  - rewrite delete_card_run.
    destruct (supabase_fetch _ _ _ _ w) as [[result|e] w']; simpl; auto.
  - unfold reset_cards, route, bind, lift, ret.
    destruct (supabase_fetch _ _ _ _ w) as [[result|e] w']; [|simpl; auto].
    destruct (load_file _) as [initial|e]; [|simpl; auto].
    destruct (py_iter initial) as [cards|e]; [|simpl; auto].
    destruct (rows_to_insert cards) as [rows|e]; [|simpl; auto].
    destruct (insert_rows _ _ _ _ _ _ _ w') as [[u|e] w'']; [|simpl; auto].
    destruct (py_len initial); simpl; auto.
  - unfold import_cards, route, bind, lift, ret.
    destruct (py_get body "cards") as [[| | | |cards|]|e]; try (simpl; now auto).
    destruct (supabase_fetch _ _ _ _ w) as [[result|e] w']; [|simpl; auto].
    destruct (rows_to_insert cards) as [rows|e]; [|simpl; auto].
    destruct (insert_rows _ _ _ _ _ _ _ w') as [[u|e] w'']; simpl; auto.
Qed.

(** X4.  Create and Update given a body that is not a JSON object answer
    with status 500 and send nothing to the store. *)
Theorem non_object_body_sends_nothing m id body (w : world remote) :
  match body with
  | JDict _ => True
  | _ =>
      snd (add_card m body w) = w /\
      snd (fst (add_card m body w)) = 500 /\
      snd (update_card m id body w) = w /\
      snd (fst (update_card m id body w)) = 500
  end.
Proof.
  destruct body; try exact I;
    rewrite add_card_run, update_card_run; repeat split.
Qed.

(** X5.  A Create whose body carries a [cardid] that counts as true (a
    non-empty string, say) does not look at the existing ids: the one
    request it sends is the POST of the body under that id, the body
    unchanged as [data]. *)
Theorem add_card_keeps_given_id m t d c (w : world remote) :
  resolves m t ->
  dict_get "cardid" d = Some c ->
  truthy c = true ->
  exists rp,
    since w (snd (add_card m (JDict d) w))
    = [(request_to "POST" t [] (Some (JDict [("cardid", c); ("data", JDict d)])), rp)].
Proof.
  intros K Hd Hc.
  rewrite add_card_run. cbn [py_get]. rewrite Hd, Hc. cbn [negb]. unfold ret.
  destruct (send (request_to "POST" t [] (Some (JDict [("cardid", c); ("data", JDict d)])))
                 (remote_state w)) as [rp st] eqn:S.
  rewrite (supabase_fetch_known _ _ _ _ _ _ _ _ _ _ _ _ _ K S).
  exists rp. destruct (fetch_outcome rp); apply since_after.
Qed.

(** The whole run of a Create that makes up the id, given the replies of
    the store. *)
Lemma add_card_without_id_run m t d (w : world remote) r st ids :
  resolves m t ->
  truthy (match dict_get "cardid" d with Some c => c | None => JNull end) = false ->
  send (request_to "GET" t [("select", "cardid")] None) (remote_state w)
  = (Replied r, st) ->
  ok r = true ->
  body_json r = Some (JList (map id_row ids)) ->
  exists M,
    max_card_number m (map id_row ids) 0 = Ok M /\
    0 <= M /\
    (forall id n, In id ids -> card_number m id = Some n -> n <= M) /\
    (M = 0 \/ exists id, In id ids /\ card_number m id = Some M) /\
    (within_digit_limit (M + 1) = false ->
     add_card m (JDict d) w
     = (failure int_limit_exceeded,
        after w (request_to "GET" t [("select", "cardid")] None) (Replied r) st)) /\
    (within_digit_limit (M + 1) = true ->
     forall rp st2,
       send (request_to "POST" t []
               (Some (JDict [("cardid", JStr (m ++ "_card_" ++ str_int (M + 1)));
                             ("data", JDict (dict_set "cardid"
                                               (JStr (m ++ "_card_" ++ str_int (M + 1))) d))])))
            st = (rp, st2) ->
       add_card m (JDict d) w
       = (match rbind (fetch_outcome rp) created with
          | Ok x => x
          | Raise e => failure e
          end,
          after (after w (request_to "GET" t [("select", "cardid")] None) (Replied r) st)
                (request_to "POST" t []
                   (Some (JDict [("cardid", JStr (m ++ "_card_" ++ str_int (M + 1)));
                                 ("data", JDict (dict_set "cardid"
                                                   (JStr (m ++ "_card_" ++ str_int (M + 1))) d))])))
                rp st2)).
Proof.
  intros K Hd S Hok Hbody.
  destruct (max_card_number_ids m ids 0) as (M & E & Hle & Hub & Hatt).
  exists M. split; [exact E|]. split; [exact Hle|]. split; [exact Hub|].
  split; [exact Hatt|].
  assert (Run : add_card m (JDict d) w
                = match format_int (M + 1) with
                  | Raise e =>
                      (failure e,
                       after w (request_to "GET" t [("select", "cardid")] None)
                             (Replied r) st)
                  | Ok next =>
                      match supabase_fetch "POST" m []
                              (Some (JDict [("cardid", JStr (m ++ "_card_" ++ next));
                                            ("data",
                                             JDict (dict_set "cardid"
                                                      (JStr (m ++ "_card_" ++ next)) d))]))
                              (after w (request_to "GET" t [("select", "cardid")] None)
                                     (Replied r) st) with
                      | (Raise e, w') => (failure e, w')
                      | (Ok result, w') =>
                          (match created result with Ok x => x | Raise e => failure e end,
                           w')
                      end
                  end).
  { rewrite add_card_run. cbn [py_get]. rewrite Hd. cbn [negb].
    rewrite (assign_card_id_known _ _ _ _ _ _ _ _ _ _ _ K S).
    cbn [fetch_outcome]. rewrite Hok, Hbody. cbn [rbind py_iter].
    rewrite E. cbn [rbind].
    destruct (format_int (M + 1)); reflexivity. }
  unfold format_int in Run. split; intros W; rewrite W in Run; [exact Run|].
  intros rp st2 S2. rewrite Run.
  match goal with
  | |- context [supabase_fetch "POST" _ [] ?jd ?w1] =>
      rewrite (supabase_fetch_known SUPABASE_URL HEADERS MODULE_TO_TABLE remote
                 send "POST" m t [] jd w1 rp st2 K S2)
  end.
  destruct (fetch_outcome rp) as [result|e]; cbn [rbind]; [|reflexivity].
  now destruct (created result).
Qed.

(** X6.  The id a Create makes up is new.  When the body has no [cardid],
    or one that counts as false (null, the empty string, 0), and the GET
    has returned the existing ids, let [M] be the number the loop of
    [add_card] ends with.  If [M + 1] is written within the digit limit of
    the interpreter, as it is whenever every existing id takes fewer bytes
    than the limit allows digits, the route sends the GET and then the POST of the card under
    [<module>_card_<M+1>], which is none of the existing ids, and a
    [cardid] of the body that counts as false is replaced by it inside
    [data].  Otherwise the route answers the failure with status 500 and
    has sent the GET alone. *)
Theorem add_card_makes_fresh_id m t d (w : world remote) r st ids :
  resolves m t ->
  truthy (match dict_get "cardid" d with Some c => c | None => JNull end) = false ->
  send (request_to "GET" t [("select", "cardid")] None) (remote_state w)
  = (Replied r, st) ->
  ok r = true ->
  body_json r = Some (JList (map id_row ids)) ->
  exists M,
    max_card_number m (map id_row ids) 0 = Ok M /\
    ((forall id, In id ids -> Z.of_nat (String.length id) < int_max_str_digits) ->
     within_digit_limit (M + 1) = true) /\
    if within_digit_limit (M + 1) then
      let new_id := m ++ "_card_" ++ str_int (M + 1) in
      ~ In new_id ids /\
      exists rp,
        since w (snd (add_card m (JDict d) w))
        = [(request_to "GET" t [("select", "cardid")] None, Replied r);
           (request_to "POST" t []
              (Some (JDict [("cardid", JStr new_id);
                            ("data", JDict (dict_set "cardid" (JStr new_id) d))])),
            rp)]
    else
      fst (add_card m (JDict d) w) = failure int_limit_exceeded /\
      since w (snd (add_card m (JDict d) w))
      = [(request_to "GET" t [("select", "cardid")] None, Replied r)].
Proof.
  intros K Hd S Hok Hbody.
  destruct (add_card_without_id_run m t d w r st ids K Hd S Hok Hbody)
    as (M & E & Hle & Hub & Hatt & Over & Within).
  exists M. split; [exact E|].
  split; [intros Short; now apply (max_number_within_limit m ids)|].
  destruct (within_digit_limit (M + 1)) eqn:W.
  - cbv zeta. split.
    + intros Hin.
      assert (HM1 : 0 <= M + 1) by lia.
      pose proof (Hub _ _ Hin (card_number_of_made_id m (M + 1) HM1 W)). lia.
    + eexists. rewrite (Within eq_refl _ _ (surjective_pairing _)).
      apply since_after2.
  - rewrite (Over eq_refl). split; [reflexivity|apply since_after].
Qed.

(** *** Seeding *)

(** Every leaf of the runs below ends in a [print], the class of an
    exception caught, or the conversion of a count. *)
Ltac seeding_leaves :=
  repeat match goal with
         | |- context [exn_cls ?e] => destruct (exn_cls e)
         | |- context [format_int ?n] => destruct (format_int n)
         | |- context [print ?s] =>
             let P := fresh "P" in destruct (print s) as [[]|?] eqn:P
         end.

(** [initialize_data] leaves the flag as it is, and what it raises was
    raised by a [print]. *)
Lemma initialize_data_outcome m (w : world remote) :
  initial_data_checked (snd (initialize_data m w)) = initial_data_checked w /\
  (fst (initialize_data m w) = Ok tt \/
   exists text e, print text = Raise e /\ fst (initialize_data m w) = Raise e).
Proof.
  assert (Leaf : forall (x : result unit) (w' : world remote),
             initial_data_checked w' = initial_data_checked w ->
             (x = Ok tt \/ exists text e, print text = Raise e /\ x = Raise e) ->
             initial_data_checked (snd (x, w')) = initial_data_checked w /\
             (fst (x, w') = Ok tt \/
              exists text e, print text = Raise e /\ fst (x, w') = Raise e)).
  { intros x w' F H. split; assumption. }
  unfold initialize_data, initialize_check, initialize_load, post_rows,
    try_except, bind, lift, ret, requests_request.
  cbv zeta.
  destruct (table_index MODULE_TO_TABLE m) as [t|e].
  2:{ seeding_leaves; apply Leaf; try reflexivity;
        first [now left | right; do 2 eexists; split; [eassumption|reflexivity]]. }
  destruct (send _ (remote_state w)) as [[e|r] st].
  { seeding_leaves; apply Leaf; try reflexivity;
      first [now left | right; do 2 eexists; split; [eassumption|reflexivity]]. }
  cbn [exchanges remote_state initial_data_checked].
  destruct (raise_for_status _ r).
  2:{ seeding_leaves; apply Leaf; try reflexivity;
        first [now left | right; do 2 eexists; split; [eassumption|reflexivity]]. }
  destruct (response_json r) as [found|e].
  2:{ seeding_leaves; apply Leaf; try reflexivity;
        first [now left | right; do 2 eexists; split; [eassumption|reflexivity]]. }
  destruct (py_len found) as [n|e].
  2:{ seeding_leaves; apply Leaf; try reflexivity;
        first [now left | right; do 2 eexists; split; [eassumption|reflexivity]]. }
  destruct (0 <? n); [apply Leaf; [reflexivity|now left]|].
  destruct (load_file _) as [initial|e].
  2:{ seeding_leaves; apply Leaf; try reflexivity;
        first [now left | right; do 2 eexists; split; [eassumption|reflexivity]]. }
  destruct (py_iter initial) as [cards|e].
  2:{ seeding_leaves; apply Leaf; try reflexivity;
        first [now left | right; do 2 eexists; split; [eassumption|reflexivity]]. }
  destruct (rows_to_insert cards) as [[|row rows]|e].
  1:{ apply Leaf; [reflexivity|now left]. }
  2:{ seeding_leaves; apply Leaf; try reflexivity;
        first [now left | right; do 2 eexists; split; [eassumption|reflexivity]]. }
  cbv beta iota.
  match goal with
  | |- context [send ?rq ?s] => destruct (send rq s) as [[e|r2] st2]
  end.
  { seeding_leaves; apply Leaf; try reflexivity;
      first [now left | right; do 2 eexists; split; [eassumption|reflexivity]]. }
  cbn [exchanges remote_state initial_data_checked].
  destruct (raise_for_status _ r2) as [[]|e].
  2:{ seeding_leaves; apply Leaf; try reflexivity;
        first [now left | right; do 2 eexists; split; [eassumption|reflexivity]]. }
  destruct (py_len initial) as [k|e];
    seeding_leaves; apply Leaf; try reflexivity;
    first [now left | right; do 2 eexists; split; [eassumption|reflexivity]].
Qed.

Lemma check_initial_data_set (w : world remote) :
  initial_data_checked w = true -> check_initial_data w = (Ok tt, w).
Proof. intros F. unfold check_initial_data. now rewrite F. Qed.

Lemma check_initial_data_unset (w : world remote) :
  initial_data_checked w = false ->
  check_initial_data w
  = match print "--- 尝试连接 Supabase 并检查初始数据 ---" with
    | Raise e => (Raise e, w)
    | Ok _ =>
        match initialize_data "mod1" w with
        | (Raise e, w1) => (Raise e, w1)
        | (Ok _, w1) =>
            match initialize_data "mod2" w1 with
            | (Raise e, w2) => (Raise e, w2)
            | (Ok _, w2) => (Ok tt, mk_world (remote_state w2) (exchanges w2) true)
            end
        end
    end.
Proof.
  intros F. unfold check_initial_data. rewrite F. unfold bind, lift.
  destruct (print _) as [[]|e]; [|reflexivity].
  destruct (initialize_data "mod1" w) as [[[]|e1] w1]; [|reflexivity].
  destruct (initialize_data "mod2" w1) as [[[]|e2] w2]; reflexivity.
Qed.

(** X7.  Seeding fails a request only where it cannot print.  What
    [initialize_data] and the [before_request] hook raise was raised by a
    [print]: whatever the store answers and the fixture file holds is
    caught.  When the hook returns normally the flag is set and a second
    run does nothing at all; when it raises, the flag is still unset, so
    that the next request seeds again.  With a standard output that takes
    every text, neither raises. *)
Theorem seeding_raises_only_from_print m (w : world remote) :
  (fst (initialize_data m w) = Ok tt \/
   exists text e, print text = Raise e /\ fst (initialize_data m w) = Raise e) /\
  ((fst (check_initial_data w) = Ok tt /\
    initial_data_checked (snd (check_initial_data w)) = true /\
    check_initial_data (snd (check_initial_data w))
    = (Ok tt, snd (check_initial_data w))) \/
   exists text e,
     print text = Raise e /\
     fst (check_initial_data w) = Raise e /\
     initial_data_checked (snd (check_initial_data w)) = false) /\
  ((forall text, print text = Ok tt) ->
   fst (initialize_data m w) = Ok tt /\ fst (check_initial_data w) = Ok tt).
Proof.
  assert (Hook :
    (fst (check_initial_data w) = Ok tt /\
     initial_data_checked (snd (check_initial_data w)) = true /\
     check_initial_data (snd (check_initial_data w))
     = (Ok tt, snd (check_initial_data w))) \/
    exists text e,
      print text = Raise e /\
      fst (check_initial_data w) = Raise e /\
      initial_data_checked (snd (check_initial_data w)) = false).
  { destruct (initial_data_checked w) eqn:F.
    { rewrite (check_initial_data_set w F). left. cbn [fst snd].
      split; [reflexivity|]. split; [exact F|].
      now apply check_initial_data_set. }
    rewrite (check_initial_data_unset w F).
    destruct (print "--- 尝试连接 Supabase 并检查初始数据 ---") as [[]|e] eqn:P.
    2:{ right. exists "--- 尝试连接 Supabase 并检查初始数据 ---", e.
        split; [exact P|]. split; [reflexivity|exact F]. }
    destruct (initialize_data_outcome "mod1" w) as [F1 O1].
    destruct (initialize_data "mod1" w) as [[[]|e1] w1]; cbn [fst snd] in F1, O1.
    2:{ right. destruct O1 as [O1|(text & e & Pe & [= <-])]; [discriminate|].
        exists text, e1. split; [exact Pe|]. split; [reflexivity|].
        cbn [snd]. now rewrite F1. }
    destruct (initialize_data_outcome "mod2" w1) as [F2 O2].
    destruct (initialize_data "mod2" w1) as [[[]|e2] w2]; cbn [fst snd] in F2, O2.
    2:{ right. destruct O2 as [O2|(text & e & Pe & [= <-])]; [discriminate|].
        exists text, e2. split; [exact Pe|]. split; [reflexivity|].
        cbn [snd]. now rewrite F2, F1. }
    left. cbn [fst snd]. split; [reflexivity|]. split; [reflexivity|].
    now apply check_initial_data_set. }
  split; [apply initialize_data_outcome|]. split; [exact Hook|].
  intros Takes. split.
  - destruct (initialize_data_outcome m w) as [_ [O|(text & e & Pe & _)]];
      [exact O|]. rewrite Takes in Pe. discriminate.
  - destruct Hook as [(O & _)|(text & e & Pe & _)]; [exact O|].
    rewrite Takes in Pe. discriminate.
Qed.

(** X8.  Seeding writes only into a table it found empty: [initialize_data]
    sends nothing, or its check GET alone, or the GET answered with
    success and a list of length 0 followed by one POST of rows made of
    whole card objects. *)
Theorem seeding_writes_after_empty_check m (w : world remote) :
  since w (snd (initialize_data m w)) = [] \/
  (exists rq rp,
      since w (snd (initialize_data m w)) = [(rq, rp)] /\ req_method rq = "GET") \/
  exists t r found row rows rp,
    since w (snd (initialize_data m w))
    = [(request_to "GET" t [("select", "cardid"); ("limit", "1")] None, Replied r);
       (request_to "POST" t [("on_conflict", "cardid")] (Some (JList (row :: rows))), rp)] /\
    ok r = true /\
    body_json r = Some found /\
    py_len found = Ok 0 /\
    Forall whole_card (row :: rows).
Proof.
  unfold initialize_data, initialize_check, initialize_load, post_rows,
    try_except, bind, lift, ret, requests_request.
  cbv zeta.
  destruct (table_index MODULE_TO_TABLE m) as [t|e];
    [|left; seeding_leaves; apply since_refl].
  destruct (send _ (remote_state w)) as [[e|r] st] eqn:S;
    [right; left; do 2 eexists;
     split; [seeding_leaves; now apply since_app|reflexivity]|].
  cbn [exchanges remote_state initial_data_checked].
  assert (One : forall x : result unit * world remote,
             snd x = mk_world st (exchanges w ++ [(request_to "GET" t
                       [("select", "cardid"); ("limit", "1")] None, Replied r)])
                       (initial_data_checked w) ->
             exists rq rp, since w (snd x) = [(rq, rp)] /\ req_method rq = "GET").
  { intros x ->. do 2 eexists. split; [now apply since_app|reflexivity]. }
  unfold raise_for_status, ok.
  destruct (is_error_status (status_code r)) eqn:Err;
    [right; left; apply One; seeding_leaves; reflexivity|].
  unfold response_json.
  destruct (body_json r) as [found|] eqn:B;
    [|right; left; apply One; seeding_leaves; reflexivity].
  destruct (py_len found) as [n|e] eqn:L;
    [|right; left; apply One; seeding_leaves; reflexivity].
  destruct (0 <? n) eqn:Pos; [right; left; now apply One|].
  destruct (load_file _) as [initial|e];
    [|right; left; apply One; seeding_leaves; reflexivity].
  destruct (py_iter initial) as [cards|e];
    [|right; left; apply One; seeding_leaves; reflexivity].
  destruct (rows_to_insert cards) as [[|row rows]|e] eqn:R;
    [right; left; now apply One|
    |right; left; apply One; seeding_leaves; reflexivity].
  right; right. cbv beta iota.
  match goal with
  | |- context [send ?rq ?s] => destruct (send rq s) as [rp st2] eqn:S2
  end.
  exists t, r, found, row, rows, rp.
  assert (Hn : n = 0).
  { apply py_len_nonneg in L as Hge. apply Z.ltb_ge in Pos. lia. }
  subst n.
  split; [|split; [now rewrite Err|split; [exact B|split; [exact L|]]]].
  - destruct rp as [e|r2]; cbn [exchanges remote_state initial_data_checked];
      [|destruct (is_error_status (status_code r2)); [|destruct (py_len initial)]];
      seeding_leaves;
      apply since_app; cbn [snd exchanges]; now rewrite <- app_assoc.
  - now apply rows_to_insert_whole with cards.
Qed.

End MoreGatewayFacts.

(* ===================================================================== *)
(** ** More about the routes over the table store *)
(* ===================================================================== *)

Lemma has_id_false (id : string) (rows : list Store.row) :
  ~ In id (map Store.row_id rows) -> Store.has_id id rows = false.
Proof.
  intros H. destruct (Store.has_id id rows) eqn:E; [|reflexivity].
  now apply has_id_in in E.
Qed.

Lemma has_id_by_ids (id : string) (a b : list Store.row) :
  map Store.row_id a = map Store.row_id b -> Store.has_id id a = Store.has_id id b.
Proof.
  revert b. induction a as [|x a IH]; intros [|y b]; simpl; try discriminate;
    [reflexivity|].
  intros [= -> Hrest]. now rewrite (IH _ Hrest).
Qed.

Lemma distinct_ids_by_ids (a b : list Store.row) :
  map Store.row_id a = map Store.row_id b ->
  Store.distinct_ids a = Store.distinct_ids b.
Proof.
  revert b. induction a as [|x a IH]; intros [|y b]; simpl; try discriminate;
    [reflexivity|].
  intros [= -> Hrest]. now rewrite (IH _ Hrest), (has_id_by_ids _ _ _ Hrest).
Qed.

Lemma patch_rows_data id x (rows : list Store.row) :
  Store.patch_rows (Store.IdIs id) [("data", x)] rows = Some (with_data id x rows).
Proof.
  induction rows as [|[rid rdata] rows IH]; [reflexivity|].
  simpl. simpl in IH. rewrite IH.
  destruct (String.eqb rid id) eqn:E; [|reflexivity].
  apply String.eqb_eq in E. now subst rid.
Qed.

Lemma with_data_ids id x (rows : list Store.row) :
  map Store.row_id (with_data id x rows) = map Store.row_id rows.
Proof.
  induction rows as [|[rid rdata] rows IH]; [reflexivity|].
  simpl. rewrite IH. destruct (String.eqb rid id) eqn:E; [|reflexivity].
  apply String.eqb_eq in E. now subst rid.
Qed.

Lemma with_data_absent id x (rows : list Store.row) :
  Store.has_id id rows = false -> with_data id x rows = rows.
Proof.
  induction rows as [|r rows IH]; [reflexivity|].
  simpl. intros H. apply orb_false_iff in H as [Hr Hrest].
  now rewrite Hr, (IH Hrest).
Qed.

Lemma with_data_selected id x (rows : list Store.row) :
  with_data id x (filter (Store.selects (Store.IdIs id)) rows)
  = map (fun _ => Store.mk_row id x) (filter (Store.selects (Store.IdIs id)) rows).
Proof.
  induction rows as [|r rows IH]; [reflexivity|].
  simpl. destruct (String.eqb (Store.row_id r) id) eqn:E; [|exact IH].
  simpl. now rewrite E, IH.
Qed.

Lemma selected_nonempty id (rows : list Store.row) :
  Store.has_id id rows = true ->
  filter (Store.selects (Store.IdIs id)) rows <> [].
Proof.
  induction rows as [|r rows IH]; [discriminate|].
  simpl. destruct (String.eqb (Store.row_id r) id); [discriminate|]. exact IH.
Qed.

Lemma selected_empty id (rows : list Store.row) :
  Store.has_id id rows = false ->
  filter (Store.selects (Store.IdIs id)) rows = [].
Proof.
  induction rows as [|r rows IH]; [reflexivity|].
  simpl. destruct (String.eqb (Store.row_id r) id); [discriminate|]. exact IH.
Qed.

Lemma has_id_after_delete id (rows : list Store.row) :
  Store.has_id id (filter (fun r => negb (String.eqb (Store.row_id r) id)) rows)
  = false.
Proof.
  induction rows as [|r rows IH]; [reflexivity|].
  simpl. destruct (String.eqb (Store.row_id r) id) eqn:E; simpl; [exact IH|].
  now rewrite E.
Qed.

Section MoreStoreFacts.

Variable SUPABASE_URL : string.
Variable HEADERS : list (string * string).
Variable MODULE_TO_TABLE : list (string * string).
Variable load_file : string -> result json.
Variable print : string -> result unit.
Variable order : list Store.row -> list Store.row.

Local Notation table_url := (table_url SUPABASE_URL).
Local Notation resolves := (resolves MODULE_TO_TABLE).
Local Notation send := (Store.send order).
Local Notation get_all_cards :=
  (get_all_cards SUPABASE_URL HEADERS MODULE_TO_TABLE Store.state send).
Local Notation add_card :=
  (add_card SUPABASE_URL HEADERS MODULE_TO_TABLE Store.state send).
Local Notation update_card :=
  (update_card SUPABASE_URL HEADERS MODULE_TO_TABLE Store.state send).
Local Notation delete_card :=
  (delete_card SUPABASE_URL HEADERS MODULE_TO_TABLE Store.state send).
Local Notation reset_cards :=
  (reset_cards SUPABASE_URL HEADERS MODULE_TO_TABLE Store.state send load_file).
Local Notation import_cards :=
  (import_cards SUPABASE_URL HEADERS MODULE_TO_TABLE Store.state send).
Local Notation initialize_data :=
  (initialize_data SUPABASE_URL HEADERS MODULE_TO_TABLE Store.state send load_file
                   print).

Lemma filter_by_id id (ps : list (string * string)) :
  Store.param "cardid" ps = Some ("eq." ++ id) ->
  Store.parse_filter ps = Some (Store.IdIs id).
Proof. unfold Store.parse_filter. now intros ->. Qed.

Lemma send_delete_id url hs id (st : Store.state) rows :
  st url = Some rows ->
  send (mk_request "DELETE" url hs [("cardid", "eq." ++ id)] None) st
  = (Store.answer 200 "OK"
       (Some (JList (map Store.row_json (filter (Store.selects (Store.IdIs id)) rows)))),
     Store.set_table url
       (filter (fun r => negb (String.eqb (Store.row_id r) id)) rows) st).
Proof.
  intros T. unfold Store.send. cbn [req_url req_method req_params req_json].
  rewrite T. cbn [String.eqb Ascii.eqb Bool.eqb].
  unfold Store.delete. now rewrite (filter_by_id id).
Qed.

Lemma send_patch_data url hs id x (st : Store.state) rows :
  st url = Some rows ->
  Store.distinct_ids rows = true ->
  send (mk_request "PATCH" url hs [("cardid", "eq." ++ id)]
                   (Some (JDict [("data", x)]))) st
  = (Store.answer 200 "OK"
       (Some (JList (map Store.row_json
                         (map (fun _ => Store.mk_row id x)
                              (filter (Store.selects (Store.IdIs id)) rows))))),
     Store.set_table url (with_data id x rows) st).
Proof.
  intros T D. unfold Store.send. cbn [req_url req_method req_params req_json].
  rewrite T. cbn [String.eqb Ascii.eqb Bool.eqb].
  unfold Store.patch. rewrite (filter_by_id id) by reflexivity.
  rewrite !patch_rows_data, with_data_selected.
  rewrite (distinct_ids_by_ids _ rows (with_data_ids id x rows)), D.
  reflexivity.
Qed.

Lemma send_insert_new url hs id x (st : Store.state) rows :
  st url = Some rows ->
  Store.has_id id rows = false ->
  send (mk_request "POST" url hs [] (Some (JDict [("cardid", JStr id); ("data", x)]))) st
  = (Store.answer 201 "Created" (Some (JList [Store.row_json (Store.mk_row id x)])),
     Store.set_table url (rows ++ [Store.mk_row id x]) st).
Proof.
  intros T H. unfold Store.send. cbn [req_url req_method req_params req_json].
  rewrite T. cbn [String.eqb Ascii.eqb Bool.eqb].
  unfold Store.post. simpl. now rewrite H.
Qed.

(** X10.  Update on the store replaces the whole [data] of the row with
    that id by the payload without its [cardid], touches no other row and
    answers 200 with the card under the id of the URL; when no row has the
    id it answers 404 and the table is as before. *)
Theorem update_card_on_store m t id d (w : world Store.state) rows :
  resolves m t ->
  remote_state w (table_url t) = Some rows ->
  Store.distinct_ids rows = true ->
  if Store.has_id id rows then
    fst (update_card m id (JDict d) w)
    = (JDict [("success", JBool true);
              ("card", JDict (dict_set "cardid" (JStr id) (dict_pop "cardid" d)))], 200) /\
    remote_state (snd (update_card m id (JDict d) w)) (table_url t)
    = Some (with_data id (JDict (dict_pop "cardid" d)) rows)
  else
    fst (update_card m id (JDict d) w)
    = (JDict [("error", JStr (not_found id))], 404) /\
    remote_state (snd (update_card m id (JDict d) w)) (table_url t) = Some rows.
Proof.
  intros K T D.
  rewrite update_card_run. cbn [py_pop].
  rewrite (supabase_fetch_known _ _ _ _ _ _ _ _ _ _ _ _ _ K
             (send_patch_data _ _ _ _ _ _ T D)).
  change (fetch_outcome (Store.answer 200 "OK" (Some ?b))) with (Ok b).
  cbv beta iota. cbn [fst snd after remote_state].
  rewrite set_table_same.
  destruct (Store.has_id id rows) eqn:H.
  - split; [|reflexivity].
    pose proof (selected_nonempty _ _ H) as Hne.
    destruct (filter (Store.selects (Store.IdIs id)) rows) as [|r0 sel];
      [contradiction|].
    cbn [map].
    rewrite updated_card_rows.
    + reflexivity.
    + simpl. rewrite !map_map.
      apply forallb_forall. intros y Hy. apply in_map_iff in Hy as (z & <- & _).
      reflexivity.
  - rewrite (selected_empty _ _ H), (with_data_absent _ _ _ H).
    split; reflexivity.
Qed.

(** X11.  Delete on the store answers success and leaves exactly the rows
    whose id is another: afterwards no row has the id, whether one had it
    before or not. *)
Theorem delete_card_on_store m t id (w : world Store.state) rows :
  resolves m t ->
  remote_state w (table_url t) = Some rows ->
  fst (delete_card m id w) = (JDict [("success", JBool true)], 200) /\
  remote_state (snd (delete_card m id w)) (table_url t)
  = Some (filter (fun r => negb (String.eqb (Store.row_id r) id)) rows) /\
  Store.has_id id (filter (fun r => negb (String.eqb (Store.row_id r) id)) rows)
  = false.
Proof.
  intros K T.
  rewrite delete_card_run.
  rewrite (supabase_fetch_known _ _ _ _ _ _ _ _ _ _ _ _ _ K
             (send_delete_id _ _ _ _ _ T)).
  change (fetch_outcome (Store.answer 200 "OK" (Some ?b))) with (Ok b).
  cbv beta iota. cbn [fst snd after remote_state].
  rewrite set_table_same. repeat split. apply has_id_after_delete.
Qed.

(** The store lists its rows in an order of its own. *)
Hypothesis order_perm : forall rows, Permutation (order rows) rows.

Lemma send_get_ids url hs (st : Store.state) rows :
  st url = Some rows ->
  send (mk_request "GET" url hs [("select", "cardid")] None) st
  = (Store.answer 200 "OK"
       (Some (JList (map id_row (map Store.row_id (order rows))))), st).
Proof.
  intros T. unfold Store.send. cbn [req_url req_method req_params req_json].
  rewrite T. cbn [String.eqb Ascii.eqb Bool.eqb].
  unfold Store.get.
  change (Store.parse_filter [("select", "cardid")]) with (Some Store.AnyRow).
  change (Store.project [("select", "cardid")])
    with (Some (fun r => JDict [("cardid", JStr (Store.row_id r))])).
  change (Store.limit [("select", "cardid")]) with (fun l : list Store.row => l).
  cbv beta iota. now rewrite filter_any_row, map_map.
Qed.

(** X9.  A Create without [cardid] (or with one that counts as false) on
    the store.  Let [M] be the largest of 0 and the numbers [add_card]
    reads from the ids of the table.  If [M + 1] is written within the
    digit limit of the interpreter, as it is whenever every id of the
    table takes fewer bytes than the limit allows digits, the Create goes
    through: the id made
    up is held by no row, the card is appended to the table under it, the
    rows already there stay as they are, and the answer is 201 with the
    card, its new [cardid] included.  Otherwise the answer is the failure
    with status 500 and the table is as before. *)
Theorem add_card_on_store m t d (w : world Store.state) rows :
  resolves m t ->
  remote_state w (table_url t) = Some rows ->
  truthy (match dict_get "cardid" d with Some c => c | None => JNull end) = false ->
  exists M,
    0 <= M /\
    (forall x n, In x rows -> card_number m (Store.row_id x) = Some n -> n <= M) /\
    (M = 0 \/ exists x, In x rows /\ card_number m (Store.row_id x) = Some M) /\
    ((forall x, In x rows ->
                Z.of_nat (String.length (Store.row_id x)) < int_max_str_digits) ->
     within_digit_limit (M + 1) = true) /\
    if within_digit_limit (M + 1) then
      let new_id := m ++ "_card_" ++ str_int (M + 1) in
      Store.has_id new_id rows = false /\
      fst (add_card m (JDict d) w)
      = (JDict [("success", JBool true);
                ("card", JDict (dict_set "cardid" (JStr new_id) d))], 201) /\
      remote_state (snd (add_card m (JDict d) w)) (table_url t)
      = Some (rows ++ [Store.mk_row new_id
                         (JDict (dict_set "cardid" (JStr new_id) d))])%list
    else
      fst (add_card m (JDict d) w) = failure int_limit_exceeded /\
      remote_state (snd (add_card m (JDict d) w)) (table_url t) = Some rows.
Proof.
  intros K T Hd.
  destruct (add_card_without_id_run SUPABASE_URL HEADERS MODULE_TO_TABLE
              Store.state send m t d w _ _ (map Store.row_id (order rows))
              K Hd (send_get_ids _ _ _ _ T) eq_refl eq_refl)
    as (M & _ & HM & Hub & Hatt & Over & Within).
  assert (Listed : forall x, In x rows -> In (Store.row_id x)
                                             (map Store.row_id (order rows))).
  { intros x Hx. apply in_map.
    eapply Permutation_in; [apply Permutation_sym, order_perm|exact Hx]. }
  assert (Held : forall id, In id (map Store.row_id (order rows)) ->
                            exists x, In x rows /\ Store.row_id x = id).
  { intros id Hid. apply in_map_iff in Hid as (x & <- & Hx).
    exists x. split; [|reflexivity].
    eapply Permutation_in; [apply order_perm|exact Hx]. }
  assert (Hatt' : M = 0 \/ exists x, In x rows /\ card_number m (Store.row_id x) = Some M).
  { destruct Hatt as [->|(id & Hid & Hn)]; [now left|].
    destruct (Held id Hid) as (x & Hx & <-). right. now exists x. }
  exists M. split; [exact HM|]. split.
  { intros x n Hx. apply Hub. now apply Listed. }
  split; [exact Hatt'|]. split.
  { intros Short. apply (max_number_within_limit m (map Store.row_id (order rows)));
      [assumption|assumption|].
    intros id Hid. destruct (Held id Hid) as (x & Hx & <-). now apply Short. }
  destruct (within_digit_limit (M + 1)) eqn:W.
  - cbv zeta. set (new_id := m ++ "_card_" ++ str_int (M + 1)) in *.
    assert (Fresh : Store.has_id new_id rows = false).
    { apply has_id_false. intros Hin.
      assert (Hin' : In new_id (map Store.row_id (order rows))).
      { eapply Permutation_in; [|exact Hin].
        apply Permutation_map, Permutation_sym, order_perm. }
      assert (HM1 : 0 <= M + 1) by lia.
      pose proof (Hub _ _ Hin' (card_number_of_made_id m (M + 1) HM1 W)). lia. }
    split; [exact Fresh|].
    rewrite (Within eq_refl _ _ (send_insert_new _ _ _ _ _ _ T Fresh)).
    change (fetch_outcome (Store.answer 201 "Created" (Some ?b))) with (Ok b).
    cbn [fst snd after remote_state rbind]. rewrite set_table_same.
    split; [|reflexivity].
    unfold created, reshape. simpl. now rewrite dict_set_twice.
  - rewrite (Over eq_refl). cbn [fst snd after remote_state].
    split; [reflexivity|exact T].
Qed.

(** What Bulk Import leaves in a table of the store. *)
Lemma import_cards_stores m t d cards ids (w : world Store.state) rows :
  resolves m t ->
  remote_state w (table_url t) = Some rows ->
  dict_get "cards" d = Some (JList (map JDict cards)) ->
  Forall2 has_cardid cards ids ->
  NoDup ids ->
  exists w',
    import_cards m (JDict d) w
    = ((JDict [("success", JBool true);
               ("count", JNum (Z.of_nat (List.length cards)))], 200), w') /\
    remote_state w' (table_url t) = Some (stored_cards cards ids).
Proof.
  intros K T Hd Hcards Hnodup.
  destruct (stored_cards_rows _ _ Hcards) as (Hrows & Hids & _ & _).
  assert (D : Store.distinct_ids (stored_cards cards ids) = true)
    by (apply distinct_ids_NoDup; now rewrite Hids).
  unfold import_cards, route, bind, lift, ret. cbn [py_get]. rewrite Hd.
  rewrite (supabase_fetch_known SUPABASE_URL HEADERS MODULE_TO_TABLE Store.state
             send _ _ _ _ _ _ _ _ K (send_delete_all _ _ _ _ _ T)).
  change (fetch_outcome (Store.answer 200 "OK" ?b))
    with (Ok (JList (map Store.row_json rows))).
  cbv beta iota. rewrite Hrows.
  match goal with
  | |- context [insert_rows _ _ _ _ _ _ _ ?w1] =>
      destruct (insert_rows_stores SUPABASE_URL HEADERS MODULE_TO_TABLE order
                  m t (stored_cards cards ids) w1 K
                  (set_table_same _ _ _) D) as (w2 & -> & T2)
  end.
  rewrite length_map.
  exists w2. split; [reflexivity|exact T2].
Qed.

(** X12.  Bulk Import followed by List on the store: for a body whose
    [cards] is an array of card objects, each with a string [cardid] and
    no two with the same, Import answers 200 with the number of cards and
    List then returns exactly those cards, whatever the table held. *)
Theorem import_then_list_gives_cards m t d cards ids (w : world Store.state) rows :
  resolves m t ->
  remote_state w (table_url t) = Some rows ->
  dict_get "cards" d = Some (JList (map JDict cards)) ->
  Forall2 has_cardid cards ids ->
  NoDup ids ->
  exists listed,
    fst (import_cards m (JDict d) w)
    = (JDict [("success", JBool true);
              ("count", JNum (Z.of_nat (List.length cards)))], 200) /\
    fst (get_all_cards m (snd (import_cards m (JDict d) w))) = (JList listed, 200) /\
    Permutation listed (map JDict cards).
Proof.
  intros K T Hd Hcards Hnodup.
  destruct (import_cards_stores m t d cards ids w rows K T Hd Hcards Hnodup)
    as (w' & -> & T').
  destruct (stored_cards_rows _ _ Hcards) as (_ & _ & Hdata & Hnamed).
  exists (map Store.row_data (order (stored_cards cards ids))).
  split; [reflexivity|]. split.
  - cbn [snd].
    rewrite (get_all_cards_run SUPABASE_URL HEADERS MODULE_TO_TABLE Store.state send).
    rewrite (supabase_fetch_known SUPABASE_URL HEADERS MODULE_TO_TABLE Store.state
               send _ _ _ _ _ _ _ _ K
               (send_get_all _ _ _ _ _ T')).
    change (fetch_outcome (Store.answer 200 "OK" (Some ?b))) with (Ok b).
    unfold transform_from_supabase. cbn [py_iter rbind].
    rewrite transform_loop_self_named; [reflexivity|].
    eapply Permutation_Forall; [|exact Hnamed].
    apply Permutation_sym, order_perm.
  - rewrite <- Hdata. apply Permutation_map, order_perm.
Qed.

(** X15.  Reset and Bulk Import empty the table before they have the rows
    to put in: when the fixture file cannot be loaded, or when an element
    of the imported array is not an object, the route answers 500 and the
    table of the module is left empty. *)
Theorem failed_load_leaves_table_empty m t (w : world Store.state) rows :
  resolves m t ->
  remote_state w (table_url t) = Some rows ->
  (forall e,
      load_file (m ++ "_cards.json") = Raise e ->
      fst (reset_cards m w)
      = (JDict [("success", JBool false);
                ("error", JStr ("重置失败: " ++ str_exn e))], 500) /\
      remote_state (snd (reset_cards m w)) (table_url t) = Some []) /\
  (forall d cards e,
      dict_get "cards" d = Some (JList cards) ->
      rows_to_insert cards = Raise e ->
      fst (import_cards m (JDict d) w)
      = (JDict [("success", JBool false);
                ("error", JStr ("导入失败: " ++ str_exn e))], 500) /\
      remote_state (snd (import_cards m (JDict d) w)) (table_url t) = Some []).
Proof.
  intros K T. split.
  - intros e Hfile.
    unfold reset_cards, route, bind, lift, ret.
    rewrite (supabase_fetch_known SUPABASE_URL HEADERS MODULE_TO_TABLE Store.state
               send _ _ _ _ _ _ _ _ K (send_delete_all _ _ _ _ _ T)).
    change (fetch_outcome (Store.answer 200 "OK" ?b))
      with (Ok (JList (map Store.row_json rows))).
    cbv beta iota. rewrite Hfile.
    cbn [fst snd after remote_state]. rewrite set_table_same. split; reflexivity.
  - intros d cards e Hd Hrows.
    unfold import_cards, route, bind, lift, ret. cbn [py_get]. rewrite Hd.
    rewrite (supabase_fetch_known SUPABASE_URL HEADERS MODULE_TO_TABLE Store.state
               send _ _ _ _ _ _ _ _ K (send_delete_all _ _ _ _ _ T)).
    change (fetch_outcome (Store.answer 200 "OK" ?b))
      with (Ok (JList (map Store.row_json rows))).
    cbv beta iota. rewrite Hrows.
    cbn [fst snd after remote_state]. rewrite set_table_same. split; reflexivity.
Qed.

Lemma requests_request_on_store rq (w : world Store.state) rp st :
  send rq (remote_state w) = (rp, st) ->
  requests_request Store.state send rq w
  = (match rp with Failed e => Raise e | Replied r => Ok r end, after w rq rp st).
Proof. intros S. unfold requests_request. rewrite S. now destruct rp. Qed.

Lemma send_check url hs (st : Store.state) rows :
  st url = Some rows ->
  send (mk_request "GET" url hs [("select", "cardid"); ("limit", "1")] None) st
  = (Store.answer 200 "OK"
       (Some (JList (map id_row (map Store.row_id (firstn 1 (order rows)))))), st).
Proof.
  intros T. unfold Store.send. cbn [req_url req_method req_params req_json].
  rewrite T. cbn [String.eqb Ascii.eqb Bool.eqb].
  unfold Store.get.
  change (Store.parse_filter [("select", "cardid"); ("limit", "1")])
    with (Some Store.AnyRow).
  change (Store.project [("select", "cardid"); ("limit", "1")])
    with (Some (fun r => JDict [("cardid", JStr (Store.row_id r))])).
  change (Store.limit [("select", "cardid"); ("limit", "1")])
    with (fun l : list Store.row => firstn 1 l).
  cbv beta iota. now rewrite filter_any_row, map_map.
Qed.

(** X16.  Seeding on the store: a table that holds a row is left as it is;
    an empty table stays empty when the fixture file cannot be loaded, and
    otherwise receives the fixture's cards (each with a string [cardid],
    no two with the same). *)
Theorem seeding_on_store m t (w : world Store.state) rows :
  table_get m MODULE_TO_TABLE = Some t ->
  remote_state w (table_url t) = Some rows ->
  match rows with
  | _ :: _ => remote_state (snd (initialize_data m w)) = remote_state w
  | [] =>
      (forall e,
          load_file (m ++ "_cards.json") = Raise e ->
          remote_state (snd (initialize_data m w)) = remote_state w) /\
      (forall cards ids,
          load_file (m ++ "_cards.json") = Ok (JList (map JDict cards)) ->
          Forall2 has_cardid cards ids ->
          NoDup ids ->
          remote_state (snd (initialize_data m w)) (table_url t)
          = Some (stored_cards cards ids))
  end.
Proof.
  intros Ht T.
  assert (Check :
    initialize_check SUPABASE_URL HEADERS MODULE_TO_TABLE Store.state send print m w
    = (Ok (match rows with [] => Some t | _ => None end),
       after w (mk_request "GET" (table_url t) HEADERS
                           [("select", "cardid"); ("limit", "1")] None)
             (Store.answer 200 "OK"
                (Some (JList (map id_row (map Store.row_id (firstn 1 (order rows)))))))
             (remote_state w))).
  { unfold initialize_check, try_except, bind, lift, ret, table_index.
    rewrite Ht.
    rewrite (requests_request_on_store _ _ _ _ (send_check _ _ _ _ T)).
    cbn [Store.answer raise_for_status status_code is_error_status response_json
         body_json py_len].
    change (is_error_status 200) with false. cbv beta iota.
    rewrite !length_map.
    destruct rows as [|r0 rows'].
    - rewrite (Permutation_nil (Permutation_sym (order_perm []))). reflexivity.
    - destruct (order (r0 :: rows')) as [|x l] eqn:O; [|reflexivity].
      pose proof (order_perm (r0 :: rows')) as P. rewrite O in P.
      now apply Permutation_nil in P. }
  unfold initialize_data, bind. rewrite Check.
  destruct rows as [|r0 rows']; [|reflexivity].
  unfold initialize_load, try_except, bind, lift, ret. cbv zeta. split.
  - intros e ->. destruct (exn_cls e); destruct (print _); reflexivity.
  - intros cards ids -> Hcards Hnodup.
    destruct (stored_cards_rows _ _ Hcards) as (Hrows & Hids & _ & _).
    assert (D : Store.distinct_ids (stored_cards cards ids) = true)
      by (apply distinct_ids_NoDup; now rewrite Hids).
    cbn [py_iter]. rewrite Hrows.
    destruct (stored_cards cards ids) as [|s0 stored] eqn:St.
    + exact T.
    + cbn [map]. unfold post_rows, bind, lift.
      change (JList (Store.row_json s0 :: map Store.row_json stored))
        with (JList (map Store.row_json (s0 :: stored))).
      unfold requests_request. cbn [after remote_state].
      rewrite (send_upsert_empty order _ _ _ _ T D).
      unfold Store.answer, raise_for_status. cbn [status_code].
      change (is_error_status 201) with false. cbv beta iota.
      cbn [py_len].
      repeat match goal with
             | |- context [exn_cls ?e] => destruct (exn_cls e)
             | |- context [format_int ?n] => destruct (format_int n)
             | |- context [print ?s] => destruct (print s)
             end;
        cbn [snd after remote_state]; apply set_table_same.
Qed.

End MoreStoreFacts.

(* ===================================================================== *)
(** ** The further properties on the demonstration deployment *)
(* ===================================================================== *)

(** X1, witness: mod3 is no module of the deployment. *)
Lemma unknown_module_answers_500_witness :
  (forall t, ~ resolves Demo.modules "mod3" t) /\
  Demo.delete_card "mod3" "mod3_card_1" (Demo.start [])
  = (failure (unknown_module "mod3"), Demo.start []).
Proof.
  assert (U : forall t, ~ resolves Demo.modules "mod3" t).
  { intros t [H _]. discriminate H. }
  split; [exact U|].
  exact (proj1 (proj2 (proj2 (proj2
           (unknown_module_answers_500 Demo.url Demo.headers Demo.modules
              Store.state Demo.send Demo.files "mod3" (Demo.start []) U))))
           "mod3_card_1").
Defined.

(** X2, witness: a store that has no table at all refuses the GET of List
    with 404. *)
Lemma remote_error_is_reported_witness :
  let w : world Store.state := mk_world (fun _ => None) [] true in
  ok (mk_response 404 "Not Found" "Not Found" None) = false /\
  fst (Demo.get_all_cards "mod1" w)
  = (JDict [("error", JStr "Supabase API Error 404: Not Found")], 500).
Proof.
  split; [reflexivity|].
  exact (proj1 (remote_error_is_reported Demo.url Demo.headers Demo.modules
                  Store.state Demo.send "mod1" "mod1_cards"
                  (mk_world (fun _ => None) [] true)
                  (mk_response 404 "Not Found" "Not Found" None) (fun _ => None)
                  demo_mod1 eq_refl) eq_refl).
Defined.

(** X5, witness: a Create that brings its id. *)
Lemma add_card_keeps_given_id_witness :
  let d := [("cardid", JStr "mine"); ("front", JStr "salut")] in
  let w := Demo.start [Store.mk_row "mod1_card_1" JNull] in
  truthy (JStr "mine") = true /\
  exists rp,
    since w (snd (Demo.add_card "mod1" (JDict d) w))
    = [(mk_request "POST" "https://db.example/rest/v1/mod1_cards" Demo.headers []
                   (Some (JDict [("cardid", JStr "mine"); ("data", JDict d)])), rp)].
Proof.
  split; [reflexivity|].
  exact (add_card_keeps_given_id Demo.url Demo.headers Demo.modules
           Store.state Demo.send "mod1" "mod1_cards"
           [("cardid", JStr "mine"); ("front", JStr "salut")] (JStr "mine")
           (Demo.start [Store.mk_row "mod1_card_1" JNull])
           demo_mod1 eq_refl eq_refl).
Defined.

(** X6, witness: a Create whose [cardid] is the empty string, on a table
    that holds two cards. *)
Lemma add_card_makes_fresh_id_witness :
  let d := [("cardid", JStr ""); ("front", JStr "salut")] in
  let ids := ["mod1_card_1"; "mod1_card_3"] in
  let w := Demo.start [Store.mk_row "mod1_card_1" JNull; Store.mk_row "mod1_card_3" JNull] in
  truthy (JStr "") = false /\
  ~ In "mod1_card_4" ids /\
  map (fun x => req_json (fst x)) (since w (snd (Demo.add_card "mod1" (JDict d) w)))
  = [None;
     Some (JDict [("cardid", JStr "mod1_card_4");
                  ("data", JDict [("cardid", JStr "mod1_card_4");
                                  ("front", JStr "salut")])])].
Proof.
  split; [reflexivity|].
  destruct (add_card_makes_fresh_id Demo.url Demo.headers Demo.modules
              Store.state Demo.send "mod1" "mod1_cards"
              [("cardid", JStr ""); ("front", JStr "salut")]
              (Demo.start [Store.mk_row "mod1_card_1" JNull;
                           Store.mk_row "mod1_card_3" JNull])
              _ _ ["mod1_card_1"; "mod1_card_3"]
              demo_mod1 eq_refl eq_refl eq_refl eq_refl)
    as (M & E & _ & Run).
  injection E as <-. change (within_digit_limit (3 + 1)) with true in Run.
  destruct Run as (Hnew & rp & Run).
  split; [exact Hnew|].
  unfold Demo.add_card. rewrite Run. reflexivity.
Defined.

(** X9, witness: the same Create on the store. *)
Lemma add_card_on_store_witness :
  let d := [("front", JStr "salut")] in
  let rows := [Store.mk_row "mod1_card_1" JNull; Store.mk_row "mod1_card_3" JNull] in
  Demo.mod1_rows (Demo.start rows) = Some rows /\
  Store.has_id "mod1_card_4" rows = false /\
  fst (Demo.add_card "mod1" (JDict d) (Demo.start rows))
  = (JDict [("success", JBool true);
            ("card", JDict [("front", JStr "salut"); ("cardid", JStr "mod1_card_4")])],
     201) /\
  Demo.mod1_rows (snd (Demo.add_card "mod1" (JDict d) (Demo.start rows)))
  = Some [Store.mk_row "mod1_card_1" JNull; Store.mk_row "mod1_card_3" JNull;
          Store.mk_row "mod1_card_4"
            (JDict [("front", JStr "salut"); ("cardid", JStr "mod1_card_4")])].
Proof.
  split; [reflexivity|].
  destruct (add_card_on_store Demo.url Demo.headers Demo.modules
              (fun rows => rows) (fun rows => Permutation_refl rows)
              "mod1" "mod1_cards" [("front", JStr "salut")]
              (Demo.start [Store.mk_row "mod1_card_1" JNull;
                           Store.mk_row "mod1_card_3" JNull])
              [Store.mk_row "mod1_card_1" JNull; Store.mk_row "mod1_card_3" JNull]
              demo_mod1 eq_refl eq_refl)
    as (M & H0 & Hub & Hatt & _ & Run).
  assert (HM : M = 3).
  { pose proof (Hub (Store.mk_row "mod1_card_3" JNull) 3
                    (or_intror (or_introl eq_refl)) eq_refl) as H3.
    destruct Hatt as [->|(x & [<-|[<-|[]]] & Hx)].
    - lia.
    - injection Hx as <-. lia.
    - injection Hx as <-. reflexivity. }
  subst M. change (within_digit_limit (3 + 1)) with true in Run.
  exact Run.
Defined.

(** X10, witness: an Update of the second of two cards. *)
Lemma update_card_on_store_witness :
  let rows := [Store.mk_row "mod1_card_1" (JDict [("front", JStr "bonjour")]);
               Store.mk_row "mod1_card_3" (JDict [("front", JStr "merci")])] in
  let d := [("cardid", JStr "mod1_card_9"); ("back", JStr "thanks")] in
  Store.distinct_ids rows = true /\
  fst (Demo.update_card "mod1" "mod1_card_3" (JDict d) (Demo.start rows))
  = (JDict [("success", JBool true);
            ("card", JDict [("back", JStr "thanks"); ("cardid", JStr "mod1_card_3")])], 200) /\
  Demo.mod1_rows (snd (Demo.update_card "mod1" "mod1_card_3" (JDict d) (Demo.start rows)))
  = Some [Store.mk_row "mod1_card_1" (JDict [("front", JStr "bonjour")]);
          Store.mk_row "mod1_card_3" (JDict [("back", JStr "thanks")])].
Proof.
  split; [reflexivity|].
  exact (update_card_on_store Demo.url Demo.headers Demo.modules
           (fun rows => rows) "mod1" "mod1_cards" "mod1_card_3"
           [("cardid", JStr "mod1_card_9"); ("back", JStr "thanks")]
           (Demo.start [Store.mk_row "mod1_card_1" (JDict [("front", JStr "bonjour")]);
                        Store.mk_row "mod1_card_3" (JDict [("front", JStr "merci")])])
           [Store.mk_row "mod1_card_1" (JDict [("front", JStr "bonjour")]);
            Store.mk_row "mod1_card_3" (JDict [("front", JStr "merci")])]
           demo_mod1 eq_refl eq_refl).
Defined.

(** X11, witness: a Delete of the first of two cards. *)
Lemma delete_card_on_store_witness :
  let rows := [Store.mk_row "mod1_card_1" JNull; Store.mk_row "mod1_card_3" JNull] in
  fst (Demo.delete_card "mod1" "mod1_card_1" (Demo.start rows))
  = (JDict [("success", JBool true)], 200) /\
  Demo.mod1_rows (snd (Demo.delete_card "mod1" "mod1_card_1" (Demo.start rows)))
  = Some [Store.mk_row "mod1_card_3" JNull].
Proof.
  destruct (delete_card_on_store Demo.url Demo.headers Demo.modules
              (fun rows => rows) "mod1" "mod1_cards" "mod1_card_1"
              (Demo.start [Store.mk_row "mod1_card_1" JNull;
                           Store.mk_row "mod1_card_3" JNull])
              [Store.mk_row "mod1_card_1" JNull; Store.mk_row "mod1_card_3" JNull]
              demo_mod1 eq_refl) as (A & B & _).
  split; [exact A|exact B].
Defined.

(** X12, witness: an Import of two cards into a table that held
    another. *)
Lemma import_then_list_gives_cards_witness :
  let cards := [[("cardid", JStr "a"); ("front", JStr "un")];
                [("cardid", JStr "b"); ("front", JStr "deux")]] in
  let body := JDict [("cards", JList (map JDict cards))] in
  let w := Demo.start [Store.mk_row "mod1_card_9" JNull] in
  NoDup ["a"; "b"] /\
  exists listed,
    fst (Demo.import_cards "mod1" body w)
    = (JDict [("success", JBool true); ("count", JNum 2)], 200) /\
    fst (Demo.get_all_cards "mod1" (snd (Demo.import_cards "mod1" body w)))
    = (JList listed, 200) /\
    Permutation listed (map JDict cards).
Proof.
  assert (N : NoDup ["a"; "b"]).
  { repeat constructor; simpl; intuition discriminate. }
  split; [exact N|].
  apply (import_then_list_gives_cards Demo.url Demo.headers Demo.modules
           (fun rows => rows) (fun rows => Permutation_refl rows)
           "mod1" "mod1_cards"
           [("cards", JList (map JDict [[("cardid", JStr "a"); ("front", JStr "un")];
                                        [("cardid", JStr "b"); ("front", JStr "deux")]]))]
           [[("cardid", JStr "a"); ("front", JStr "un")];
            [("cardid", JStr "b"); ("front", JStr "deux")]]
           ["a"; "b"]
           (Demo.start [Store.mk_row "mod1_card_9" JNull])
           [Store.mk_row "mod1_card_9" JNull]
           demo_mod1 eq_refl eq_refl).
  - repeat constructor.
  - exact N.
Defined.

(** X15, witness: mod2 has no fixture file; its Reset empties the
    table. *)
Lemma failed_load_leaves_table_empty_witness :
  let w := mk_world (Demo.tables [] [Store.mk_row "mod2_card_1" JNull]) [] true in
  resolves Demo.modules "mod2" "mod2_cards" /\
  snd (fst (Demo.reset_cards "mod2" w)) = 500 /\
  remote_state (snd (Demo.reset_cards "mod2" w)) "https://db.example/rest/v1/mod2_cards"
  = Some [].
Proof.
  assert (K : resolves Demo.modules "mod2" "mod2_cards").
  { split; [reflexivity|discriminate]. }
  split; [exact K|].
  destruct (proj1 (failed_load_leaves_table_empty Demo.url Demo.headers Demo.modules
                     Demo.files (fun rows => rows) "mod2" "mod2_cards"
                     (mk_world (Demo.tables [] [Store.mk_row "mod2_card_1" JNull]) [] true)
                     [Store.mk_row "mod2_card_1" JNull] K eq_refl)
                  _ eq_refl) as (A & B).
  split; [|exact B].
  unfold Demo.reset_cards, Demo.send. now rewrite A.
Defined.

(** X16, witness: seeding the empty table of mod1 from its fixture. *)
Lemma seeding_on_store_witness :
  Demo.mod1_rows (Demo.start []) = Some [] /\
  Demo.mod1_rows
    (snd (initialize_data Demo.url Demo.headers Demo.modules Store.state Demo.send
            Demo.files Demo.print "mod1" (Demo.start [])))
  = Some [Store.mk_row "mod1_card_1"
            (JDict [("cardid", JStr "mod1_card_1"); ("front", JStr "bonjour");
                    ("back", JStr "hello")]);
          Store.mk_row "mod1_card_3"
            (JDict [("cardid", JStr "mod1_card_3"); ("front", JStr "merci");
                    ("back", JStr "thanks")])].
Proof.
  split; [reflexivity|].
  apply (proj2 (seeding_on_store Demo.url Demo.headers Demo.modules Demo.files
                  Demo.print (fun rows => rows) (fun rows => Permutation_refl rows)
                  "mod1" "mod1_cards" (Demo.start []) [] eq_refl eq_refl)
               [[("cardid", JStr "mod1_card_1"); ("front", JStr "bonjour");
                 ("back", JStr "hello")];
                [("cardid", JStr "mod1_card_3"); ("front", JStr "merci");
                 ("back", JStr "thanks")]]
               ["mod1_card_1"; "mod1_card_3"]).
  - reflexivity.
  - repeat constructor.
  - repeat constructor; simpl; intuition discriminate.
Defined.

(* ===================================================================== *)
(** ** At the digit limit *)
(* ===================================================================== *)

(** A number of more digits than the limit is not written. *)
Lemma within_digit_limit_false (n : Z) :
  10 ^ int_max_str_digits <= n -> within_digit_limit n = false.
Proof.
  intros H. destruct (within_digit_limit n) eqn:W; [|reflexivity].
  assert (P : 0 < 10 ^ int_max_str_digits) by (apply Z.pow_pos_nonneg; [lia|discriminate]).
  assert (Hn : 0 <= n) by lia.
  pose proof (py_int_bound _ _ (py_int_str_int n Hn W)) as B.
  rewrite Z.abs_eq in B by assumption.
  unfold within_digit_limit in W. rewrite Z.abs_eq in W by assumption.
  apply Z.leb_le in W.
  assert (10 ^ Z.of_nat (String.length (str_int n)) <= 10 ^ int_max_str_digits)
    by (apply Z.pow_le_mono_r; lia).
  lia.
Qed.

Lemma nines_length (k : nat) : String.length (Demo.nines k) = k.
Proof. induction k as [|k IH]; cbn [Demo.nines String.length]; congruence. Qed.

Lemma nines_all_digits (k : nat) : all_digits (Demo.nines (S k)) = true.
Proof.
  unfold all_digits. cbn [Demo.nines String.eqb negb andb].
  induction k as [|k IH]; [reflexivity|].
  cbn [Demo.nines list_ascii_of_string forallb] in *.
  change (digit_of "9") with (Some 9) in *. exact IH.
Qed.

Lemma nines_value (k : nat) : digits_value (Demo.nines k) = 10 ^ Z.of_nat k - 1.
Proof.
  unfold digits_value.
  assert (G : forall acc,
             fold_left (fun a c => 10 * a + match digit_of c with
                                            | Some d => d
                                            | None => 0
                                            end)
                       (list_ascii_of_string (Demo.nines k)) acc
             = (acc + 1) * 10 ^ Z.of_nat k - 1).
  { induction k as [|k IH]; intros acc.
    - cbn [Demo.nines list_ascii_of_string fold_left]. change (10 ^ Z.of_nat 0) with 1. lia.
    - cbn [Demo.nines list_ascii_of_string fold_left].
      change (digit_of "9") with (Some 9). rewrite IH.
      rewrite Nat2Z.inj_succ, Z.pow_succ_r by lia. lia. }
  rewrite G. lia.
Qed.

(** An id that ends in nines, no more of them than the limit allows
    digits, is read as the number they write. *)
Lemma card_number_nines (m : string) (k : nat) :
  Z.of_nat (S k) <= int_max_str_digits ->
  card_number m (m ++ "_card_" ++ Demo.nines (S k)) = Some (10 ^ Z.of_nat (S k) - 1).
Proof.
  intros H. unfold card_number.
  rewrite <- append_assoc, startswith_app.
  rewrite (split_last_exact_id _ _ (nines_all_digits k)).
  rewrite (py_int_digit_run _ (nines_all_digits k)), nines_length, nines_value.
  destruct (int_max_str_digits <? Z.of_nat (S k)) eqn:L; [|reflexivity].
  apply Z.ltb_lt in L. lia.
Qed.

(** With such an id of as many nines as the limit, the number after it is
    not written: the Create answers the failure and the table is as
    before. *)
Example add_card_at_digit_limit :
  let id := "mod1_card_" ++ Demo.nines 4300 in
  let w := Demo.start [Store.mk_row id JNull] in
  card_number "mod1" id = Some (10 ^ Z.of_nat 4300 - 1) /\
  fst (Demo.add_card "mod1" (JDict [("front", JStr "salut")]) w)
  = failure int_limit_exceeded /\
  Demo.mod1_rows (snd (Demo.add_card "mod1" (JDict [("front", JStr "salut")]) w))
  = Some [Store.mk_row id JNull].
Proof.
  cbv zeta.
  assert (L : Z.of_nat 4300 <= int_max_str_digits) by (apply Z.leb_le; reflexivity).
  pose proof (card_number_nines "mod1" 4299 L) as N.
  split; [exact N|].
  destruct (add_card_without_id_run Demo.url Demo.headers Demo.modules
              Store.state Demo.send "mod1" "mod1_cards" [("front", JStr "salut")]
              (Demo.start [Store.mk_row ("mod1_card_" ++ Demo.nines 4300) JNull])
              _ _ ["mod1_card_" ++ Demo.nines 4300]
              demo_mod1 eq_refl eq_refl eq_refl eq_refl)
    as (M & _ & _ & Hub & _ & Over & _).
  pose proof (Hub _ _ (or_introl eq_refl) N) as HM.
  unfold Demo.add_card.
  rewrite Over; [split; reflexivity|].
  apply within_digit_limit_false.
  replace int_max_str_digits with (Z.of_nat 4300) by reflexivity.
  generalize dependent (10 ^ Z.of_nat 4300). intros. lia.
Qed.

(** The texts [int()] reads and those it does not. *)
Example py_int_reads :
  py_int (String (ascii_of_nat 28) "14") = None /\
  py_int "٣" = Some 3 /\
  py_int "٣٤" = Some 34 /\
  py_int " 12 " = Some 12 /\
  py_int "　3" = Some 3 /\
  py_int "1_2" = Some 12 /\
  py_int "-7" = Some (-7) /\
  py_int "1__2" = None /\
  py_int "²" = None /\
  py_int "x" = None.
Proof. repeat split; reflexivity. Qed.

(** With the standard output closed, seeding raises where it prints. *)
Example seeding_on_closed_output :
  fst (check_initial_data Demo.url Demo.headers Demo.modules Store.state Demo.send
         Demo.files Demo.closed_output (mk_world (Demo.tables [] []) [] false))
  = Raise (mk_exn ValueError "I/O operation on closed file.") /\
  fst (initialize_data Demo.url Demo.headers Demo.modules Store.state Demo.send
         Demo.files Demo.closed_output "mod2" (Demo.start []))
  = Raise (mk_exn ValueError "I/O operation on closed file.") /\
  fst (initialize_data Demo.url Demo.headers Demo.modules Store.state Demo.send
         Demo.files Demo.print "mod2" (Demo.start []))
  = Ok tt.
Proof. repeat split; reflexivity. Qed.
